(** * RH Control: leave entitlement engine and identifier validators

    Shallow embedding of
      - [src/models/afastamento.py]  ([Afastamento.dias_afastamento]),
      - [src/models/funcionario.py]  ([Funcionario]),
      - [src/utils/ferias.py]        ([FeriasManager]),
      - [src/utils/validators.py]    ([Validators]),
      - [src/config.py]              ([DIAS_FERIAS_ANUAL], [MESES_PARA_FERIAS]),
      - [src/models/usuario.py]      ([Usuario.tem_permissao]),
      - [src/utils/auth.py]          ([AuthManager.verificar_permissao]),
      - [src/utils/database.py]      ([DatabaseManager], the JSON store),
      - [src/utils/charts.py], [pages/dashboard.py] (the totals by kind),
    together with the part of Python's [datetime] module these functions
    rely on (naive datetimes: field-wise comparison, subtraction through
    proleptic Gregorian ordinals, addition of a whole number of days).

    Conventions.
      - Python [int] is [Z]; [//] and [%] are [Z.div] and [Z.modulo] (both
        floor towards minus infinity), except that a zero divisor raises.
      - Python exceptions are values of [exn] in the result type [M].
      - [datetime.now()] is an explicit argument [agora].
      - [str] is [string] for names, kinds and messages.  The identifier
        validators and formatters take free text: there a [str] is the
        list of its Unicode code points, and the decimal digits are those
        of the interpreter's Unicode database, of which the functions
        take the look-up [decimal] as an argument. *)

From Stdlib Require Import ZArith List String Ascii Bool Lia Permutation.
From Stdlib Require Import DecimalString.
Import ListNotations.

Open Scope string_scope.
Open Scope Z_scope.

(** ** Python values and exceptions *)

Module Py.

Inductive exn : Type :=
| ZeroDivisionError
| OverflowError.

Inductive M (A : Type) : Type :=
| Ok (a : A)
| Raise (e : exn).

Arguments Ok {A} a.
Arguments Raise {A} e.

Definition bind {A B : Type} (m : M A) (k : A -> M B) : M B :=
  match m with
  | Ok a => k a
  | Raise e => Raise e
  end.

Definition fmap {A B : Type} (f : A -> B) (m : M A) : M B :=
  bind m (fun a => Ok (f a)).

(** [a // b] *)
Definition floordiv (a b : Z) : M Z :=
  if b =? 0 then Raise ZeroDivisionError else Ok (a / b).

(** [str(n)] for an [int] *)
Definition str (n : Z) : string := NilZero.string_of_int (Z.to_int n).

End Py.

Export Py.

Declare Scope py_scope.
Delimit Scope py_scope with py.
Notation "x <- m ;; k" := (bind m (fun x => k))
  (at level 61, m at next level, right associativity) : py_scope.
Open Scope py_scope.

(** ** Python's [datetime] (naive) *)

Module Datetime.

Definition MINYEAR : Z := 1.
Definition MAXYEAR : Z := 9999.
Definition MAXORDINAL : Z := 3652059.

Record datetime : Type := mk_datetime {
  year : Z;
  month : Z;
  day : Z;
  hour : Z;
  minute : Z;
  second : Z;
  microsecond : Z
}.

(** A [timedelta] in normal form: [0 <= seconds < 86400],
    [0 <= microseconds < 1000000], the sign carried by [days]. *)
Record timedelta : Type := mk_timedelta {
  days : Z;
  seconds : Z;
  microseconds : Z
}.

Definition is_leap (y : Z) : bool :=
  (y mod 4 =? 0) && (negb (y mod 100 =? 0) || (y mod 400 =? 0)).

Definition DAYS_IN_MONTH : list Z :=
  [-1; 31; 28; 31; 30; 31; 30; 31; 31; 30; 31; 30; 31].

Definition DAYS_BEFORE_MONTH : list Z :=
  [-1; 0; 31; 59; 90; 120; 151; 181; 212; 243; 273; 304; 334].

Definition days_before_year (y : Z) : Z :=
  let y := y - 1 in y * 365 + y / 4 - y / 100 + y / 400.

Definition days_in_month (y m : Z) : Z :=
  if (m =? 2) && is_leap y then 29 else nth (Z.to_nat m) DAYS_IN_MONTH 0.

Definition days_before_month (y m : Z) : Z :=
  nth (Z.to_nat m) DAYS_BEFORE_MONTH 0 + (if (m >? 2) && is_leap y then 1 else 0).

Definition ymd2ord (y m d : Z) : Z :=
  days_before_year y + days_before_month y m + d.

Definition DI400Y : Z := 146097.
Definition DI100Y : Z := 36524.
Definition DI4Y : Z := 1461.

(** [_ord2ymd]: ordinal to (year, month, day), 0001-01-01 being day 1. *)
Definition ord2ymd (n : Z) : Z * Z * Z :=
  let n := n - 1 in
  let n400 := n / DI400Y in
  let n := n mod DI400Y in
  let y := n400 * 400 + 1 in
  let n100 := n / DI100Y in
  let n := n mod DI100Y in
  let n4 := n / DI4Y in
  let n := n mod DI4Y in
  let n1 := n / 365 in
  let n := n mod 365 in
  let y := y + n100 * 100 + n4 * 4 + n1 in
  if (n1 =? 4) || (n100 =? 4) then (y - 1, 12, 31)
  else
    let leapyear := (n1 =? 3) && (negb (n4 =? 24) || (n100 =? 3)) in
    let m := Z.shiftr (n + 50) 5 in
    let preceding :=
      nth (Z.to_nat m) DAYS_BEFORE_MONTH 0
      + (if (m >? 2) && leapyear then 1 else 0) in
    if preceding >? n then
      let m := m - 1 in
      let preceding :=
        preceding - (nth (Z.to_nat m) DAYS_IN_MONTH 0
                     + (if (m =? 2) && leapyear then 1 else 0)) in
      (y, m, n - preceding + 1)
    else (y, m, n - preceding + 1).

(** The values the constructor [datetime(...)] accepts. *)
Definition valid (d : datetime) : Prop :=
  MINYEAR <= year d <= MAXYEAR /\
  1 <= month d <= 12 /\
  1 <= day d <= days_in_month (year d) (month d) /\
  0 <= hour d < 24 /\
  0 <= minute d < 60 /\
  0 <= second d < 60 /\
  0 <= microsecond d < 1000000.

Definition validb (d : datetime) : bool :=
  (MINYEAR <=? year d) && (year d <=? MAXYEAR) &&
  (1 <=? month d) && (month d <=? 12) &&
  (1 <=? day d) && (day d <=? days_in_month (year d) (month d)) &&
  (0 <=? hour d) && (hour d <? 24) &&
  (0 <=? minute d) && (minute d <? 60) &&
  (0 <=? second d) && (second d <? 60) &&
  (0 <=? microsecond d) && (microsecond d <? 1000000).

Definition toordinal (d : datetime) : Z := ymd2ord (year d) (month d) (day d).

(** [timedelta(days, seconds, microseconds)] before the range check:
    carries are propagated so that the result is in normal form. *)
Definition normalize (d s us : Z) : timedelta :=
  let s := s + us / 1000000 in
  let us := us mod 1000000 in
  let d := d + s / 86400 in
  let s := s mod 86400 in
  mk_timedelta d s us.

(** [timedelta(days=n)] *)
Definition timedelta_days (n : Z) : M timedelta :=
  if Z.abs n >? 999999999 then Raise OverflowError else Ok (normalize n 0 0).

(** [a - b] for two naive datetimes.  For [valid] operands the difference
    is below 3652059 days in absolute value, so the range check of
    [timedelta] never fires. *)
Definition sub (a b : datetime) : timedelta :=
  normalize (toordinal a - toordinal b)
            ((second a + minute a * 60 + hour a * 3600)
             - (second b + minute b * 60 + hour b * 3600))
            (microsecond a - microsecond b).

(** [a + t] *)
Definition add (a : datetime) (t : timedelta) : M datetime :=
  let delta :=
    normalize (toordinal a + days t)
              (hour a * 3600 + minute a * 60 + second a + seconds t)
              (microsecond a + microseconds t) in
  let h := seconds delta / 3600 in
  let rem := seconds delta mod 3600 in
  let mi := rem / 60 in
  let s := rem mod 60 in
  if (0 <? days delta) && (days delta <=? MAXORDINAL) then
    let '(y, m, d) := ord2ymd (days delta) in
    Ok (mk_datetime y m d h mi s (microseconds delta))
  else Raise OverflowError.

(** Three-way comparison of the field tuples, as [datetime._cmp] does. *)
Fixpoint cmp_tuple (xs ys : list Z) : comparison :=
  match xs, ys with
  | x :: xs', y :: ys' =>
      match x ?= y with
      | Eq => cmp_tuple xs' ys'
      | c => c
      end
  | [], [] => Eq
  | [], _ :: _ => Lt
  | _ :: _, [] => Gt
  end.

Definition fields (d : datetime) : list Z :=
  [year d; month d; day d; hour d; minute d; second d; microsecond d].

Definition cmp (a b : datetime) : comparison := cmp_tuple (fields a) (fields b).

(** [a < b] and [a > b] *)
Definition lt (a b : datetime) : bool :=
  match cmp a b with Lt => true | _ => false end.

Definition gt (a b : datetime) : bool :=
  match cmp a b with Gt => true | _ => false end.

(** A calendar date at midnight, [datetime(y, m, d)]. *)
Definition date (y m d : Z) : datetime := mk_datetime y m d 0 0 0 0.

End Datetime.

Export Datetime.

(** ** [src/config.py]

    [DIAS_FERIAS_ANUAL] and [MESES_PARA_FERIAS] are read from the
    environment through [int(os.getenv(..))]: any integer can occur. *)

Record Config : Type := mk_Config {
  DIAS_FERIAS_ANUAL : Z;
  MESES_PARA_FERIAS : Z
}.

Definition default_config : Config :=
  {| DIAS_FERIAS_ANUAL := 30; MESES_PARA_FERIAS := 12 |}.

(** ** [src/models/afastamento.py] *)

Inductive TipoAfastamento : Type :=
| ATESTADO_MEDICO
| FERIAS
| LICENCA_MATERNIDADE
| FALTA
| LICENCA_PATERNIDADE
| LICENCA_LUTO
| OUTRO.

(** [TipoAfastamento.X.value] *)
Definition value (t : TipoAfastamento) : string :=
  match t with
  | ATESTADO_MEDICO => "Atestado Médico"
  | FERIAS => "Férias"
  | LICENCA_MATERNIDADE => "Licença-Maternidade"
  | FALTA => "Falta"
  | LICENCA_PATERNIDADE => "Licença-Paternidade"
  | LICENCA_LUTO => "Licença por Luto"
  | OUTRO => "Outro"
  end.

Module Afastamento.

Record t : Type := mk {
  id : option Z;
  funcionario_id : Z;
  tipo : string;
  data_inicio : option datetime;
  data_fim : option datetime;
  motivo : string;
  observacoes : string;
  documento_anexo : option string;
  data_criacao : option datetime;
  data_atualizacao : option datetime
}.

(** [Afastamento.dias_afastamento]: [None] is falsy, a [datetime] is
    always truthy. *)
Definition dias_afastamento (self : t) : Z :=
  match data_inicio self, data_fim self with
  | Some inicio, Some fim => days (sub fim inicio) + 1
  | _, _ => 0
  end.

End Afastamento.

Abbreviation Afastamento := Afastamento.t.

(** ** [src/models/funcionario.py]

    The field [salario] (a [float]) is left out: nothing below reads it. *)

Module Funcionario.

Record t : Type := mk {
  id : option Z;
  nome : string;
  cpf : string;
  email : string;
  telefone : string;
  endereco : string;
  loja : string;
  data_admissao : option datetime;
  cargo : string;
  ativo : bool;
  data_criacao : option datetime;
  data_atualizacao : option datetime
}.

End Funcionario.

Abbreviation Funcionario := Funcionario.t.

(** ** [src/utils/ferias.py] *)

Module FeriasManager.

Definition calcular_dias_ferias_disponiveis
    (cfg : Config) (agora : datetime) (funcionario : Funcionario) : M Z :=
  match Funcionario.data_admissao funcionario with
  | None => Ok 0
  | Some data_admissao =>
      let tempo_servico := (year agora - year data_admissao) * 12 in
      let tempo_servico :=
        tempo_servico + (month agora - month data_admissao) in
      if tempo_servico <? MESES_PARA_FERIAS cfg then Ok 0
      else
        periodos_completos <- floordiv tempo_servico (MESES_PARA_FERIAS cfg) ;;
        let dias_totais := periodos_completos * DIAS_FERIAS_ANUAL cfg in
        Ok dias_totais
  end.

Definition calcular_dias_ferias_usados
    (funcionario : Funcionario) (afastamentos : list Afastamento) : Z :=
  fold_left
    (fun dias_usados afastamento =>
       if (Afastamento.tipo afastamento =? "Férias")%string
       then dias_usados + Afastamento.dias_afastamento afastamento
       else dias_usados)
    afastamentos 0.

Definition calcular_dias_ferias_restantes
    (cfg : Config) (agora : datetime) (funcionario : Funcionario)
    (afastamentos : list Afastamento) : M Z :=
  disponiveis <- calcular_dias_ferias_disponiveis cfg agora funcionario ;;
  let usados := calcular_dias_ferias_usados funcionario afastamentos in
  Ok (Z.max 0 (disponiveis - usados)).

Definition obter_proxima_data_ferias
    (cfg : Config) (agora : datetime) (funcionario : Funcionario)
    : M (option datetime) :=
  match Funcionario.data_admissao funcionario with
  | None => Ok None
  | Some data_admissao =>
      let tempo_servico := (year agora - year data_admissao) * 12 in
      let tempo_servico :=
        tempo_servico + (month agora - month data_admissao) in
      if tempo_servico >=? MESES_PARA_FERIAS cfg then Ok (Some agora)
      else
        delta <- timedelta_days (MESES_PARA_FERIAS cfg * 30) ;;
        proxima_data <- add data_admissao delta ;;
        Ok (Some proxima_data)
  end.

Definition msg_saldo (dias_restantes dias_solicitados : Z) : string :=
  "Funcionário tem apenas " ++ str dias_restantes
  ++ " dias de férias disponíveis, mas solicitou "
  ++ str dias_solicitados ++ " dias.".

Definition msg_conflito (tipo : string) : string :=
  "Há um conflito com outro afastamento (" ++ tipo
  ++ ") no período solicitado.".

Definition msg_sucesso : string := "Férias validadas com sucesso.".

(** The [for] loop of [validar_ferias], with its early [return]. *)
Fixpoint verificar_conflitos
    (data_inicio data_fim : datetime) (afastamentos : list Afastamento)
    : bool * string :=
  match afastamentos with
  | [] => (true, msg_sucesso)
  | afastamento :: resto =>
      match Afastamento.data_inicio afastamento,
            Afastamento.data_fim afastamento with
      | Some a_inicio, Some a_fim =>
          if negb (lt data_fim a_inicio || gt data_inicio a_fim)
          then (false, msg_conflito (Afastamento.tipo afastamento))
          else verificar_conflitos data_inicio data_fim resto
      | _, _ => verificar_conflitos data_inicio data_fim resto
      end
  end.

Definition validar_ferias
    (cfg : Config) (agora : datetime) (funcionario : Funcionario)
    (data_inicio data_fim : datetime) (afastamentos : list Afastamento)
    : M (bool * string) :=
  let dias_solicitados := days (sub data_fim data_inicio) + 1 in
  dias_restantes <-
    calcular_dias_ferias_restantes cfg agora funcionario afastamentos ;;
  if dias_solicitados >? dias_restantes
  then Ok (false, msg_saldo dias_restantes dias_solicitados)
  else Ok (verificar_conflitos data_inicio data_fim afastamentos).

End FeriasManager.

(** ** Python [str] as a sequence of code points

    The identifier functions of [validators.py] take free text.  A [str]
    is a sequence of Unicode code points, and the class [\d] of [re], like
    [int], recognises the decimal digits of every script, not only
    ['0'..'9']. *)

Module Str.

(** A string: its code points, in order. *)
Definition t : Type := list Z.

(** The code points of a literal written in ASCII. *)
Definition of_ascii (s : string) : t :=
  map (fun c => Z.of_nat (nat_of_ascii c)) (list_ascii_of_string s).

(** [len(s)] *)
Definition len (s : t) : Z := Z.of_nat (List.length s).

(** [s[i:j]] for [0 <= i <= j] *)
Definition slice (s : t) (i j : nat) : t := firstn (j - i) (skipn i s).

(** [s[i:]] for [0 <= i] *)
Definition slice_from (s : t) (i : nat) : t := skipn i s.

(** [a == b] *)
Fixpoint eqb (a b : t) : bool :=
  match a, b with
  | [], [] => true
  | c :: a', d :: b' => (c =? d) && eqb a' b'
  | _, _ => false
  end.

End Str.

(** ** The Unicode character database *)

Module Unicode.

(** The interpreter's database is seen through [Py_UNICODE_TODECIMAL],
    here a function [decimal] from code points to the value of a decimal
    digit, if the code point is one.  It changes with the version of
    Unicode; in every version the decimal digits of ASCII are ['0'..'9']
    with their usual values. *)
Definition extends_ascii (decimal : Z -> option Z) : Prop :=
  forall c, 0 <= c < 128 ->
    decimal c = if (48 <=? c) && (c <=? 57) then Some (c - 48) else None.

(** One such database, used in the examples: the decimal digits (general
    category Nd) of Unicode 14.0, the version of CPython 3.11.  The digits
    of a script are ten consecutive code points in increasing order of
    value; [zeros] lists the digit zero of each script (ASCII,
    Arabic-Indic, Extended Arabic-Indic, NKo, Devanagari, ...). *)
Definition zeros : list Z :=
  [48; 1632; 1776; 1984; 2406; 2534; 2662; 2790; 2918; 3046; 3174; 3302;
   3430; 3558; 3664; 3792; 3872; 4160; 4240; 6112; 6160; 6470; 6608; 6784;
   6800; 6992; 7088; 7232; 7248; 42528; 43216; 43264; 43472; 43504; 43600;
   44016; 65296; 66720; 68912; 69734; 69872; 69942; 70096; 70384; 70736;
   70864; 71248; 71360; 71472; 71904; 72016; 72784; 73040; 73120; 92768;
   92864; 93008; 120782; 120792; 120802; 120812; 120822; 123200; 123632;
   125264; 130032].

Definition decimal (c : Z) : option Z :=
  match find (fun z => (z <=? c) && (c <? z + 10)) zeros with
  | Some z => Some (c - z)
  | None => None
  end.

End Unicode.

(** ** [src/utils/validators.py] *)

Module Validators.

(** [s[i]]; every use below is guarded by a test on [len(s)], so the
    index is in range and the default is never returned. *)
Definition char_at (s : Str.t) (i : nat) : Z := nth i s 0.

(** [c * n] for a one-character string [c] *)
Definition repeat_char (c : Z) (n : nat) : Str.t := repeat c n.

(** [range(n)] *)
Definition range (n : nat) : list Z := map Z.of_nat (seq 0 n).

(** [sum(...)] *)
Definition sum (l : list Z) : Z := fold_left Z.add l 0.

Section Digits.

(** [Py_UNICODE_TODECIMAL]: the decimal value of a code point that is a
    decimal digit in the interpreter's Unicode database.  The class [\d]
    of a [str] pattern and [int] both go through it. *)
Variable decimal : Z -> option Z.

(** The class [\d] on a [str]. *)
Definition is_digit (c : Z) : bool :=
  match decimal c with
  | Some _ => true
  | None => false
  end.

(** [re.sub(r'\D', '', s)] *)
Fixpoint remove_non_digits (s : Str.t) : Str.t :=
  match s with
  | [] => []
  | c :: rest =>
      if is_digit c then c :: remove_non_digits rest
      else remove_non_digits rest
  end.

(** [int(c)] for a one-character string.  It raises [ValueError] unless
    [c] is a decimal digit; every use below is on a character that
    [re.sub(r'\D', '', ...)] has kept, so the second branch is never
    taken. *)
Definition int_of_char (c : Z) : Z :=
  match decimal c with
  | Some v => v
  | None => 0
  end.

Definition validar_cpf (cpf : Str.t) : bool :=
  let cpf := remove_non_digits cpf in
  if negb (Str.len cpf =? 11) then false
  else if Str.eqb cpf (repeat_char (char_at cpf 0) 11) then false
  else
    let soma :=
      sum (map (fun i => int_of_char (char_at cpf (Z.to_nat i)) * (10 - i))
               (range 9)) in
    let digito1 := 11 - (soma mod 11) in
    let digito1 := if digito1 >? 9 then 0 else digito1 in
    if negb (int_of_char (char_at cpf 9) =? digito1) then false
    else
      let soma :=
        sum (map (fun i => int_of_char (char_at cpf (Z.to_nat i)) * (11 - i))
                 (range 10)) in
      let digito2 := 11 - (soma mod 11) in
      let digito2 := if digito2 >? 9 then 0 else digito2 in
      if negb (int_of_char (char_at cpf 10) =? digito2) then false
      else true.

Definition validar_telefone (telefone : Str.t) : bool :=
  let telefone := remove_non_digits telefone in
  (Str.len telefone =? 10) || (Str.len telefone =? 11).

Definition formatar_cpf (cpf : Str.t) : Str.t :=
  let cpf := remove_non_digits cpf in
  if Str.len cpf =? 11 then
    (Str.slice cpf 0 3 ++ Str.of_ascii "." ++ Str.slice cpf 3 6
     ++ Str.of_ascii "." ++ Str.slice cpf 6 9 ++ Str.of_ascii "-"
     ++ Str.slice_from cpf 9)%list
  else cpf.

Definition formatar_telefone (telefone : Str.t) : Str.t :=
  let telefone := remove_non_digits telefone in
  if Str.len telefone =? 11 then
    (Str.of_ascii "(" ++ Str.slice telefone 0 2 ++ Str.of_ascii ") "
     ++ Str.slice telefone 2 7 ++ Str.of_ascii "-"
     ++ Str.slice_from telefone 7)%list
  else if Str.len telefone =? 10 then
    (Str.of_ascii "(" ++ Str.slice telefone 0 2 ++ Str.of_ascii ") "
     ++ Str.slice telefone 2 6 ++ Str.of_ascii "-"
     ++ Str.slice_from telefone 6)%list
  else telefone.

End Digits.

End Validators.

(** ** Auxiliary notions used to state the properties *)

(** Microseconds elapsed since the start of day 0 of the ordinal scale. *)
Definition timestamp_us (d : datetime) : Z :=
  (toordinal d * 86400 + (hour d * 3600 + minute d * 60 + second d)) * 1000000
  + microsecond d.

(** Inclusive intervals [[s1, e1]] and [[s2, e2]] overlap. *)
Definition overlap (s1 e1 s2 e2 : datetime) : bool :=
  negb (lt e1 s2 || gt s1 e2).

(** The candidate [[data_inicio, data_fim]] conflicts with a record:
    the record has both dates and the intervals overlap. *)
Definition conflita (data_inicio data_fim : datetime) (a : Afastamento) : bool :=
  match Afastamento.data_inicio a, Afastamento.data_fim a with
  | Some a_inicio, Some a_fim => overlap data_inicio data_fim a_inicio a_fim
  | _, _ => false
  end.

Definition is_ferias (a : Afastamento) : bool :=
  (Afastamento.tipo a =? "Férias")%string.

(** Sum of a list of day counts. *)
Definition total (l : list Z) : Z := fold_right Z.add 0 l.

(** The digit values of a string of digits. *)
Definition digits (decimal : Z -> option Z) (s : Str.t) : list Z :=
  map (Validators.int_of_char decimal) s.

(** Check digit obtained from a weighted sum, as [validar_cpf] computes
    [digito1] and [digito2]. *)
Definition digito_verificador (soma : Z) : Z :=
  let d := 11 - (soma mod 11) in if d >? 9 then 0 else d.

(** The description of the national-ID check in the specification, word
    for word: the check digit is "the remainder of the sum mod 11, mapped
    to 0 if the result is greater than 9, else the result itself". *)
Module AsWorded.

Definition check_digit (soma : Z) : Z :=
  let r := soma mod 11 in if r >? 9 then 0 else r.

Definition all_identical (ds : list Z) : bool :=
  match ds with
  | [] => true
  | d :: rest => forallb (Z.eqb d) rest
  end.

Definition weighted_sum (top : Z) (ds : list Z) : Z :=
  Validators.sum
    (map (fun '(i, d) => d * (top - i))
         (combine (Validators.range (List.length ds)) ds)).

Definition validateNationalId (decimal : Z -> option Z) (raw : Str.t)
    : bool :=
  let ds := digits decimal (Validators.remove_non_digits decimal raw) in
  (Z.of_nat (List.length ds) =? 11)
  && negb (all_identical ds)
  && (let c1 := check_digit (weighted_sum 10 (firstn 9 ds)) in
      let c2 := check_digit (weighted_sum 11 (firstn 9 ds ++ [c1])%list) in
      (nth 9 ds 0 =? c1) && (nth 10 ds 0 =? c2)).

(** "Return the input unchanged if the digit count does not match". *)
Definition formatNationalId_passthrough (decimal : Z -> option Z)
    (raw : Str.t) : Prop :=
  Str.len (Validators.remove_non_digits decimal raw) <> 11 ->
  Validators.formatar_cpf decimal raw = raw.

Definition formatPhone_passthrough (decimal : Z -> option Z)
    (raw : Str.t) : Prop :=
  Str.len (Validators.remove_non_digits decimal raw) <> 10 ->
  Str.len (Validators.remove_non_digits decimal raw) <> 11 ->
  Validators.formatar_telefone decimal raw = raw.

(** "A candidate equal to an existing interval overlaps": a request
    within the balance is refused whenever a record has its two dates. *)
Definition equal_interval_refused (cfg : Config) (agora : datetime)
    (f : Funcionario) (data_inicio data_fim : datetime)
    (afastamentos : list Afastamento) : Prop :=
  forall dias_restantes a,
    FeriasManager.calcular_dias_ferias_restantes cfg agora f afastamentos
    = Ok dias_restantes ->
    days (sub data_fim data_inicio) + 1 <= dias_restantes ->
    In a afastamentos ->
    Afastamento.data_inicio a = Some data_inicio ->
    Afastamento.data_fim a = Some data_fim ->
    exists motivo,
      FeriasManager.validar_ferias cfg agora f data_inicio data_fim
        afastamentos
      = Ok (false, motivo).

End AsWorded.

(** ** Sample records used to exercise the statements *)

Definition janeiro_2024 : Afastamento :=
  Afastamento.mk None 7 "Férias" (Some (date 2024 1 1))
    (Some (date 2024 1 10)) "descanso" "" None None None.

Definition sem_inicio : Afastamento :=
  Afastamento.mk None 7 "Falta" None (Some (date 2024 1 10)) "" "" None
    None None.

Definition um_dia : Afastamento :=
  Afastamento.mk None 7 "Falta" (Some (date 2024 2 29))
    (Some (date 2024 2 29)) "" "" None None None.

Definition atestado_marco : Afastamento :=
  Afastamento.mk (Some 3) 7 "Atestado Médico" (Some (date 2024 3 15))
    (Some (date 2024 3 18)) "" "" None None None.

Definition licenca_janeiro : Afastamento :=
  Afastamento.mk (Some 4) 7 "Licença por Luto" (Some (date 2024 1 6))
    (Some (date 2024 1 10)) "" "" None None None.

(** Hired 2023-01-01. *)
Definition ana : Funcionario :=
  Funcionario.mk (Some 7) "Ana" "529.982.247-25" "ana@rh.org"
    "(11) 98765-4321" "" "Centro" (Some (date 2023 1 1)) "Caixa" true
    None None.

(** Hired 2023-01-15. *)
Definition bruno : Funcionario :=
  Funcionario.mk (Some 8) "Bruno" "" "" "" "" "Centro"
    (Some (date 2023 1 15)) "Gerente" true None None.

Definition sem_admissao : Funcionario :=
  Funcionario.mk (Some 9) "Carla" "" "" "" "" "" None "" true None None.

(** A record whose end precedes its start. *)
Definition falta_invertida : Afastamento :=
  Afastamento.mk (Some 11) 7 "Falta" (Some (date 2024 7 10))
    (Some (date 2024 7 1)) "" "" None None None.

(** ARABIC-INDIC DIGIT ONE and ARABIC-INDIC DIGIT FIVE. *)
Definition arabic_indic_one : Z := 1633.

Definition arabic_indic_five : Z := 1637.

(** Evaluates the table look-ups [nth (Z.to_nat m) T 0] and the boolean
    tests on literal months, leaving the arithmetic to [lia]. *)
Ltac table_lookup :=
  repeat match goal with
  | |- context [Z.to_nat (Zpos ?p)] =>
      let n := eval vm_compute in (Z.to_nat (Zpos p)) in
      change (Z.to_nat (Zpos p)) with n in *
  | H : context [Z.to_nat (Zpos ?p)] |- _ =>
      let n := eval vm_compute in (Z.to_nat (Zpos p)) in
      change (Z.to_nat (Zpos p)) with n in *
  end;
  cbn [nth DAYS_IN_MONTH DAYS_BEFORE_MONTH andb orb negb
       Z.eqb Z.gtb Z.compare Pos.eqb Pos.compare Pos.compare_cont] in *.

(** Evaluates [p - 1] on literal months. *)
Ltac pred_literal :=
  repeat match goal with
  | |- context [Zpos ?p - 1] =>
      let v := eval vm_compute in (Zpos p - 1) in
      change (Zpos p - 1) with v in *
  end.

(** ** Further notions used to state properties *)

(** Same time of day. *)
Definition same_time (a b : datetime) : Prop :=
  hour a = hour b /\ minute a = minute b /\ second a = second b
  /\ microsecond a = microsecond b.

(** The records of kind [t]. *)
Definition do_tipo (t : string) (a : Afastamento) : bool :=
  (Afastamento.tipo a =? t)%string.

(** The code point of the ASCII digit of value [d]. *)
Definition char_of_digit (d : Z) : Z := 48 + d.

(** The two weighted sums of [validar_cpf], on digit values. *)
Definition soma1 (d0 d1 d2 d3 d4 d5 d6 d7 d8 : Z) : Z :=
  d0 * 10 + d1 * 9 + d2 * 8 + d3 * 7 + d4 * 6 + d5 * 5 + d6 * 4 + d7 * 3
  + d8 * 2.

Definition soma2 (d0 d1 d2 d3 d4 d5 d6 d7 d8 d9 : Z) : Z :=
  d0 * 11 + d1 * 10 + d2 * 9 + d3 * 8 + d4 * 7 + d5 * 6 + d6 * 5 + d7 * 4
  + d8 * 3 + d9 * 2.

(** ** Regular expressions, for [re.match] *)

Module Re.

Inductive regex : Type :=
| Empty
| Eps
| Class (p : ascii -> bool)
| Cat (r s : regex)
| Alt (r s : regex)
| Star (r : regex).

(** [c] *)
Definition Chr (c : ascii) : regex := Class (Ascii.eqb c).
(** [r+] *)
Definition Plus (r : regex) : regex := Cat r (Star r).
(** [r{2,}] *)
Definition AtLeast2 (r : regex) : regex := Cat r (Cat r (Star r)).
(** [$] without [re.MULTILINE]: the end of the string, or just before a
    newline that ends the string. *)
Definition Dollar : regex := Alt Eps (Chr "010"%char).

Fixpoint nullable (r : regex) : bool :=
  match r with
  | Empty => false
  | Eps => true
  | Class _ => false
  | Cat r s => nullable r && nullable s
  | Alt r s => nullable r || nullable s
  | Star _ => true
  end.

(** Brzozowski derivative: what is left of [r] after reading [c]. *)
Fixpoint deriv (c : ascii) (r : regex) : regex :=
  match r with
  | Empty => Empty
  | Eps => Empty
  | Class p => if p c then Eps else Empty
  | Cat r s =>
      if nullable r then Alt (Cat (deriv c r) s) (deriv c s)
      else Cat (deriv c r) s
  | Alt r s => Alt (deriv c r) (deriv c s)
  | Star r => Cat (deriv c r) (Star r)
  end.

(** The whole string is in the language of [r]. *)
Fixpoint fullmatch (r : regex) (s : list ascii) : bool :=
  match s with
  | [] => nullable r
  | c :: s' => fullmatch (deriv c r) s'
  end.

(** The language of a regular expression. *)
Inductive Matches : regex -> list ascii -> Prop :=
| MEps : Matches Eps []
| MClass p c : p c = true -> Matches (Class p) [c]
| MCat r s u v : Matches r u -> Matches s v -> Matches (Cat r s) (u ++ v)
| MAltL r s u : Matches r u -> Matches (Alt r s) u
| MAltR r s u : Matches s u -> Matches (Alt r s) u
| MStar0 r : Matches (Star r) []
| MStarS r u v :
    Matches r u -> Matches (Star r) v -> Matches (Star r) (u ++ v).

End Re.

(** ** [src/utils/validators.py]: [Validators.validar_email] *)

Module ValidatorsEmail.
Import Re.

Definition in_range (lo hi c : ascii) : bool :=
  (nat_of_ascii lo <=? nat_of_ascii c)%nat
  && (nat_of_ascii c <=? nat_of_ascii hi)%nat.

(** [[a-zA-Z]] *)
Definition letra (c : ascii) : bool :=
  in_range "a" "z" c || in_range "A" "Z" c.

(** [[a-zA-Z0-9._%+-]] *)
Definition classe_local (c : ascii) : bool :=
  letra c || in_range "0" "9" c
  || Ascii.eqb c "." || Ascii.eqb c "_" || Ascii.eqb c "%"
  || Ascii.eqb c "+" || Ascii.eqb c "-".

(** [[a-zA-Z0-9.-]] *)
Definition classe_dominio (c : ascii) : bool :=
  letra c || in_range "0" "9" c || Ascii.eqb c "." || Ascii.eqb c "-".

(** [r'^[a-zA-Z0-9._%+-]+@[a-zA-Z0-9.-]+\.[a-zA-Z]{2,}$'] *)
Definition padrao : regex :=
  Cat (Plus (Class classe_local))
    (Cat (Chr "@")
       (Cat (Plus (Class classe_dominio))
          (Cat (Chr ".")
             (Cat (AtLeast2 (Class letra)) Dollar)))).

(** [re.match(padrao, email) is not None]: some prefix of [email] matches
    up to [$]; with [$] read as above this is a match of the whole
    string. *)
Definition validar_email (email : string) : bool :=
  fullmatch padrao (list_ascii_of_string email).

End ValidatorsEmail.

(** ** Python [dict], as an association list in insertion order *)

Module Dict.

Definition t (V : Type) : Type := list (string * V).

(** The value bound to [k], if any. *)
Fixpoint lookup {V : Type} (d : t V) (k : string) : option V :=
  match d with
  | [] => None
  | (k', v) :: d' => if (k' =? k)%string then Some v else lookup d' k
  end.

(** [d.get(k, default)] *)
Definition get {V : Type} (d : t V) (k : string) (default : V) : V :=
  match lookup d k with
  | Some v => v
  | None => default
  end.

(** [d[k] = v]: an existing key keeps its place, a new one goes last. *)
Fixpoint set {V : Type} (d : t V) (k : string) (v : V) : t V :=
  match d with
  | [] => [(k, v)]
  | (k', v') :: d' =>
      if (k' =? k)%string then (k, v) :: d' else (k', v') :: set d' k v
  end.

End Dict.

(** ** [src/models/usuario.py] *)

Inductive PerfilUsuario : Type :=
| ADMIN
| GERENTE
| RH
| FUNCIONARIO.

(** [PerfilUsuario.X.value] *)
Definition perfil_value (p : PerfilUsuario) : string :=
  match p with
  | ADMIN => "Administrador"
  | GERENTE => "Gerente"
  | RH => "Recursos Humanos"
  | FUNCIONARIO => "Funcionário"
  end.

Module Usuario.

Record t : Type := mk {
  id : option Z;
  nome : string;
  email : string;
  username : string;
  senha_hash : string;
  perfil : string;
  ativo : bool;
  data_criacao : option datetime;
  data_atualizacao : option datetime;
  ultimo_acesso : option datetime
}.

(** The table built inside [tem_permissao]. *)
Definition permissoes : Dict.t (list string) :=
  [ (perfil_value ADMIN,
     [ "criar_usuario"; "editar_usuario"; "deletar_usuario";
       "criar_funcionario"; "editar_funcionario"; "deletar_funcionario";
       "criar_afastamento"; "editar_afastamento"; "deletar_afastamento";
       "gerar_relatorio"; "exportar_dados"; "backup"; "configuracoes" ]);
    (perfil_value GERENTE,
     [ "criar_funcionario"; "editar_funcionario";
       "criar_afastamento"; "editar_afastamento";
       "gerar_relatorio"; "exportar_dados" ]);
    (perfil_value RH,
     [ "criar_funcionario"; "editar_funcionario"; "deletar_funcionario";
       "criar_afastamento"; "editar_afastamento"; "deletar_afastamento";
       "gerar_relatorio"; "exportar_dados" ]);
    (perfil_value FUNCIONARIO,
     [ "visualizar_dados_pessoais"; "solicitar_afastamento" ]) ].

(** [x in l] for a list of strings *)
Definition contains (l : list string) (x : string) : bool :=
  existsb (fun y => (y =? x)%string) l.

Definition tem_permissao (self : t) (acao : string) : bool :=
  contains (Dict.get permissoes (perfil self) []) acao.

End Usuario.

Abbreviation Usuario := Usuario.t.

(** ** [src/utils/auth.py] *)

Module AuthManager.

(** [usuario] may be [None]; an instance of the dataclass is truthy. *)
Definition verificar_permissao (usuario : option Usuario) (acao : string)
    : bool :=
  match usuario with
  | None => false
  | Some usuario =>
      if negb (Usuario.ativo usuario) then false
      else Usuario.tem_permissao usuario acao
  end.

End AuthManager.

(** ** [src/utils/ferias.py]: the report *)

(** The dictionary returned by [gerar_relatorio_ferias]. *)
Module RelatorioFerias.

Record t : Type := mk {
  funcionario_id : option Z;
  funcionario_nome : string;
  dias_disponiveis : Z;
  dias_usados : Z;
  dias_restantes : Z;
  proxima_data_ferias : string;
  data_admissao : string
}.

End RelatorioFerias.

(** [FeriasManager.gerar_relatorio_ferias].  The three helpers read the
    clock one after the other: [agora1], [agora2] and [agora3] are those
    three readings of [datetime.now()].  [strftime d fmt] is
    [d.strftime(fmt)] of the standard library, taken as a parameter. *)
Definition gerar_relatorio_ferias
    (strftime : datetime -> string -> string)
    (cfg : Config) (agora1 agora2 agora3 : datetime)
    (funcionario : Funcionario) (afastamentos : list Afastamento)
    : M RelatorioFerias.t :=
  disponiveis <-
    FeriasManager.calcular_dias_ferias_disponiveis cfg agora1 funcionario ;;
  let usados :=
    FeriasManager.calcular_dias_ferias_usados funcionario afastamentos in
  restantes <-
    FeriasManager.calcular_dias_ferias_restantes cfg agora2 funcionario
      afastamentos ;;
  proxima_data <-
    FeriasManager.obter_proxima_data_ferias cfg agora3 funcionario ;;
  Ok (RelatorioFerias.mk
        (Funcionario.id funcionario)
        (Funcionario.nome funcionario)
        disponiveis
        usados
        restantes
        (match proxima_data with
         | Some proxima_data => strftime proxima_data "%d/%m/%Y"
         | None => "N/A"
         end)
        (match Funcionario.data_admissao funcionario with
         | Some data_admissao => strftime data_admissao "%d/%m/%Y"
         | None => "N/A"
         end)).

(** ** JSON values, as [json.load] returns them

    Numbers with a fraction or an exponent ([float]) are left out. *)

Module Json.

#[warnings="-register-all"]
Inductive json : Type :=
| JNull
| JBool (b : bool)
| JInt (n : Z)
| JStr (s : string)
| JArr (l : list json)
| JObj (d : list (string * json)).

(** The integer a value stands for in arithmetic and comparisons
    ([True] is 1, [False] is 0); [None] for the values on which
    [max] or [+ 1] raise [TypeError]. *)
Definition as_int (v : json) : option Z :=
  match v with
  | JInt n => Some n
  | JBool b => Some (if b then 1 else 0)
  | _ => None
  end.

(** [v == n] for an [int] [n] *)
Definition eq_int (v : json) (n : Z) : bool :=
  match as_int v with
  | Some m => m =? n
  | None => false
  end.

(** [v == s] for a [str] [s] *)
Definition eq_str (v : json) (s : string) : bool :=
  match v with
  | JStr t => (t =? s)%string
  | _ => false
  end.

End Json.

Export Json.

(** ** [src/utils/database.py]

    A file is modelled by what [json.load] makes of it: a list of
    objects, or nothing when it is missing or does not decode.  Each
    operation takes the file and returns it as [_save_json] leaves it.
    The operations on [absences.json] and [users.json]
    ([adicionar_afastamento], [buscar_usuario], ...) repeat those on
    [employees.json] word for word; the latter are the ones embedded. *)

Module DatabaseManager.

Definition registro : Type := Dict.t json.
Definition arquivo : Type := option (list registro).

Definition _load_json (file : arquivo) : list registro :=
  match file with
  | Some data => data
  | None => []
  end.




Definition buscar_funcionario (file : arquivo) (employee_id : Z)
    : option registro :=
  find (fun employee => eq_int (Dict.get employee "id" JNull) employee_id)
       (_load_json file).



(** The loop of [remover_funcionario]; [None] when no record matches. *)
Fixpoint remover_lista (employees : list registro) (employee_id : Z)
    : option (list registro) :=
  match employees with
  | [] => None
  | employee :: resto =>
      if eq_int (Dict.get employee "id" JNull) employee_id then Some resto
      else
        match remover_lista resto employee_id with
        | Some resto' => Some (employee :: resto')
        | None => None
        end
  end.

Definition remover_funcionario (file : arquivo) (employee_id : Z)
    : bool * arquivo :=
  match remover_lista (_load_json file) employee_id with
  | Some employees => (true, Some employees)
  | None => (false, file)
  end.

Definition buscar_usuario_por_username (file : arquivo) (username : string)
    : option registro :=
  find (fun user => eq_str (Dict.get user "username" JNull) username)
       (_load_json file).

(** A [dict] is truthy when it is not empty. *)
Definition validar_usuario (file : arquivo) (username password : string)
    : option registro :=
  match buscar_usuario_por_username file username with
  | Some user =>
      match user with
      | [] => None
      | _ :: _ =>
          if eq_str (Dict.get user "password" JNull) password
          then Some user else None
      end
  | None => None
  end.

End DatabaseManager.

(** The records whose id is [employee_id]. *)
Abbreviation id_is employee_id :=
  (fun employee : DatabaseManager.registro =>
     eq_int (Dict.get employee "id" JNull) employee_id).

(** ** [src/utils/charts.py]: the tables behind the figures *)

Module ChartManager.

(** The loop of [gráfico_afastamentos_por_tipo]. *)
Definition tipos_count (afastamentos : list Afastamento) : Dict.t Z :=
  fold_left
    (fun tipos_count aft =>
       Dict.set tipos_count (Afastamento.tipo aft)
         (Dict.get tipos_count (Afastamento.tipo aft) 0 + 1))
    afastamentos [].

(** The loop of [gráfico_dias_afastamento_por_tipo]. *)
Definition tipos_dias (afastamentos : list Afastamento) : Dict.t Z :=
  fold_left
    (fun tipos_dias aft =>
       let dias := Afastamento.dias_afastamento aft in
       Dict.set tipos_dias (Afastamento.tipo aft)
         (Dict.get tipos_dias (Afastamento.tipo aft) 0 + dias))
    afastamentos [].

End ChartManager.

(** ** [pages/dashboard.py]: the summary of leaves by kind

    One row per kind: the kind, the number of records, the total of
    days.  [None] stands for the [KeyError] of [tipos_dias[t]]. *)

Module Dashboard.

Definition resumo_por_tipo (todos_afastamentos : list Afastamento)
    : option (list (string * Z * Z)) :=
  let tipos_count := ChartManager.tipos_count todos_afastamentos in
  let tipos_dias := ChartManager.tipos_dias todos_afastamentos in
  fold_right
    (fun '(t, quantidade) linhas =>
       match Dict.lookup tipos_dias t, linhas with
       | Some dias, Some linhas => Some ((t, quantidade, dias) :: linhas)
       | _, _ => None
       end)
    (Some []) tipos_count.

End Dashboard.

(** One step of the counting loops: [d[key] = d.get(key, 0) + w]. *)
Definition acumula {A : Type} (key : A -> string) (w : A -> Z)
    (d : Dict.t Z) (a : A) : Dict.t Z :=
  Dict.set d (key a) (Dict.get d (key a) 0 + w a).


(** ** More sample data *)

Definition ferias_1_5 : Afastamento :=
  Afastamento.mk (Some 5) 7 "Férias" (Some (date 2024 1 1))
    (Some (date 2024 1 5)) "" "" None None None.

Definition ferias_6_10 : Afastamento :=
  Afastamento.mk (Some 6) 7 "Férias" (Some (date 2024 1 6))
    (Some (date 2024 1 10)) "" "" None None None.

Definition usuario_com_perfil (perfil : string) (ativo : bool) : Usuario :=
  Usuario.mk (Some 1) "Dora" "dora@rh.org" "dora" "" perfil ativo
    None None None.

Definition employees_exemplo : DatabaseManager.arquivo :=
  Some [ [("id", JInt 1); ("name", JStr "Ana"); ("created_at", JStr "t0")];
         [("id", JInt 2); ("name", JStr "Bruno")] ].

Definition users_exemplo : DatabaseManager.arquivo :=
  Some [ [("id", JInt 1); ("username", JStr "ana"); ("password", JStr "a1")];
         [("id", JInt 2); ("username", JStr "ana"); ("password", JStr "zz")] ].

(** Splits the hypothesis that the characters of a string are digits. *)
Ltac digit_facts H :=
  cbn [forallb] in H;
  repeat (apply andb_true_iff in H;
          let Hc := fresh "Hc" in destruct H as [Hc H]).


(** * Properties *)

(** ** The calendar *)

Section Calendar.

Lemma days_before_year_succ (y : Z) :
  days_before_year (y + 1)
  = days_before_year y + (if is_leap y then 366 else 365).
Proof.
  unfold days_before_year, is_leap.
  replace (y + 1 - 1) with y by lia.
  destruct (Z.eqb_spec (y mod 4) 0), (Z.eqb_spec (y mod 100) 0),
    (Z.eqb_spec (y mod 400) 0); cbn [negb andb orb];
    Z.div_mod_to_equations; lia.
Qed.

Lemma days_before_year_mono (y1 y2 : Z) :
  y1 <= y2 -> days_before_year y1 <= days_before_year y2.
Proof.
  unfold days_before_year. intros H.
  Z.div_mod_to_equations. lia.
Qed.

Lemma day_of_year_bounds (y m d : Z) :
  1 <= m <= 12 -> 1 <= d <= days_in_month y m ->
  1 <= days_before_month y m + d <= (if is_leap y then 366 else 365).
Proof.
  intros Hm Hd. unfold days_before_month, days_in_month in *.
  assert (Hc : m = 1 \/ m = 2 \/ m = 3 \/ m = 4 \/ m = 5 \/ m = 6 \/ m = 7
               \/ m = 8 \/ m = 9 \/ m = 10 \/ m = 11 \/ m = 12) by lia.
  destruct (is_leap y);
    repeat (destruct Hc as [-> | Hc]); try subst m; table_lookup; lia.
Qed.

Lemma days_before_month_step (y m1 m2 d1 d2 : Z) :
  1 <= m1 -> m1 < m2 -> m2 <= 12 ->
  d1 <= days_in_month y m1 -> 1 <= d2 ->
  days_before_month y m1 + d1 < days_before_month y m2 + d2.
Proof.
  intros H1 H12 H2 Hd1 Hd2. unfold days_before_month, days_in_month in *.
  assert (Hc1 : m1 = 1 \/ m1 = 2 \/ m1 = 3 \/ m1 = 4 \/ m1 = 5 \/ m1 = 6
                \/ m1 = 7 \/ m1 = 8 \/ m1 = 9 \/ m1 = 10 \/ m1 = 11) by lia.
  assert (Hc2 : m2 = 2 \/ m2 = 3 \/ m2 = 4 \/ m2 = 5 \/ m2 = 6 \/ m2 = 7
                \/ m2 = 8 \/ m2 = 9 \/ m2 = 10 \/ m2 = 11 \/ m2 = 12) by lia.
  destruct (is_leap y);
    repeat (destruct Hc1 as [-> | Hc1]); try subst m1;
    repeat (destruct Hc2 as [-> | Hc2]); try subst m2;
    table_lookup; lia.
Qed.

Lemma ymd2ord_lt (y1 m1 d1 y2 m2 d2 : Z) :
  1 <= m1 <= 12 -> 1 <= d1 <= days_in_month y1 m1 ->
  1 <= m2 <= 12 -> 1 <= d2 <= days_in_month y2 m2 ->
  y1 < y2 \/ (y1 = y2 /\ (m1 < m2 \/ (m1 = m2 /\ d1 < d2))) ->
  ymd2ord y1 m1 d1 < ymd2ord y2 m2 d2.
Proof.
  intros Hm1 Hd1 Hm2 Hd2 Hlex. unfold ymd2ord.
  destruct Hlex as [Hy | [-> [Hm | [-> Hd]]]].
  - pose proof (day_of_year_bounds y1 m1 d1 Hm1 Hd1) as B1.
    pose proof (day_of_year_bounds y2 m2 d2 Hm2 Hd2) as B2.
    pose proof (days_before_year_succ y1) as S1.
    pose proof (days_before_year_mono (y1 + 1) y2 ltac:(lia)) as Mo.
    destruct (is_leap y1); lia.
  - pose proof (days_before_month_step y2 m1 m2 d1 d2) as St. lia.
  - lia.
Qed.

Lemma sub_days_floor (a b : datetime) :
  days (sub a b) = (timestamp_us a - timestamp_us b) / 86400000000.
Proof.
  unfold sub, normalize, timestamp_us. cbn [days].
  Z.div_mod_to_equations. lia.
Qed.

Lemma cmp_Lt_timestamp (a b : datetime) :
  valid a -> valid b -> cmp a b = Lt -> timestamp_us a < timestamp_us b.
Proof.
  intros (Hy1 & Hm1 & Hd1 & Hh1 & Hmi1 & Hs1 & Hu1)
         (Hy2 & Hm2 & Hd2 & Hh2 & Hmi2 & Hs2 & Hu2).
  unfold cmp, fields, cmp_tuple, timestamp_us, toordinal.
  pose proof (ymd2ord_lt (year a) (month a) (day a)
                         (year b) (month b) (day b) Hm1 Hd1 Hm2 Hd2) as Hord.
  destruct (Z.compare_spec (year a) (year b)) as [Ey | Ly | Gy];
    try discriminate; [ | intros _; lia ].
  destruct (Z.compare_spec (month a) (month b)) as [Em | Lm | Gm];
    try discriminate; [ | intros _; lia ].
  destruct (Z.compare_spec (day a) (day b)) as [Ed | Ld | Gd];
    try discriminate; [ | intros _; lia ].
  rewrite Ey, Em, Ed.
  destruct (Z.compare_spec (hour a) (hour b)); try discriminate;
    [ | intros _; lia ].
  destruct (Z.compare_spec (minute a) (minute b)); try discriminate;
    [ | intros _; lia ].
  destruct (Z.compare_spec (second a) (second b)); try discriminate;
    [ | intros _; lia ].
  destruct (Z.compare_spec (microsecond a) (microsecond b)); try discriminate.
  intros _; lia.
Qed.

Lemma cmp_Eq (a b : datetime) : cmp a b = Eq -> a = b.
Proof.
  destruct a, b. unfold cmp, fields, cmp_tuple. cbn [year month day hour
    minute second microsecond].
  repeat match goal with
  | |- context [?x ?= ?y] =>
      destruct (Z.compare_spec x y); try discriminate; try subst
  end.
  reflexivity.
Qed.

Lemma cmp_tuple_antisym (xs ys : list Z) :
  cmp_tuple ys xs = CompOpp (cmp_tuple xs ys).
Proof.
  revert ys. induction xs as [| x xs IH]; intros [| y ys]; cbn; auto.
  rewrite (Z.compare_antisym x y).
  destruct (x ?= y); cbn; auto.
Qed.

Lemma cmp_antisym (a b : datetime) : cmp b a = CompOpp (cmp a b).
Proof. apply cmp_tuple_antisym. Qed.

Lemma gt_lt (a b : datetime) : gt a b = lt b a.
Proof.
  unfold gt, lt. rewrite (cmp_antisym a b). destruct (cmp a b); reflexivity.
Qed.

Lemma lt_timestamp (a b : datetime) :
  valid a -> valid b -> lt a b = (timestamp_us a <? timestamp_us b).
Proof.
  intros Ha Hb. unfold lt.
  destruct (cmp a b) eqn:E.
  - apply cmp_Eq in E. subst b. symmetry. apply Z.ltb_irrefl.
  - symmetry. apply Z.ltb_lt. now apply cmp_Lt_timestamp.
  - symmetry. apply Z.ltb_ge.
    assert (E' : cmp b a = Lt) by (rewrite cmp_antisym, E; reflexivity).
    apply cmp_Lt_timestamp in E'; auto. lia.
Qed.

Lemma validb_valid (d : datetime) : validb d = true -> valid d.
Proof.
  unfold validb, valid. rewrite !andb_true_iff, !Z.leb_le, !Z.ltb_lt. tauto.
Qed.

(** *** From ordinals back to dates *)

Lemma month_day_ok (leap : bool) (n : Z) :
  0 <= n < (if leap then 366 else 365) ->
  let m := Z.shiftr (n + 50) 5 in
  let preceding :=
    nth (Z.to_nat m) DAYS_BEFORE_MONTH 0
    + (if (m >? 2) && leap then 1 else 0) in
  let md :=
    if preceding >? n then
      (m - 1,
       n - (preceding - (nth (Z.to_nat (m - 1)) DAYS_IN_MONTH 0
                         + (if (m - 1 =? 2) && leap then 1 else 0))) + 1)
    else (m, n - preceding + 1) in
  1 <= fst md <= 12
  /\ 1 <= snd md
          <= (if (fst md =? 2) && leap then 29
              else nth (Z.to_nat (fst md)) DAYS_IN_MONTH 0)
  /\ nth (Z.to_nat (fst md)) DAYS_BEFORE_MONTH 0
     + (if (fst md >? 2) && leap then 1 else 0) + snd md = n + 1.
Proof.
  intros Hn. rewrite Z.shiftr_div_pow2 by lia. change (2 ^ 5) with 32.
  assert (Hm : 32 * ((n + 50) / 32) <= n + 50 < 32 * ((n + 50) / 32) + 32)
    by (Z.div_mod_to_equations; lia).
  set (m := (n + 50) / 32) in *. clearbody m. cbv zeta.
  assert (Hc : m = 1 \/ m = 2 \/ m = 3 \/ m = 4 \/ m = 5 \/ m = 6 \/ m = 7
               \/ m = 8 \/ m = 9 \/ m = 10 \/ m = 11 \/ m = 12)
    by (destruct leap; lia).
  destruct leap;
    repeat (destruct Hc as [-> | Hc]); try subst m;
    pred_literal; table_lookup;
    match goal with
    | |- context [?a >? n] => destruct (Z.gtb_spec a n)
    end; cbn [fst snd]; table_lookup; lia.
Qed.

Lemma is_leap_parts (n400 n100 n4 n1 : Z) :
  0 <= n100 <= 3 -> 0 <= n4 <= 24 -> 0 <= n1 <= 3 ->
  is_leap (n400 * 400 + 1 + n100 * 100 + n4 * 4 + n1)
  = (n1 =? 3) && (negb (n4 =? 24) || (n100 =? 3)).
Proof.
  intros H100 H4 H1. unfold is_leap.
  destruct (Z.eqb_spec n1 3), (Z.eqb_spec n4 24), (Z.eqb_spec n100 3);
    cbn [negb andb orb];
    repeat match goal with
    | |- context [?a mod ?b =? 0] => destruct (Z.eqb_spec (a mod b) 0)
    end; cbn [negb andb orb]; try reflexivity;
    exfalso; Z.div_mod_to_equations; lia.
Qed.

Lemma days_before_year_parts (n400 n100 n4 n1 : Z) :
  0 <= n100 <= 3 -> 0 <= n4 <= 24 -> 0 <= n1 <= 3 ->
  days_before_year (n400 * 400 + 1 + n100 * 100 + n4 * 4 + n1)
  = n400 * 146097 + n100 * 36524 + n4 * 1461 + n1 * 365.
Proof.
  intros H100 H4 H1. unfold days_before_year.
  Z.div_mod_to_equations. lia.
Qed.

Lemma ord2ymd_spec (n : Z) :
  let '(y, m, d) := ord2ymd n in
  1 <= m <= 12 /\ 1 <= d <= days_in_month y m /\ ymd2ord y m d = n.
Proof.
  unfold ord2ymd, DI400Y, DI100Y, DI4Y.
  set (n0 := n - 1).
  set (n400 := n0 / 146097). set (r400 := n0 mod 146097).
  set (n100 := r400 / 36524). set (r100 := r400 mod 36524).
  set (n4 := r100 / 1461). set (r4 := r100 mod 1461).
  set (n1 := r4 / 365). set (r := r4 mod 365).
  assert (E400 : n0 = 146097 * n400 + r400 /\ 0 <= r400 < 146097)
    by (subst n400 r400; Z.div_mod_to_equations; lia).
  assert (E100 : r400 = 36524 * n100 + r100 /\ 0 <= r100 < 36524)
    by (subst n100 r100; Z.div_mod_to_equations; lia).
  assert (E4 : r100 = 1461 * n4 + r4 /\ 0 <= r4 < 1461)
    by (subst n4 r4; Z.div_mod_to_equations; lia).
  assert (E1 : r4 = 365 * n1 + r /\ 0 <= r < 365)
    by (subst n1 r; Z.div_mod_to_equations; lia).
  clearbody n400 r400 n100 r100 n4 r4 n1 r.
  assert (En : n = n0 + 1) by (subst n0; lia). clearbody n0.
  destruct (Z.eqb_spec n1 4) as [K1 | K1];
    [ | destruct (Z.eqb_spec n100 4) as [K100 | K100] ]; cbn [orb].
  - (* 31 December of a leap year that is not a multiple of 100 *)
    assert (H100 : 0 <= n100 <= 3) by lia.
    assert (H4 : 0 <= n4 <= 24) by lia.
    replace (n400 * 400 + 1 + n100 * 100 + n4 * 4 + n1 - 1)
      with (n400 * 400 + 1 + n100 * 100 + n4 * 4 + 3) by lia.
    unfold ymd2ord, days_in_month, days_before_month.
    rewrite is_leap_parts, days_before_year_parts by lia.
    table_lookup.
    destruct (Z.eqb_spec n4 24); [ lia | ].
    cbn [negb orb andb]. lia.
  - (* 31 December of a multiple of 400 *)
    replace (n400 * 400 + 1 + n100 * 100 + n4 * 4 + n1 - 1)
      with (n400 * 400 + 1 + 3 * 100 + 24 * 4 + 3) by lia.
    unfold ymd2ord, days_in_month, days_before_month.
    rewrite is_leap_parts, days_before_year_parts by lia.
    table_lookup. lia.
  - assert (H100 : 0 <= n100 <= 3) by lia.
    assert (H4 : 0 <= n4 <= 24) by lia.
    assert (H1 : 0 <= n1 <= 3) by lia.
    rewrite <- (is_leap_parts n400 n100 n4 n1 H100 H4 H1).
    set (y := n400 * 400 + 1 + n100 * 100 + n4 * 4 + n1).
    pose proof (month_day_ok (is_leap y) r) as Hmd.
    cbv zeta in Hmd.
    unfold ymd2ord, days_in_month, days_before_month.
    pose proof (days_before_year_parts n400 n100 n4 n1 H100 H4 H1) as Hdby.
    fold y in Hdby.
    match goal with
    | |- context [?a >? r] => destruct (Z.gtb_spec a r)
    end; cbn [fst snd] in Hmd;
      (destruct Hmd as (Hm & Hd & Hs); [ destruct (is_leap y); lia | ]);
      (split; [ exact Hm | split; [ exact Hd | lia ] ]).
Qed.

Lemma toordinal_range (a : datetime) :
  valid a -> 1 <= toordinal a <= MAXORDINAL.
Proof.
  intros (Hy & Hm & Hd & _). unfold toordinal, ymd2ord, MINYEAR, MAXYEAR in *.
  pose proof (day_of_year_bounds (year a) (month a) (day a) Hm Hd) as B.
  pose proof (days_before_year_succ (year a)) as S.
  pose proof (days_before_year_mono 1 (year a) ltac:(lia)) as L.
  pose proof (days_before_year_mono (year a + 1) 10000 ltac:(lia)) as U.
  change (days_before_year 1) with 0 in L.
  change (days_before_year 10000) with 3652059 in U.
  unfold MAXORDINAL. destruct (is_leap (year a)); lia.
Qed.

Lemma ord2ymd_year_range (n : Z) :
  1 <= n <= MAXORDINAL ->
  MINYEAR <= fst (fst (ord2ymd n)) <= MAXYEAR.
Proof.
  intros Hn. pose proof (ord2ymd_spec n) as H.
  destruct (ord2ymd n) as [[y m] d]. cbn [fst].
  destruct H as (Hm & Hd & Ho). unfold ymd2ord in Ho.
  pose proof (day_of_year_bounds y m d Hm Hd) as B.
  pose proof (days_before_year_succ y) as S.
  unfold MINYEAR, MAXYEAR, MAXORDINAL in *.
  destruct (Z_lt_le_dec y 1) as [Hlo | Hlo].
  - pose proof (days_before_year_mono (y + 1) 1 ltac:(lia)) as L.
    change (days_before_year 1) with 0 in L.
    destruct (is_leap y); lia.
  - destruct (Z_lt_le_dec 9999 y) as [Hhi | Hhi]; [ | lia ].
    pose proof (days_before_year_mono 10000 y ltac:(lia)) as U.
    change (days_before_year 10000) with 3652059 in U. lia.
Qed.

Lemma normalize_in_range (d s us : Z) :
  0 <= s < 86400 -> 0 <= us < 1000000 ->
  normalize d s us = mk_timedelta d s us.
Proof.
  intros Hs Hus. unfold normalize.
  rewrite (Z.div_small us), (Z.mod_small us) by lia.
  rewrite Z.add_0_r, (Z.div_small s), (Z.mod_small s) by lia.
  rewrite Z.add_0_r. reflexivity.
Qed.

(** Adding a whole number of days. *)
Lemma add_days_spec (a : datetime) (n : Z) :
  valid a ->
  (0 < toordinal a + n <= MAXORDINAL ->
   exists d,
     bind (timedelta_days n) (add a) = Ok d
     /\ valid d
     /\ toordinal d = toordinal a + n
     /\ hour d = hour a /\ minute d = minute a
     /\ second d = second a /\ microsecond d = microsecond a)
  /\ (~ 0 < toordinal a + n <= MAXORDINAL ->
      bind (timedelta_days n) (add a) = Raise OverflowError).
Proof.
  intros Ha. pose proof (toordinal_range a Ha) as Hr.
  destruct Ha as (Hy & Hm & Hd & Hh & Hmi & Hs & Hus).
  unfold timedelta_days, MAXORDINAL in *.
  destruct (Z.gtb_spec (Z.abs n) 999999999) as [Hbig | Hsmall].
  - split; [ lia | reflexivity ].
  - cbn [bind]. unfold add.
    rewrite (normalize_in_range n 0 0) by lia. cbn [days seconds microseconds].
    rewrite !Z.add_0_r.
    rewrite normalize_in_range by lia. cbn [days seconds microseconds].
    unfold MAXORDINAL.
    destruct (Z.ltb_spec 0 (toordinal a + n)) as [Hlo | Hlo];
      [ destruct (Z.leb_spec (toordinal a + n) 3652059) as [Hhi | Hhi] | ];
      cbn [andb]; try (split; [ lia | reflexivity ]).
    split; [ intros _ | lia ].
    pose proof (ord2ymd_spec (toordinal a + n)) as Hspec.
    pose proof (ord2ymd_year_range (toordinal a + n)
                  ltac:(unfold MAXORDINAL; lia)) as Hyr.
    destruct (ord2ymd (toordinal a + n)) as [[y m] d]. cbn [fst] in Hyr.
    destruct Hspec as (Hm' & Hd' & Ho).
    eexists. split; [ reflexivity | ].
    unfold valid, toordinal.
    cbn [year month day hour minute second microsecond].
    repeat split; try assumption; try lia;
      Z.div_mod_to_equations; lia.
Qed.

End Calendar.

(** ** The leave interval model *)

Section LeaveInterval.

Import Afastamento.

(** C7. The day count of a record with both dates is the number of whole
    days of [data_fim - data_inicio] (the elapsed time divided by one day,
    rounded down) plus one; a record missing either date counts 0 days,
    without any error; a record that starts and ends at the same instant
    counts 1 day. *)
Theorem dias_afastamento_spec (a : Afastamento) :
  (forall inicio fim,
      data_inicio a = Some inicio -> data_fim a = Some fim ->
      dias_afastamento a = days (sub fim inicio) + 1
      /\ days (sub fim inicio)
         = (timestamp_us fim - timestamp_us inicio) / 86400000000)
  /\ (data_inicio a = None \/ data_fim a = None -> dias_afastamento a = 0)
  /\ (forall D,
        data_inicio a = Some D -> data_fim a = Some D ->
        dias_afastamento a = 1).
Proof.
  unfold dias_afastamento. split; [ | split ].
  - intros inicio fim -> ->. split; [ reflexivity | apply sub_days_floor ].
  - intros [-> | H]; [ reflexivity | ].
    rewrite H. destruct (data_inicio a); reflexivity.
  - intros D -> ->. rewrite sub_days_floor, Z.sub_diag. reflexivity.
Qed.

Lemma dias_afastamento_spec_witness :
  dias_afastamento janeiro_2024 = 10
  /\ dias_afastamento sem_inicio = 0
  /\ dias_afastamento um_dia = 1.
Proof.
  split; [ | split ].
  - destruct (dias_afastamento_spec janeiro_2024) as [H _].
    destruct (H (date 2024 1 1) (date 2024 1 10) eq_refl eq_refl) as [-> _].
    reflexivity.
  - apply dias_afastamento_spec. left. reflexivity.
  - apply dias_afastamento_spec with (D := date 2024 2 29); reflexivity.
Defined.

End LeaveInterval.

(** ** The entitlement calculator *)

Section Entitlement.

Import FeriasManager.

Lemma usados_acc (acc : Z) (afastamentos : list Afastamento) :
  fold_left
    (fun dias_usados afastamento =>
       if (Afastamento.tipo afastamento =? "Férias")%string
       then dias_usados + Afastamento.dias_afastamento afastamento
       else dias_usados)
    afastamentos acc
  = acc + total (map Afastamento.dias_afastamento
                     (filter is_ferias afastamentos)).
Proof.
  revert acc. induction afastamentos as [| a rest IH]; intros acc.
  - cbn. lia.
  - cbn [fold_left filter]. rewrite IH. unfold is_ferias at 2.
    destruct (Afastamento.tipo a =? "Férias")%string;
      cbn [map total fold_right]; fold (total (map Afastamento.dias_afastamento
      (filter is_ferias rest))); lia.
Qed.

Lemma usados_total (f : Funcionario) (afastamentos : list Afastamento) :
  calcular_dias_ferias_usados f afastamentos
  = total (map Afastamento.dias_afastamento (filter is_ferias afastamentos)).
Proof. unfold calcular_dias_ferias_usados. rewrite usados_acc. lia. Qed.

(** C6. The consumed days are the sum of the day counts of exactly the
    records whose kind is "Férias"; a record of any other kind, wherever
    it stands in the list, adds nothing, and none of the other six kinds
    of [TipoAfastamento] carries the vacation tag. *)
Theorem calcular_dias_ferias_usados_spec
    (f : Funcionario) (afastamentos : list Afastamento) :
  calcular_dias_ferias_usados f afastamentos
  = total (map Afastamento.dias_afastamento (filter is_ferias afastamentos))
  /\ (forall a antes depois,
        afastamentos = (antes ++ a :: depois)%list ->
        Afastamento.tipo a <> "Férias" ->
        calcular_dias_ferias_usados f afastamentos
        = calcular_dias_ferias_usados f (antes ++ depois)%list)
  /\ (forall k, k <> FERIAS -> value k <> "Férias").
Proof.
  split; [ apply usados_total | split ].
  - intros a antes depois -> Ha.
    rewrite !usados_total, !filter_app. cbn [filter].
    unfold is_ferias at 2.
    apply String.eqb_neq in Ha. rewrite Ha. reflexivity.
  - intros [] Hk; try congruence; cbn; discriminate.
Qed.

Lemma calcular_dias_ferias_usados_spec_witness :
  calcular_dias_ferias_usados ana [atestado_marco; janeiro_2024; um_dia] = 10
  /\ calcular_dias_ferias_usados ana [atestado_marco; janeiro_2024; um_dia]
     = calcular_dias_ferias_usados ana [janeiro_2024; um_dia]
  /\ value LICENCA_LUTO <> "Férias".
Proof.
  destruct (calcular_dias_ferias_usados_spec
              ana [atestado_marco; janeiro_2024; um_dia]) as (E & H & K).
  split; [ | split ].
  - rewrite E. reflexivity.
  - apply (H atestado_marco [] [janeiro_2024; um_dia] eq_refl).
    cbn. discriminate.
  - apply K. discriminate.
Defined.

Lemma floordiv_Ok (a b : Z) : b <> 0 -> floordiv a b = Ok (a / b).
Proof.
  intros Hb. unfold floordiv.
  destruct (Z.eqb_spec b 0); [ contradiction | reflexivity ].
Qed.

(** C4. With positive constants, for an employee with a hire date: the
    elapsed months are [(agora.year - adm.year) * 12 + (agora.month -
    adm.month)], whatever the days of the month; below the threshold the
    accrued days are 0, from the threshold on they are
    [floor(months / threshold) * days per period]; in both cases a
    non-negative multiple of the days per period. *)
Theorem calcular_dias_ferias_disponiveis_spec
    (cfg : Config) (agora adm : datetime) (f : Funcionario) :
  0 < MESES_PARA_FERIAS cfg ->
  0 < DIAS_FERIAS_ANUAL cfg ->
  Funcionario.data_admissao f = Some adm ->
  let meses := (year agora - year adm) * 12 + (month agora - month adm) in
  (meses < MESES_PARA_FERIAS cfg ->
     calcular_dias_ferias_disponiveis cfg agora f = Ok 0)
  /\ (MESES_PARA_FERIAS cfg <= meses ->
        calcular_dias_ferias_disponiveis cfg agora f
        = Ok (meses / MESES_PARA_FERIAS cfg * DIAS_FERIAS_ANUAL cfg))
  /\ (exists k,
        0 <= k
        /\ calcular_dias_ferias_disponiveis cfg agora f
           = Ok (k * DIAS_FERIAS_ANUAL cfg)
        /\ 0 <= k * DIAS_FERIAS_ANUAL cfg).
Proof.
  intros Hm Hd Hadm meses.
  unfold calcular_dias_ferias_disponiveis. rewrite Hadm.
  cbv zeta. fold meses.
  destruct (Z.ltb_spec meses (MESES_PARA_FERIAS cfg)) as [Hlt | Hge].
  - split; [ reflexivity | split; [ lia | ] ].
    exists 0. repeat split; lia || reflexivity.
  - rewrite floordiv_Ok by lia. cbn [bind].
    split; [ lia | split; [ reflexivity | ] ].
    exists (meses / MESES_PARA_FERIAS cfg).
    assert (0 <= meses / MESES_PARA_FERIAS cfg)
      by (apply Z.div_pos; lia).
    repeat split; nia || reflexivity.
Qed.

Lemma calcular_dias_ferias_disponiveis_spec_witness :
  calcular_dias_ferias_disponiveis default_config (date 2023 12 15) bruno
  = Ok 0
  /\ calcular_dias_ferias_disponiveis default_config (date 2024 1 15) bruno
     = Ok 30
  /\ calcular_dias_ferias_disponiveis default_config (date 2025 1 20) bruno
     = Ok 60.
Proof.
  assert (Hm : 0 < MESES_PARA_FERIAS default_config) by (cbn; lia).
  assert (Hd : 0 < DIAS_FERIAS_ANUAL default_config) by (cbn; lia).
  split; [ | split ].
  - destruct (calcular_dias_ferias_disponiveis_spec
                default_config (date 2023 12 15) (date 2023 1 15) bruno
                Hm Hd eq_refl) as (H & _ & _).
    apply H. cbn. lia.
  - destruct (calcular_dias_ferias_disponiveis_spec
                default_config (date 2024 1 15) (date 2023 1 15) bruno
                Hm Hd eq_refl) as (_ & H & _).
    rewrite H by (cbn; lia). reflexivity.
  - destruct (calcular_dias_ferias_disponiveis_spec
                default_config (date 2025 1 20) (date 2023 1 15) bruno
                Hm Hd eq_refl) as (_ & H & _).
    rewrite H by (cbn; lia). reflexivity.
Defined.

(** The accrual never looks at the day of the month or the time of day. *)
Lemma calcular_dias_ferias_disponiveis_ignores_day
    (cfg : Config) (agora agora' adm adm' : datetime) (f f' : Funcionario) :
  Funcionario.data_admissao f = Some adm ->
  Funcionario.data_admissao f' = Some adm' ->
  year agora = year agora' -> month agora = month agora' ->
  year adm = year adm' -> month adm = month adm' ->
  calcular_dias_ferias_disponiveis cfg agora f
  = calcular_dias_ferias_disponiveis cfg agora' f'.
Proof.
  intros Hf Hf' Hy Hm Hy' Hm'.
  unfold calcular_dias_ferias_disponiveis.
  rewrite Hf, Hf', Hy, Hm, Hy', Hm'. reflexivity.
Qed.

Lemma calcular_dias_ferias_disponiveis_returns
    (cfg : Config) (agora : datetime) (f : Funcionario) :
  MESES_PARA_FERIAS cfg <> 0 ->
  exists d, calcular_dias_ferias_disponiveis cfg agora f = Ok d.
Proof.
  intros Hm. unfold calcular_dias_ferias_disponiveis.
  destruct (Funcionario.data_admissao f) as [adm |]; [ | now exists 0 ].
  destruct (_ <? _); [ now exists 0 | ].
  rewrite floordiv_Ok by assumption. cbn [bind]. eauto.
Qed.

Lemma calcular_dias_ferias_restantes_returns
    (cfg : Config) (agora : datetime) (f : Funcionario)
    (afastamentos : list Afastamento) :
  MESES_PARA_FERIAS cfg <> 0 ->
  exists r,
    calcular_dias_ferias_restantes cfg agora f afastamentos = Ok r /\ 0 <= r.
Proof.
  intros Hm. unfold calcular_dias_ferias_restantes.
  destruct (calcular_dias_ferias_disponiveis_returns cfg agora f Hm)
    as [d Hd].
  rewrite Hd. cbn [bind]. eexists. split; [ reflexivity | lia ].
Qed.

(** C5. The remaining days are [max(0, accrued - consumed)]: never
    negative, however large the consumption; and the computation returns
    whenever the threshold constant is not zero. *)
Theorem calcular_dias_ferias_restantes_spec
    (cfg : Config) (agora : datetime) (f : Funcionario)
    (afastamentos : list Afastamento) :
  calcular_dias_ferias_restantes cfg agora f afastamentos
  = fmap (fun disponiveis =>
            Z.max 0 (disponiveis
                     - calcular_dias_ferias_usados f afastamentos))
         (calcular_dias_ferias_disponiveis cfg agora f)
  /\ (forall r,
        calcular_dias_ferias_restantes cfg agora f afastamentos = Ok r ->
        0 <= r)
  /\ (MESES_PARA_FERIAS cfg <> 0 ->
      exists disponiveis,
        calcular_dias_ferias_disponiveis cfg agora f = Ok disponiveis
        /\ calcular_dias_ferias_restantes cfg agora f afastamentos
           = Ok (Z.max 0 (disponiveis
                          - calcular_dias_ferias_usados f afastamentos))).
Proof.
  unfold calcular_dias_ferias_restantes, fmap.
  split; [ reflexivity | split ].
  - intros r. destruct (calcular_dias_ferias_disponiveis cfg agora f);
      cbn [bind]; intros [= <-]. lia.
  - intros Hm.
    destruct (calcular_dias_ferias_disponiveis_returns cfg agora f Hm)
      as [d Hd].
    exists d. rewrite Hd. split; reflexivity.
Qed.

Lemma calcular_dias_ferias_restantes_spec_witness :
  calcular_dias_ferias_restantes default_config (date 2024 6 1) ana
    [janeiro_2024] = Ok 20
  /\ 0 <= 20.
Proof.
  destruct (calcular_dias_ferias_restantes_spec
              default_config (date 2024 6 1) ana [janeiro_2024])
    as (E & Hpos & Hret).
  split.
  - destruct (Hret ltac:(cbn; lia)) as (d & Hd & ->).
    cbn in Hd. injection Hd as <-. reflexivity.
  - apply Hpos. rewrite E. reflexivity.
Defined.

(** C8. Without a hire date the answer is [None].  With one, an employee
    whose elapsed months have reached the threshold gets [agora] itself;
    any other gets the hire date plus a [timedelta] of
    [MESES_PARA_FERIAS * 30] days: the calendar date that many days after
    the hire date (counted in days, not in calendar months), at the same
    time of day, whenever that date is on the calendar. *)
Theorem obter_proxima_data_ferias_spec
    (cfg : Config) (agora : datetime) (f : Funcionario) :
  (Funcionario.data_admissao f = None ->
     obter_proxima_data_ferias cfg agora f = Ok None)
  /\ (forall adm,
        Funcionario.data_admissao f = Some adm ->
        let meses :=
          (year agora - year adm) * 12 + (month agora - month adm) in
        (MESES_PARA_FERIAS cfg <= meses ->
           obter_proxima_data_ferias cfg agora f = Ok (Some agora))
        /\ (meses < MESES_PARA_FERIAS cfg ->
              obter_proxima_data_ferias cfg agora f
              = fmap Some
                  (bind (timedelta_days (MESES_PARA_FERIAS cfg * 30))
                        (add adm))
              /\ (valid adm ->
                  0 < toordinal adm + MESES_PARA_FERIAS cfg * 30
                    <= MAXORDINAL ->
                  exists proxima_data,
                    obter_proxima_data_ferias cfg agora f
                    = Ok (Some proxima_data)
                    /\ valid proxima_data
                    /\ toordinal proxima_data
                       = toordinal adm + MESES_PARA_FERIAS cfg * 30
                    /\ hour proxima_data = hour adm
                    /\ minute proxima_data = minute adm
                    /\ second proxima_data = second adm
                    /\ microsecond proxima_data = microsecond adm))).
Proof.
  split.
  - intros H. unfold obter_proxima_data_ferias. rewrite H. reflexivity.
  - intros adm Hadm meses.
    unfold obter_proxima_data_ferias. rewrite Hadm.
    cbv zeta. fold meses.
    destruct (Z.geb_spec meses (MESES_PARA_FERIAS cfg)) as [Hge | Hlt].
    + split; [ reflexivity | lia ].
    + split; [ lia | ]. intros _.
      split.
      * unfold fmap.
        destruct (timedelta_days _); cbn [bind]; reflexivity.
      * intros Hv Hrange.
        destruct (add_days_spec adm (MESES_PARA_FERIAS cfg * 30) Hv)
          as [Hok _].
        destruct (Hok Hrange) as (d & Hd & Hrest).
        exists d. split; [ | exact Hrest ].
        destruct (timedelta_days _); cbn [bind] in *;
          [ rewrite Hd; reflexivity | discriminate Hd ].
Qed.

Lemma obter_proxima_data_ferias_spec_witness :
  obter_proxima_data_ferias default_config (date 2024 6 1) sem_admissao
  = Ok None
  /\ obter_proxima_data_ferias default_config (date 2024 6 1) ana
     = Ok (Some (date 2024 6 1))
  /\ obter_proxima_data_ferias default_config (date 2023 6 1) ana
     = Ok (Some (date 2023 12 27)).
Proof.
  split; [ | split ].
  - apply obter_proxima_data_ferias_spec. reflexivity.
  - destruct (obter_proxima_data_ferias_spec
                default_config (date 2024 6 1) ana) as [_ H].
    destruct (H (date 2023 1 1) eq_refl) as [H1 _].
    apply H1. cbn. lia.
  - destruct (obter_proxima_data_ferias_spec
                default_config (date 2023 6 1) ana) as [_ H].
    destruct (H (date 2023 1 1) eq_refl) as [_ H2].
    destruct (H2 ltac:(cbn; lia)) as [-> _]. reflexivity.
Defined.

End Entitlement.

(** ** The leave request validator *)

Section Validator.

Import FeriasManager.

Lemma verificar_conflitos_find
    (data_inicio data_fim : datetime) (afastamentos : list Afastamento) :
  verificar_conflitos data_inicio data_fim afastamentos
  = match find (conflita data_inicio data_fim) afastamentos with
    | Some a => (false, msg_conflito (Afastamento.tipo a))
    | None => (true, msg_sucesso)
    end.
Proof.
  induction afastamentos as [| a resto IH]; [ reflexivity | ].
  cbn [verificar_conflitos find]. unfold conflita at 1, overlap.
  destruct (Afastamento.data_inicio a) as [a_inicio |]; [ | exact IH ].
  destruct (Afastamento.data_fim a) as [a_fim |]; [ | exact IH ].
  destruct (negb _); [ reflexivity | exact IH ].
Qed.

(** Whole days between two valid instants, the later one first. *)
Lemma sub_days_neg (a b : datetime) :
  valid a -> valid b -> lt a b = true -> days (sub a b) < 0.
Proof.
  intros Ha Hb Hlt. rewrite lt_timestamp in Hlt by assumption.
  apply Z.ltb_lt in Hlt. rewrite sub_days_floor.
  apply Z.div_lt_upper_bound; lia.
Qed.

Lemma toordinal_lt (a b : datetime) :
  valid a -> valid b -> toordinal a < toordinal b -> lt a b = true.
Proof.
  intros Ha Hb Hord. rewrite lt_timestamp by assumption.
  apply Z.ltb_lt. unfold timestamp_us.
  destruct Ha as (_ & _ & _ & ? & ? & ? & ?).
  destruct Hb as (_ & _ & _ & ? & ? & ? & ?). lia.
Qed.

(** C1. Whenever the requested days, [(data_fim - data_inicio).days + 1],
    exceed the remaining days, the validator answers [False] with a
    message that quotes the remaining days and then the requested days in
    decimal.  The request's kind is not among the arguments of
    [validar_ferias], so the rejection is the same for every kind. *)
Theorem validar_ferias_saldo_insuficiente
    (cfg : Config) (agora : datetime) (f : Funcionario)
    (data_inicio data_fim : datetime) (afastamentos : list Afastamento)
    (dias_restantes : Z) :
  calcular_dias_ferias_restantes cfg agora f afastamentos
  = Ok dias_restantes ->
  days (sub data_fim data_inicio) + 1 > dias_restantes ->
  validar_ferias cfg agora f data_inicio data_fim afastamentos
  = Ok (false,
        "Funcionário tem apenas " ++ str dias_restantes
        ++ " dias de férias disponíveis, mas solicitou "
        ++ str (days (sub data_fim data_inicio) + 1) ++ " dias.").
Proof.
  intros Hr Hgt. unfold validar_ferias. rewrite Hr. cbn [bind].
  destruct (Z.gtb_spec (days (sub data_fim data_inicio) + 1) dias_restantes);
    [ reflexivity | lia ].
Qed.

Lemma validar_ferias_saldo_insuficiente_witness :
  validar_ferias default_config (date 2024 6 1) ana
    (date 2024 7 1) (date 2024 7 25) [janeiro_2024]
  = Ok (false,
        "Funcionário tem apenas 20 dias de férias disponíveis, mas solicitou 25 dias.").
Proof.
  apply (validar_ferias_saldo_insuficiente
           default_config (date 2024 6 1) ana
           (date 2024 7 1) (date 2024 7 25) [janeiro_2024] 20).
  - reflexivity.
  - vm_compute. reflexivity.
Defined.

(** C2 (amended). A request within the balance is compared with every
    existing record that has both dates, by the rule
    [not (data_fim < a.data_inicio or data_inicio > a.data_fim)]; records
    missing a date are skipped.  The first record that overlaps makes the
    answer [False] with a message naming that record's kind; with no
    overlapping record the answer is [True].  A record with the dates of
    the candidate overlaps it exactly when the candidate's end is not
    before its start, in which case the request is refused; a candidate
    that ends on the day before an existing interval starts does not
    overlap it. *)
Theorem validar_ferias_conflitos
    (cfg : Config) (agora : datetime) (f : Funcionario)
    (data_inicio data_fim : datetime) (afastamentos : list Afastamento)
    (dias_restantes : Z) :
  calcular_dias_ferias_restantes cfg agora f afastamentos
  = Ok dias_restantes ->
  days (sub data_fim data_inicio) + 1 <= dias_restantes ->
  validar_ferias cfg agora f data_inicio data_fim afastamentos
  = Ok (match find (conflita data_inicio data_fim) afastamentos with
        | Some a =>
            (false,
             "Há um conflito com outro afastamento ("
             ++ Afastamento.tipo a ++ ") no período solicitado.")
        | None => (true, "Férias validadas com sucesso.")
        end)
  /\ (forall a,
        conflita data_inicio data_fim a = true <->
        exists a_inicio a_fim,
          Afastamento.data_inicio a = Some a_inicio
          /\ Afastamento.data_fim a = Some a_fim
          /\ ~ (lt data_fim a_inicio = true \/ gt data_inicio a_fim = true))
  /\ (forall a,
        Afastamento.data_inicio a = None \/ Afastamento.data_fim a = None ->
        conflita data_inicio data_fim a = false)
  /\ (forall a,
        Afastamento.data_inicio a = Some data_inicio ->
        Afastamento.data_fim a = Some data_fim ->
        conflita data_inicio data_fim a = negb (lt data_fim data_inicio))
  /\ (forall a,
        In a afastamentos ->
        Afastamento.data_inicio a = Some data_inicio ->
        Afastamento.data_fim a = Some data_fim ->
        lt data_fim data_inicio = false ->
        exists b,
          In b afastamentos
          /\ validar_ferias cfg agora f data_inicio data_fim afastamentos
             = Ok (false,
                   "Há um conflito com outro afastamento ("
                   ++ Afastamento.tipo b ++ ") no período solicitado."))
  /\ (forall a a_inicio a_fim,
        Afastamento.data_inicio a = Some a_inicio ->
        Afastamento.data_fim a = Some a_fim ->
        valid data_fim -> valid a_inicio ->
        toordinal data_fim + 1 = toordinal a_inicio ->
        conflita data_inicio data_fim a = false).
Proof.
  intros Hr Hle.
  assert (Hres : validar_ferias cfg agora f data_inicio data_fim afastamentos
                 = Ok (verificar_conflitos data_inicio data_fim afastamentos)).
  { unfold validar_ferias. rewrite Hr. cbn [bind].
    destruct (Z.gtb_spec (days (sub data_fim data_inicio) + 1)
                dias_restantes); [ lia | reflexivity ]. }
  assert (Hsame : forall a,
            Afastamento.data_inicio a = Some data_inicio ->
            Afastamento.data_fim a = Some data_fim ->
            conflita data_inicio data_fim a = negb (lt data_fim data_inicio)).
  { intros a Hi Hf. unfold conflita, overlap. rewrite Hi, Hf.
    rewrite gt_lt, orb_diag. reflexivity. }
  split; [ | split; [ | split; [ | split; [ | split ] ] ] ].
  - rewrite Hres, verificar_conflitos_find. reflexivity.
  - intros a. unfold conflita, overlap. split.
    + destruct (Afastamento.data_inicio a) as [a_inicio |]; [ | discriminate ].
      destruct (Afastamento.data_fim a) as [a_fim |]; [ | discriminate ].
      intros H. exists a_inicio, a_fim. repeat split.
      apply negb_true_iff, orb_false_iff in H. destruct H as [H1 H2].
      intros [H | H]; congruence.
    + intros (a_inicio & a_fim & -> & -> & H).
      apply negb_true_iff, orb_false_iff.
      split; apply not_true_is_false; tauto.
  - intros a [H | H]; unfold conflita; rewrite H;
      [ | destruct (Afastamento.data_inicio a) ]; reflexivity.
  - exact Hsame.
  - intros a Hin Hi Hf Hlt.
    pose proof (Hsame a Hi Hf) as Hc. rewrite Hlt in Hc. cbn [negb] in Hc.
    rewrite Hres, verificar_conflitos_find.
    destruct (find (conflita data_inicio data_fim) afastamentos)
      as [b |] eqn:Efind.
    + exists b. split; [ | reflexivity ].
      apply (find_some _ _ Efind).
    + rewrite (find_none _ _ Efind a Hin) in Hc. discriminate Hc.
  - intros a a_inicio a_fim Hi Hf Hv1 Hv2 Hord.
    unfold conflita, overlap. rewrite Hi, Hf.
    rewrite (toordinal_lt data_fim a_inicio) by (assumption || lia).
    reflexivity.
Qed.

Lemma validar_ferias_conflitos_witness :
  validar_ferias default_config (date 2024 6 1) ana
    (date 2024 3 10) (date 2024 3 20) [sem_inicio; atestado_marco]
  = Ok (false,
        "Há um conflito com outro afastamento (Atestado Médico) no período solicitado.")
  /\ conflita (date 2024 3 10) (date 2024 3 20) atestado_marco = true
  /\ conflita (date 2024 3 10) (date 2024 3 20) sem_inicio = false
  /\ conflita (date 2024 3 10) (date 2024 3 20)
       (Afastamento.mk None 7 "Falta" (Some (date 2024 3 10))
          (Some (date 2024 3 20)) "" "" None None None) = true.
Proof.
  destruct (validar_ferias_conflitos
              default_config (date 2024 6 1) ana
              (date 2024 3 10) (date 2024 3 20) [sem_inicio; atestado_marco]
              30 eq_refl ltac:(vm_compute; discriminate))
    as (E & Hrule & Hskip & Hsame & _).
  split; [ | split; [ | split ] ].
  - rewrite E. reflexivity.
  - apply Hrule. exists (date 2024 3 15), (date 2024 3 18).
    repeat split. intros [H | H]; discriminate H.
  - apply Hskip. left. reflexivity.
  - exact (Hsame
             (Afastamento.mk None 7 "Falta" (Some (date 2024 3 10))
                (Some (date 2024 3 20)) "" "" None None None)
             eq_refl eq_refl).
Defined.

(** C2 as worded fails for a candidate whose end precedes its start.
    The request 2024-07-10..2024-07-01 asks for -8 days, within the
    balance of 30; the only record has the same two dates; the test
    [not (data_fim < a.data_inicio or data_inicio > a.data_fim)] is
    [not (True or True)], so the record does not overlap and the request
    is accepted. *)
Lemma validar_ferias_conflitos_counterexample :
  ~ AsWorded.equal_interval_refused default_config (date 2024 6 1) ana
      (date 2024 7 10) (date 2024 7 1) [falta_invertida]
  /\ days (sub (date 2024 7 1) (date 2024 7 10)) + 1 = -8
  /\ calcular_dias_ferias_restantes default_config (date 2024 6 1) ana
       [falta_invertida] = Ok 30
  /\ conflita (date 2024 7 10) (date 2024 7 1) falta_invertida = false
  /\ validar_ferias default_config (date 2024 6 1) ana
       (date 2024 7 10) (date 2024 7 1) [falta_invertida]
     = Ok (true, "Férias validadas com sucesso.").
Proof.
  split; [ | repeat split ].
  intros H.
  destruct (H 30 falta_invertida eq_refl ltac:(vm_compute; discriminate)
              (or_introl eq_refl) eq_refl eq_refl) as [motivo E].
  vm_compute in E. discriminate E.
Qed.

(** A request for 2024-01-01..2024-01-05 next to a leave that starts on
    2024-01-06: no conflict, the request is accepted. *)
Lemma validar_ferias_adjacente :
  conflita (date 2024 1 1) (date 2024 1 5) licenca_janeiro = false
  /\ validar_ferias default_config (date 2024 6 1) ana
       (date 2024 1 1) (date 2024 1 5) [licenca_janeiro]
     = Ok (true, "Férias validadas com sucesso.").
Proof. split; reflexivity. Qed.

(** The overlap examples of the specification. *)
Lemma overlap_examples :
  overlap (date 2024 3 10) (date 2024 3 20)
          (date 2024 3 15) (date 2024 3 18) = true
  /\ overlap (date 2024 1 1) (date 2024 1 5)
             (date 2024 1 6) (date 2024 1 10) = false
  /\ overlap (date 2024 1 6) (date 2024 1 10)
             (date 2024 1 6) (date 2024 1 10) = true.
Proof. repeat split. Qed.

(** C10. With no existing record, a request whose end precedes its start
    asks for zero or fewer days, passes the balance test and is accepted:
    nothing in the validator rejects an inverted interval. *)
Theorem validar_ferias_intervalo_invertido
    (cfg : Config) (agora : datetime) (f : Funcionario)
    (data_inicio data_fim : datetime) :
  MESES_PARA_FERIAS cfg <> 0 ->
  valid data_inicio -> valid data_fim ->
  lt data_fim data_inicio = true ->
  days (sub data_fim data_inicio) + 1 <= 0
  /\ (exists dias_restantes,
        calcular_dias_ferias_restantes cfg agora f [] = Ok dias_restantes
        /\ days (sub data_fim data_inicio) + 1 <= dias_restantes)
  /\ validar_ferias cfg agora f data_inicio data_fim []
     = Ok (true, "Férias validadas com sucesso.").
Proof.
  intros Hm Hvi Hvf Hlt.
  pose proof (sub_days_neg data_fim data_inicio Hvf Hvi Hlt) as Hneg.
  destruct (calcular_dias_ferias_restantes_returns cfg agora f [] Hm)
    as (r & Hr & Hpos).
  split; [ lia | split ].
  - exists r. split; [ assumption | lia ].
  - unfold validar_ferias. rewrite Hr. cbn [bind].
    destruct (Z.gtb_spec (days (sub data_fim data_inicio) + 1) r);
      [ lia | reflexivity ].
Qed.

Lemma validar_ferias_intervalo_invertido_witness :
  days (sub (date 2024 7 1) (date 2024 7 10)) + 1 = -8
  /\ validar_ferias default_config (date 2024 6 1) ana
       (date 2024 7 10) (date 2024 7 1) []
     = Ok (true, "Férias validadas com sucesso.").
Proof.
  split; [ reflexivity | ].
  apply (validar_ferias_intervalo_invertido
           default_config (date 2024 6 1) ana (date 2024 7 10) (date 2024 7 1)).
  - cbn. lia.
  - apply validb_valid. reflexivity.
  - apply validb_valid. reflexivity.
  - reflexivity.
Defined.

End Validator.

(** ** Identifier validators and formatters *)

Section Identifiers.

Import Validators.

Section IdentifierFacts.

Variable decimal : Z -> option Z.

Lemma str_eqb_eq (a b : Str.t) : Str.eqb a b = true <-> a = b.
Proof.
  revert b. induction a as [| c a IH]; intros [| d b]; cbn [Str.eqb];
    try (split; [ discriminate | discriminate ]); [ tauto | ].
  rewrite andb_true_iff, Z.eqb_eq, IH. split.
  - intros [-> ->]. reflexivity.
  - intros [= -> ->]. split; reflexivity.
Qed.

Lemma str_eqb_refl (a : Str.t) : Str.eqb a a = true.
Proof. apply str_eqb_eq. reflexivity. Qed.

Lemma length_11_inv (s : Str.t) :
  List.length s = 11%nat ->
  exists c0 c1 c2 c3 c4 c5 c6 c7 c8 c9 c10,
    s = [c0; c1; c2; c3; c4; c5; c6; c7; c8; c9; c10].
Proof.
  intros H.
  do 11 (destruct s as [| ? s]; [ discriminate H | ]).
  destruct s; [ | discriminate H ].
  repeat eexists.
Qed.

Lemma soma_digito1 (c0 c1 c2 c3 c4 c5 c6 c7 c8 c9 c10 : Z) :
  let cpf := [c0; c1; c2; c3; c4; c5; c6; c7; c8; c9; c10] in
  let d := int_of_char decimal in
  sum (map (fun i => d (char_at cpf (Z.to_nat i)) * (10 - i)) (range 9))
  = d c0 * 10 + d c1 * 9 + d c2 * 8 + d c3 * 7 + d c4 * 6 + d c5 * 5
    + d c6 * 4 + d c7 * 3 + d c8 * 2.
Proof.
  intros cpf d. subst cpf.
  unfold sum, range. cbn [seq map fold_left]. rewrite !Nat2Z.id.
  cbn [char_at nth Z.of_nat Pos.of_succ_nat Pos.succ]. lia.
Qed.

Lemma soma_digito2 (c0 c1 c2 c3 c4 c5 c6 c7 c8 c9 c10 : Z) :
  let cpf := [c0; c1; c2; c3; c4; c5; c6; c7; c8; c9; c10] in
  let d := int_of_char decimal in
  sum (map (fun i => d (char_at cpf (Z.to_nat i)) * (11 - i)) (range 10))
  = d c0 * 11 + d c1 * 10 + d c2 * 9 + d c3 * 8 + d c4 * 7 + d c5 * 6
    + d c6 * 5 + d c7 * 4 + d c8 * 3 + d c9 * 2.
Proof.
  intros cpf d. subst cpf.
  unfold sum, range. cbn [seq map fold_left]. rewrite !Nat2Z.id.
  cbn [char_at nth Z.of_nat Pos.of_succ_nat Pos.succ]. lia.
Qed.

Lemma todos_iguais (c0 c1 c2 c3 c4 c5 c6 c7 c8 c9 c10 : Z) :
  let cpf := [c0; c1; c2; c3; c4; c5; c6; c7; c8; c9; c10] in
  Str.eqb cpf (repeat_char (char_at cpf 0) 11) = true <->
  (c1 = c0 /\ c2 = c0 /\ c3 = c0 /\ c4 = c0 /\ c5 = c0 /\ c6 = c0
   /\ c7 = c0 /\ c8 = c0 /\ c9 = c0 /\ c10 = c0).
Proof.
  intros cpf. subst cpf. rewrite str_eqb_eq.
  cbn [char_at nth repeat_char repeat]. split.
  - intros [= -> -> -> -> -> -> -> -> -> ->]. repeat split.
  - intros (-> & -> & -> & -> & -> & -> & -> & -> & -> & ->). reflexivity.
Qed.

Lemma remove_non_digits_repeat (c : Z) (n : nat) :
  remove_non_digits decimal (repeat_char c n)
  = if is_digit decimal c then repeat_char c n else [].
Proof.
  unfold repeat_char.
  induction n as [| n IH]; cbn [repeat remove_non_digits].
  - destruct (is_digit decimal c); reflexivity.
  - rewrite IH. destruct (is_digit decimal c); reflexivity.
Qed.

Lemma remove_non_digits_In (s : Str.t) (c : Z) :
  In c (remove_non_digits decimal s) -> is_digit decimal c = true.
Proof.
  induction s as [| c' s IH]; cbn [remove_non_digits]; [ intros [] | ].
  destruct (is_digit decimal c') eqn:E; [ | exact IH ].
  intros [<- | H]; [ exact E | exact (IH H) ].
Qed.

(** What [validar_cpf] computes once the digits are isolated. *)
Lemma validar_cpf_eleven (raw : Str.t)
    (c0 c1 c2 c3 c4 c5 c6 c7 c8 c9 c10 : Z) :
  remove_non_digits decimal raw
  = [c0; c1; c2; c3; c4; c5; c6; c7; c8; c9; c10] ->
  let d := int_of_char decimal in
  validar_cpf decimal raw
  = negb (Str.eqb [c0; c1; c2; c3; c4; c5; c6; c7; c8; c9; c10]
                  (repeat_char c0 11))
    && (d c9
        =? digito_verificador
             (soma1 (d c0) (d c1) (d c2) (d c3) (d c4) (d c5) (d c6) (d c7)
                (d c8)))
    && (d c10
        =? digito_verificador
             (soma2 (d c0) (d c1) (d c2) (d c3) (d c4) (d c5) (d c6) (d c7)
                (d c8) (d c9))).
Proof.
  intros H d. unfold validar_cpf. rewrite H.
  change (Str.len [c0; c1; c2; c3; c4; c5; c6; c7; c8; c9; c10] =? 11)
    with true.
  cbn [negb].
  rewrite (soma_digito1 c0 c1 c2 c3 c4 c5 c6 c7 c8 c9 c10),
    (soma_digito2 c0 c1 c2 c3 c4 c5 c6 c7 c8 c9 c10).
  cbn [char_at nth].
  unfold digito_verificador, soma1, soma2. fold d.
  destruct (Str.eqb _ _); cbn [negb andb]; [ reflexivity | ].
  destruct (Z.eqb _ _); cbn [negb andb]; [ | reflexivity ].
  destruct (Z.eqb _ _); reflexivity.
Qed.

Lemma validar_cpf_length (raw : Str.t) :
  validar_cpf decimal raw = true ->
  List.length (remove_non_digits decimal raw) = 11%nat.
Proof.
  unfold validar_cpf, Str.len.
  destruct (Z.eqb_spec
              (Z.of_nat (List.length (remove_non_digits decimal raw))) 11);
    cbn [negb]; [ lia | discriminate ].
Qed.


Lemma remove_non_digits_digits (s : Str.t) :
  forallb (is_digit decimal) s = true ->
  remove_non_digits decimal s = s.
Proof.
  induction s as [| c s IH]; cbn [forallb remove_non_digits];
    [ reflexivity | ].
  intros H. apply andb_true_iff in H. destruct H as [Hc Hs].
  rewrite Hc, IH by assumption. reflexivity.
Qed.

End IdentifierFacts.

(** C3 (amended). [validar_cpf] accepts exactly the inputs whose decimal
    digits, once every other character is removed, are eleven, not eleven
    times the same character, and end with the two check digits, each
    computed as 11 minus the remainder mod 11 of the weighted sum (weights
    10..2 over the first nine digits, then 11..2 over the first ten),
    replaced by 0 when that exceeds 9.  Every character kept is a decimal
    digit of the database and counts with its value.  A string made of one
    character repeated eleven times is rejected. *)
Theorem validar_cpf_spec (decimal : Z -> option Z) (raw : Str.t) :
  let d := int_of_char decimal in
  (validar_cpf decimal raw = true <->
   exists c0 c1 c2 c3 c4 c5 c6 c7 c8 c9 c10,
     remove_non_digits decimal raw
     = [c0; c1; c2; c3; c4; c5; c6; c7; c8; c9; c10]
     /\ ~ (c1 = c0 /\ c2 = c0 /\ c3 = c0 /\ c4 = c0 /\ c5 = c0 /\ c6 = c0
           /\ c7 = c0 /\ c8 = c0 /\ c9 = c0 /\ c10 = c0)
     /\ d c9 = digito_verificador
                 (d c0 * 10 + d c1 * 9 + d c2 * 8 + d c3 * 7 + d c4 * 6
                  + d c5 * 5 + d c6 * 4 + d c7 * 3 + d c8 * 2)
     /\ d c10 = digito_verificador
                  (d c0 * 11 + d c1 * 10 + d c2 * 9 + d c3 * 8 + d c4 * 7
                   + d c5 * 6 + d c6 * 5 + d c7 * 4 + d c8 * 3 + d c9 * 2))
  /\ (forall c, In c (remove_non_digits decimal raw) ->
                exists v, decimal c = Some v /\ d c = v)
  /\ (forall c, validar_cpf decimal (repeat_char c 11) = false).
Proof.
  intros d. split; [ | split ].
  - destruct (Z.eq_dec (Str.len (remove_non_digits decimal raw)) 11)
      as [Hlen | Hlen].
    + destruct (length_11_inv (remove_non_digits decimal raw)
                  ltac:(unfold Str.len in Hlen; lia))
        as (c0 & c1 & c2 & c3 & c4 & c5 & c6 & c7 & c8 & c9 & c10 & E).
      rewrite (validar_cpf_eleven decimal raw _ _ _ _ _ _ _ _ _ _ _ E).
      cbv zeta. fold d. unfold soma1, soma2. rewrite E.
      pose proof (todos_iguais c0 c1 c2 c3 c4 c5 c6 c7 c8 c9 c10) as Hig.
      cbv zeta in Hig. cbn [char_at nth] in Hig.
      rewrite !andb_true_iff, negb_true_iff, !Z.eqb_eq.
      split.
      * intros [[Hne H9] H10].
        exists c0, c1, c2, c3, c4, c5, c6, c7, c8, c9, c10.
        split; [ reflexivity | split; [ | split; assumption ] ].
        intros Hall. apply Hig in Hall. congruence.
      * intros (b0 & b1 & b2 & b3 & b4 & b5 & b6 & b7 & b8 & b9 & b10
                & Hb & Hne & H9 & H10).
        injection Hb as -> -> -> -> -> -> -> -> -> -> ->.
        split; [ split | ]; [ | assumption | assumption ].
        apply not_true_is_false. intros Hall. apply Hne, Hig, Hall.
    + split.
      * unfold validar_cpf.
        destruct (Z.eqb_spec (Str.len (remove_non_digits decimal raw)) 11);
          [ contradiction | discriminate ].
      * intros (c0 & c1 & c2 & c3 & c4 & c5 & c6 & c7 & c8 & c9 & c10
                & E & _).
        rewrite E in Hlen. contradiction Hlen. reflexivity.
  - intros c Hc. apply remove_non_digits_In in Hc.
    unfold is_digit in Hc. subst d. unfold int_of_char.
    destruct (decimal c) as [v |]; [ | discriminate Hc ].
    exists v. split; reflexivity.
  - intros c. unfold validar_cpf. rewrite remove_non_digits_repeat.
    destruct (is_digit decimal c); [ | reflexivity ].
    change (Str.len (repeat_char c 11) =? 11) with true. cbn [negb].
    change (char_at (repeat_char c 11) 0) with c.
    rewrite str_eqb_refl. reflexivity.
Qed.

Lemma validar_cpf_spec_witness :
  validar_cpf Unicode.decimal (Str.of_ascii "529.982.247-25") = true
  /\ validar_cpf Unicode.decimal (Str.of_ascii "77777777777") = false.
Proof.
  split.
  - apply (proj2 (proj1 (validar_cpf_spec Unicode.decimal
                           (Str.of_ascii "529.982.247-25")))).
    exists 53, 50, 57, 57, 56, 50, 50, 52, 55, 50, 53.
    split; [ reflexivity | split; [ | split; reflexivity ] ].
    intros (H & _). discriminate H.
  - change (Str.of_ascii "77777777777") with (repeat_char 55 11).
    apply (proj2 (proj2 (validar_cpf_spec Unicode.decimal [])) 55).
Defined.

(** C3 as worded fails: with the check digit taken to be the remainder of
    the sum itself, the valid number 529.982.247-25 would be rejected (its
    first weighted sum is 295, remainder 9, while the ninth digit is 2).
    Moreover the test on identical digits compares characters, not values:
    ten times ['1'] followed by ARABIC-INDIC DIGIT ONE is accepted, though
    its eleven digits all have the value 1. *)
Lemma validar_cpf_as_worded_counterexample :
  ~ (validar_cpf Unicode.decimal (Str.of_ascii "52998224725") = true
     <-> AsWorded.validateNationalId Unicode.decimal
           (Str.of_ascii "52998224725") = true)
  /\ (let s := (Str.of_ascii "1111111111" ++ [arabic_indic_one])%list in
      validar_cpf Unicode.decimal s = true
      /\ digits Unicode.decimal (remove_non_digits Unicode.decimal s)
         = [1; 1; 1; 1; 1; 1; 1; 1; 1; 1; 1]
      /\ AsWorded.validateNationalId Unicode.decimal s = false).
Proof.
  split.
  - intros [H _]. specialize (H eq_refl). discriminate H.
  - repeat split.
Qed.

(** C9 (amended). Both formatters first drop every character that is not
    a decimal digit.  When the number of digits left is not the expected
    one (11 for the national ID; 10 or 11 for the phone) they return those
    digits alone: the input is handed back unchanged only if it consists
    of digits.  Otherwise they return the layouts XXX.XXX.XXX-XX,
    (XX) XXXXX-XXXX (11 digits) and (XX) XXXX-XXXX (10 digits). *)
Theorem formatar_spec (decimal : Z -> option Z) (raw : Str.t) :
  let d := remove_non_digits decimal raw in
  (Str.len d <> 11 -> formatar_cpf decimal raw = d)
  /\ (forall c0 c1 c2 c3 c4 c5 c6 c7 c8 c9 c10,
        d = [c0; c1; c2; c3; c4; c5; c6; c7; c8; c9; c10] ->
        formatar_cpf decimal raw
        = ([c0; c1; c2] ++ Str.of_ascii "." ++ [c3; c4; c5]
           ++ Str.of_ascii "." ++ [c6; c7; c8] ++ Str.of_ascii "-"
           ++ [c9; c10])%list)
  /\ (Str.len d <> 10 -> Str.len d <> 11 -> formatar_telefone decimal raw = d)
  /\ (forall c0 c1 c2 c3 c4 c5 c6 c7 c8 c9 c10,
        d = [c0; c1; c2; c3; c4; c5; c6; c7; c8; c9; c10] ->
        formatar_telefone decimal raw
        = (Str.of_ascii "(" ++ [c0; c1] ++ Str.of_ascii ") "
           ++ [c2; c3; c4; c5; c6] ++ Str.of_ascii "-"
           ++ [c7; c8; c9; c10])%list)
  /\ (forall c0 c1 c2 c3 c4 c5 c6 c7 c8 c9,
        d = [c0; c1; c2; c3; c4; c5; c6; c7; c8; c9] ->
        formatar_telefone decimal raw
        = (Str.of_ascii "(" ++ [c0; c1] ++ Str.of_ascii ") "
           ++ [c2; c3; c4; c5] ++ Str.of_ascii "-"
           ++ [c6; c7; c8; c9])%list)
  /\ (forallb (is_digit decimal) raw = true -> d = raw).
Proof.
  intros d. subst d.
  split; [ | split; [ | split; [ | split; [ | split ] ] ] ].
  - intros H. unfold formatar_cpf.
    destruct (Z.eqb_spec (Str.len (remove_non_digits decimal raw)) 11);
      [ contradiction | reflexivity ].
  - intros * H. unfold formatar_cpf. rewrite H. reflexivity.
  - intros H10 H11. unfold formatar_telefone.
    destruct (Z.eqb_spec (Str.len (remove_non_digits decimal raw)) 11);
      [ contradiction | ].
    destruct (Z.eqb_spec (Str.len (remove_non_digits decimal raw)) 10);
      [ contradiction | reflexivity ].
  - intros * H. unfold formatar_telefone. rewrite H. reflexivity.
  - intros * H. unfold formatar_telefone. rewrite H. reflexivity.
  - apply remove_non_digits_digits.
Qed.

Lemma formatar_spec_witness :
  formatar_cpf Unicode.decimal (Str.of_ascii "12-3") = Str.of_ascii "123"
  /\ formatar_cpf Unicode.decimal (Str.of_ascii "52998224725")
     = Str.of_ascii "529.982.247-25"
  /\ formatar_telefone Unicode.decimal (Str.of_ascii "(11) 8765")
     = Str.of_ascii "118765"
  /\ formatar_telefone Unicode.decimal (Str.of_ascii "11 98765 4321")
     = Str.of_ascii "(11) 98765-4321"
  /\ formatar_telefone Unicode.decimal (Str.of_ascii "1187654321")
     = Str.of_ascii "(11) 8765-4321"
  /\ remove_non_digits Unicode.decimal (Str.of_ascii "123456")
     = Str.of_ascii "123456"
  /\ formatar_cpf Unicode.decimal
       (map (Z.add 1632) [5; 2; 9; 9; 8; 2; 2; 4; 7; 2; 5])
     = (map (Z.add 1632) [5; 2; 9] ++ Str.of_ascii "."
        ++ map (Z.add 1632) [9; 8; 2] ++ Str.of_ascii "."
        ++ map (Z.add 1632) [2; 4; 7] ++ Str.of_ascii "-"
        ++ map (Z.add 1632) [2; 5])%list.
Proof.
  split; [ | split; [ | split; [ | split; [ | split; [ | split ] ] ] ] ].
  - apply (proj1 (formatar_spec Unicode.decimal (Str.of_ascii "12-3"))).
    vm_compute. discriminate.
  - apply (proj1 (proj2 (formatar_spec Unicode.decimal
                           (Str.of_ascii "52998224725")))
             53 50 57 57 56 50 50 52 55 50 53).
    reflexivity.
  - apply (proj1 (proj2 (proj2 (formatar_spec Unicode.decimal
                                  (Str.of_ascii "(11) 8765")))));
      vm_compute; discriminate.
  - apply (proj1 (proj2 (proj2 (proj2 (formatar_spec Unicode.decimal
                                         (Str.of_ascii "11 98765 4321")))))
             49 49 57 56 55 54 53 52 51 50 49).
    reflexivity.
  - apply (proj1 (proj2 (proj2 (proj2 (proj2 (formatar_spec Unicode.decimal
                                                (Str.of_ascii "1187654321"))))))
             49 49 56 55 54 53 52 51 50 49).
    reflexivity.
  - apply (proj2 (proj2 (proj2 (proj2 (proj2 (formatar_spec Unicode.decimal
                                                (Str.of_ascii "123456"))))))).
    reflexivity.
  - apply (proj1 (proj2 (formatar_spec Unicode.decimal
                           (map (Z.add 1632) [5; 2; 9; 9; 8; 2; 2; 4; 7; 2; 5])))
             1637 1634 1641 1641 1640 1634 1634 1636 1639 1634 1637).
    reflexivity.
Defined.

(** C9 as worded fails: an input with punctuation and the wrong number of
    digits comes back without its punctuation, not unchanged. *)
Lemma formatar_passthrough_counterexample :
  ~ AsWorded.formatNationalId_passthrough Unicode.decimal
      (Str.of_ascii "12-3")
  /\ ~ AsWorded.formatPhone_passthrough Unicode.decimal
         (Str.of_ascii "(11) 8765").
Proof.
  unfold AsWorded.formatNationalId_passthrough,
    AsWorded.formatPhone_passthrough.
  split.
  - intros H.
    assert (E : formatar_cpf Unicode.decimal (Str.of_ascii "12-3")
                = Str.of_ascii "12-3")
      by (apply H; vm_compute; discriminate).
    vm_compute in E. discriminate E.
  - intros H.
    assert (E : formatar_telefone Unicode.decimal (Str.of_ascii "(11) 8765")
                = Str.of_ascii "(11) 8765")
      by (apply H; vm_compute; discriminate).
    vm_compute in E. discriminate E.
Qed.

End Identifiers.

(** * Further properties *)

(** ** Day counts *)

Section LeaveIntervalMore.

Import Afastamento.

Lemma le_timestamp (a b : datetime) :
  valid a -> valid b -> lt b a = false -> timestamp_us a <= timestamp_us b.
Proof.
  intros Ha Hb H. rewrite lt_timestamp in H by assumption.
  apply Z.ltb_ge in H. exact H.
Qed.

(** X1. For a record with two valid dates, the day count is at least 1
    when the end is not before the start, and at most 0 when the end is
    before the start. *)
Theorem dias_afastamento_sinal (a : Afastamento) (inicio fim : datetime) :
  data_inicio a = Some inicio -> data_fim a = Some fim ->
  valid inicio -> valid fim ->
  (lt fim inicio = false -> 1 <= dias_afastamento a)
  /\ (lt fim inicio = true -> dias_afastamento a <= 0).
Proof.
  intros Hi Hf Vi Vf. unfold dias_afastamento. rewrite Hi, Hf.
  rewrite sub_days_floor. split; intros H.
  - apply le_timestamp in H; try assumption.
    assert (0 <= (timestamp_us fim - timestamp_us inicio) / 86400000000)
      by (apply Z.div_pos; lia).
    lia.
  - rewrite lt_timestamp in H by assumption. apply Z.ltb_lt in H.
    assert ((timestamp_us fim - timestamp_us inicio) / 86400000000 < 0)
      by (apply Z.div_lt_upper_bound; lia).
    lia.
Qed.

Lemma dias_afastamento_sinal_witness :
  1 <= dias_afastamento janeiro_2024.
Proof.
  apply (dias_afastamento_sinal janeiro_2024 (date 2024 1 1) (date 2024 1 10)
           eq_refl eq_refl);
    try (apply validb_valid; reflexivity).
  reflexivity.
Defined.

Lemma sub_days_same_time (a b : datetime) :
  hour a = hour b -> minute a = minute b -> second a = second b ->
  microsecond a = microsecond b ->
  days (sub a b) = toordinal a - toordinal b.
Proof.
  intros Hh Hm Hs Hu. unfold sub, normalize. rewrite Hh, Hm, Hs, Hu.
  rewrite !Z.sub_diag. cbn [days]. change (0 / 1000000) with 0.
  change ((0 + 0) / 86400) with 0. lia.
Qed.

(** X2. When start and end carry the same time of day, the day count is
    the number of calendar days from the start to the end, both included;
    hence cutting a leave into two back-to-back leaves (the second one
    starting on the day after the first one ends) keeps the total. *)
Theorem dias_afastamento_dias_corridos (a b c : Afastamento)
    (i m m' f : datetime) :
  data_inicio a = Some i -> data_fim a = Some f ->
  data_inicio b = Some i -> data_fim b = Some m ->
  data_inicio c = Some m' -> data_fim c = Some f ->
  same_time i m -> same_time m m' -> same_time m' f ->
  toordinal m' = toordinal m + 1 ->
  dias_afastamento a = toordinal f - toordinal i + 1
  /\ dias_afastamento a = dias_afastamento b + dias_afastamento c.
Proof.
  intros Hai Haf Hbi Hbf Hci Hcf (h1 & h2 & h3 & h4) (k1 & k2 & k3 & k4)
    (l1 & l2 & l3 & l4) Hord.
  unfold dias_afastamento. rewrite Hai, Haf, Hbi, Hbf, Hci, Hcf.
  rewrite !sub_days_same_time by congruence. lia.
Qed.

Lemma dias_afastamento_dias_corridos_witness :
  dias_afastamento janeiro_2024 = 10
  /\ dias_afastamento janeiro_2024
     = dias_afastamento ferias_1_5 + dias_afastamento ferias_6_10.
Proof.
  assert (T : forall d d', same_time (date 2024 1 d) (date 2024 1 d'))
    by (intros d d'; repeat split).
  destruct (dias_afastamento_dias_corridos janeiro_2024 ferias_1_5 ferias_6_10
              (date 2024 1 1) (date 2024 1 5) (date 2024 1 6) (date 2024 1 10)
              eq_refl eq_refl eq_refl eq_refl eq_refl eq_refl
              (T 1 5) (T 5 6) (T 6 10) eq_refl)
    as [H1 H2].
  split; [ rewrite H1; reflexivity | exact H2 ].
Defined.

End LeaveIntervalMore.

(** ** Entitlement over time and over records *)

Section EntitlementMore.

Import FeriasManager.

Lemma total_app (l1 l2 : list Z) : total (l1 ++ l2) = total l1 + total l2.
Proof.
  unfold total. induction l1 as [| x l1 IH]; cbn [app fold_right]; lia.
Qed.

Lemma total_perm (l1 l2 : list Z) : Permutation l1 l2 -> total l1 = total l2.
Proof.
  unfold total. induction 1; cbn [fold_right]; lia.
Qed.

Lemma usados_perm (f f' : Funcionario) (l1 l2 : list Afastamento) :
  Permutation l1 l2 ->
  calcular_dias_ferias_usados f l1 = calcular_dias_ferias_usados f' l2.
Proof.
  intros H. rewrite !usados_total. apply total_perm.
  apply Permutation_map.
  induction H; cbn [filter].
  - constructor.
  - destruct (is_ferias x); [ constructor | ]; assumption.
  - destruct (is_ferias x), (is_ferias y); try constructor;
      apply Permutation_refl.
  - eapply Permutation_trans; eassumption.
Qed.

(** X3. The consumed days of two lists put together are the sum of the
    consumed days of each, and they do not depend on the order of the
    records (nor on the employee passed along). *)
Theorem calcular_dias_ferias_usados_ordem
    (f f' : Funcionario) (l1 l2 l : list Afastamento) :
  calcular_dias_ferias_usados f (l1 ++ l2)
  = calcular_dias_ferias_usados f l1 + calcular_dias_ferias_usados f l2
  /\ (Permutation (l1 ++ l2) l ->
      calcular_dias_ferias_usados f (l1 ++ l2)
      = calcular_dias_ferias_usados f' l).
Proof.
  split.
  - rewrite !usados_total, filter_app, map_app. apply total_app.
  - apply usados_perm.
Qed.

Lemma calcular_dias_ferias_usados_ordem_witness :
  calcular_dias_ferias_usados ana ([ferias_1_5] ++ [atestado_marco; ferias_6_10])
  = calcular_dias_ferias_usados bruno [ferias_6_10; ferias_1_5; atestado_marco].
Proof.
  apply (calcular_dias_ferias_usados_ordem ana bruno
           [ferias_1_5] [atestado_marco; ferias_6_10]
           [ferias_6_10; ferias_1_5; atestado_marco]).
  cbn [app].
  apply Permutation_trans
    with (l' := [ferias_1_5; ferias_6_10; atestado_marco]).
  - apply perm_skip. apply perm_swap.
  - apply perm_swap.
Defined.

Lemma cmp_year_month (a b : datetime) :
  lt b a = false ->
  year a < year b \/ (year a = year b /\ month a <= month b).
Proof.
  unfold lt, cmp, fields, cmp_tuple.
  destruct (Z.compare_spec (year b) (year a)) as [Ey | Ly | Gy];
    [ | discriminate | lia ].
  destruct (Z.compare_spec (month b) (month a)) as [Em | Lm | Gm];
    [ lia | discriminate | lia ].
Qed.

Lemma disponiveis_mono
    (cfg : Config) (agora agora' : datetime) (f : Funcionario) :
  0 < MESES_PARA_FERIAS cfg -> 0 <= DIAS_FERIAS_ANUAL cfg ->
  valid agora -> valid agora' -> lt agora' agora = false ->
  exists d d',
    calcular_dias_ferias_disponiveis cfg agora f = Ok d
    /\ calcular_dias_ferias_disponiveis cfg agora' f = Ok d'
    /\ 0 <= d <= d'.
Proof.
  intros Hm Hd Va Va' Hle.
  unfold calcular_dias_ferias_disponiveis.
  destruct (Funcionario.data_admissao f) as [adm |];
    [ | exists 0, 0; repeat split; lia ].
  cbv zeta.
  set (t := (year agora - year adm) * 12 + (month agora - month adm)).
  set (t' := (year agora' - year adm) * 12 + (month agora' - month adm)).
  assert (Ht : t <= t').
  { apply cmp_year_month in Hle.
    destruct Va as (_ & Hmo & _), Va' as (_ & Hmo' & _).
    subst t t'. lia. }
  clearbody t t'.
  rewrite !floordiv_Ok by lia. cbn [bind].
  pose proof (Z.div_le_mono t t' (MESES_PARA_FERIAS cfg) Hm Ht) as Hq.
  destruct (Z.ltb_spec t (MESES_PARA_FERIAS cfg)),
    (Z.ltb_spec t' (MESES_PARA_FERIAS cfg)); try lia.
  - exists 0, 0. repeat split; lia.
  - exists 0, (t' / MESES_PARA_FERIAS cfg * DIAS_FERIAS_ANUAL cfg).
    assert (0 <= t' / MESES_PARA_FERIAS cfg) by (apply Z.div_pos; lia).
    repeat split; nia.
  - exists (t / MESES_PARA_FERIAS cfg * DIAS_FERIAS_ANUAL cfg),
      (t' / MESES_PARA_FERIAS cfg * DIAS_FERIAS_ANUAL cfg).
    assert (0 <= t / MESES_PARA_FERIAS cfg) by (apply Z.div_pos; lia).
    repeat split; nia.
Qed.

(** X4. With a positive threshold and non-negative days per period, the
    accrued days and, for a fixed list of records, the remaining days
    never decrease when the evaluation date moves forward. *)
Theorem calcular_dias_ferias_disponiveis_monotono
    (cfg : Config) (agora agora' : datetime) (f : Funcionario)
    (afastamentos : list Afastamento) :
  0 < MESES_PARA_FERIAS cfg -> 0 <= DIAS_FERIAS_ANUAL cfg ->
  valid agora -> valid agora' -> lt agora' agora = false ->
  exists d d' r r',
    calcular_dias_ferias_disponiveis cfg agora f = Ok d
    /\ calcular_dias_ferias_disponiveis cfg agora' f = Ok d'
    /\ 0 <= d <= d'
    /\ calcular_dias_ferias_restantes cfg agora f afastamentos = Ok r
    /\ calcular_dias_ferias_restantes cfg agora' f afastamentos = Ok r'
    /\ r <= r'.
Proof.
  intros Hm Hd Va Va' Hle.
  destruct (disponiveis_mono cfg agora agora' f Hm Hd Va Va' Hle)
    as (d & d' & E & E' & Hdd).
  exists d, d'. unfold calcular_dias_ferias_restantes.
  rewrite E, E'. cbn [bind]. do 2 eexists.
  repeat (split; [ reflexivity || lia | ]). lia.
Qed.

Lemma calcular_dias_ferias_disponiveis_monotono_witness :
  exists d d' r r',
    calcular_dias_ferias_disponiveis default_config (date 2024 1 15) bruno
    = Ok d
    /\ calcular_dias_ferias_disponiveis default_config (date 2025 1 20) bruno
       = Ok d'
    /\ 0 <= d <= d'
    /\ calcular_dias_ferias_restantes default_config (date 2024 1 15) bruno
         [janeiro_2024] = Ok r
    /\ calcular_dias_ferias_restantes default_config (date 2025 1 20) bruno
         [janeiro_2024] = Ok r'
    /\ r <= r'.
Proof.
  apply (calcular_dias_ferias_disponiveis_monotono default_config
           (date 2024 1 15) (date 2025 1 20) bruno [janeiro_2024]).
  - cbn. lia.
  - cbn. lia.
  - apply validb_valid. reflexivity.
  - apply validb_valid. reflexivity.
  - reflexivity.
Defined.

Lemma usados_cons (f : Funcionario) (a : Afastamento) (l : list Afastamento) :
  calcular_dias_ferias_usados f (a :: l)
  = (if is_ferias a then Afastamento.dias_afastamento a else 0)
    + calcular_dias_ferias_usados f l.
Proof.
  rewrite !usados_total. cbn [filter].
  destruct (is_ferias a); reflexivity.
Qed.

Lemma usados_nonneg (f : Funcionario) (l : list Afastamento) :
  (forall a, In a l -> is_ferias a = true ->
             0 <= Afastamento.dias_afastamento a) ->
  0 <= calcular_dias_ferias_usados f l.
Proof.
  induction l as [| a l IH]; intros H.
  - cbn. lia.
  - rewrite usados_cons.
    assert (Hl : 0 <= calcular_dias_ferias_usados f l)
      by (apply IH; intros; apply H; [ right | ]; assumption).
    pose proof (H a (or_introl eq_refl)) as Ha.
    destruct (is_ferias a); [ specialize (Ha eq_refl) | ]; lia.
Qed.

Lemma disponiveis_nonneg
    (cfg : Config) (agora : datetime) (f : Funcionario) (d : Z) :
  0 < MESES_PARA_FERIAS cfg -> 0 <= DIAS_FERIAS_ANUAL cfg ->
  calcular_dias_ferias_disponiveis cfg agora f = Ok d -> 0 <= d.
Proof.
  intros Hm Hd. unfold calcular_dias_ferias_disponiveis.
  destruct (Funcionario.data_admissao f) as [adm |];
    [ | intros [= <-]; lia ].
  cbv zeta.
  set (t := (year agora - year adm) * 12 + (month agora - month adm)).
  destruct (Z.ltb_spec t (MESES_PARA_FERIAS cfg)); [ intros [= <-]; lia | ].
  rewrite floordiv_Ok by lia. cbn [bind]. intros [= <-].
  assert (0 <= t / MESES_PARA_FERIAS cfg) by (apply Z.div_pos; lia).
  nia.
Qed.

(** X5. When the threshold is not zero and no vacation record has a
    negative day count, the remaining days are at least 0 and at most the
    larger of 0 and the accrued days; with a positive threshold and
    non-negative days per period the accrued days are not negative, and
    the remaining days lie between 0 and the accrued days.  Recording one
    more leave never raises the remaining days and lowers them by at most
    the days of that leave if it is a vacation, by nothing otherwise. *)
Theorem calcular_dias_ferias_restantes_limites
    (cfg : Config) (agora : datetime) (f : Funcionario)
    (novo : Afastamento) (afastamentos : list Afastamento) :
  MESES_PARA_FERIAS cfg <> 0 ->
  (forall a, In a (novo :: afastamentos) -> is_ferias a = true ->
             0 <= Afastamento.dias_afastamento a) ->
  exists d r r',
    calcular_dias_ferias_disponiveis cfg agora f = Ok d
    /\ calcular_dias_ferias_restantes cfg agora f afastamentos = Ok r
    /\ calcular_dias_ferias_restantes cfg agora f (novo :: afastamentos)
       = Ok r'
    /\ 0 <= r' <= r /\ r <= Z.max 0 d
    /\ (0 < MESES_PARA_FERIAS cfg -> 0 <= DIAS_FERIAS_ANUAL cfg ->
        0 <= r' <= r /\ r <= d)
    /\ r - (if is_ferias novo then Afastamento.dias_afastamento novo else 0)
       <= r'.
Proof.
  intros Hm Hpos.
  destruct (calcular_dias_ferias_disponiveis_returns cfg agora f Hm)
    as [d Hd].
  pose proof (fun H1 H2 => disponiveis_nonneg cfg agora f d H1 H2 Hd) as Hd0.
  unfold calcular_dias_ferias_restantes. rewrite Hd. cbn [bind].
  exists d. do 2 eexists.
  split; [ reflexivity | split; [ reflexivity | split; [ reflexivity | ] ] ].
  rewrite usados_cons.
  assert (Hu : 0 <= calcular_dias_ferias_usados f afastamentos)
    by (apply usados_nonneg; intros; apply Hpos; [ right | ]; assumption).
  pose proof (Hpos novo (or_introl eq_refl)) as Hn.
  destruct (is_ferias novo); [ specialize (Hn eq_refl) | ];
    (repeat split; try lia; intros H1 H2; specialize (Hd0 H1 H2); lia).
Qed.

Lemma calcular_dias_ferias_restantes_limites_witness :
  exists d r r',
    calcular_dias_ferias_disponiveis default_config (date 2024 6 1) ana = Ok d
    /\ calcular_dias_ferias_restantes default_config (date 2024 6 1) ana
         [atestado_marco] = Ok r
    /\ calcular_dias_ferias_restantes default_config (date 2024 6 1) ana
         [janeiro_2024; atestado_marco] = Ok r'
    /\ 0 <= r' <= r /\ r <= Z.max 0 d
    /\ (0 < MESES_PARA_FERIAS default_config ->
        0 <= DIAS_FERIAS_ANUAL default_config ->
        0 <= r' <= r /\ r <= d)
    /\ r - (if is_ferias janeiro_2024
            then Afastamento.dias_afastamento janeiro_2024 else 0) <= r'.
Proof.
  apply (calcular_dias_ferias_restantes_limites default_config
           (date 2024 6 1) ana janeiro_2024 [atestado_marco]).
  - cbn. lia.
  - intros a [<- | [<- | []]] _; vm_compute; discriminate.
Defined.

End EntitlementMore.

(** ** Acceptance of a request *)

Section ValidatorMore.

Import FeriasManager.

Lemma find_none_iff {A : Type} (p : A -> bool) (l : list A) :
  find p l = None <-> (forall a, In a l -> p a = false).
Proof.
  split.
  - intros H a Ha. exact (find_none p l H a Ha).
  - induction l as [| x l IH]; intros H; [ reflexivity | ].
    cbn [find]. rewrite (H x (or_introl eq_refl)).
    apply IH. intros a Ha. apply H. right. exact Ha.
Qed.

Lemma verificar_conflitos_true
    (data_inicio data_fim : datetime) (afastamentos : list Afastamento) :
  fst (verificar_conflitos data_inicio data_fim afastamentos) = true
  <-> (forall a, In a afastamentos -> conflita data_inicio data_fim a = false).
Proof.
  rewrite verificar_conflitos_find, <- find_none_iff.
  destruct (find _ afastamentos); cbn [fst]; split; congruence.
Qed.

(** X6. Given the remaining days, a request is accepted exactly when it
    asks for no more than the remaining days and conflicts with no
    existing record; and an accepting answer always carries the success
    message. *)
Theorem validar_ferias_aceita
    (cfg : Config) (agora : datetime) (f : Funcionario)
    (data_inicio data_fim : datetime) (afastamentos : list Afastamento)
    (dias_restantes : Z) :
  calcular_dias_ferias_restantes cfg agora f afastamentos
  = Ok dias_restantes ->
  (validar_ferias cfg agora f data_inicio data_fim afastamentos
   = Ok (true, "Férias validadas com sucesso.")
   <-> (days (sub data_fim data_inicio) + 1 <= dias_restantes
        /\ forall a, In a afastamentos ->
                     conflita data_inicio data_fim a = false))
  /\ (forall msg,
        validar_ferias cfg agora f data_inicio data_fim afastamentos
        = Ok (true, msg) ->
        msg = "Férias validadas com sucesso.").
Proof.
  intros Hr. unfold validar_ferias. rewrite Hr. cbn [bind].
  destruct (Z.gtb_spec (days (sub data_fim data_inicio) + 1) dias_restantes)
    as [Hgt | Hle].
  - split; [ split; [ discriminate | lia ] | discriminate ].
  - rewrite verificar_conflitos_find.
    pose proof (find_none_iff (conflita data_inicio data_fim) afastamentos)
      as Hn.
    destruct (find (conflita data_inicio data_fim) afastamentos) as [a |].
    + split; [ split; [ discriminate | ] | discriminate ].
      intros [_ H]. apply Hn in H. discriminate H.
    + split; [ split; [ intros _; split; [ lia | ] | reflexivity ] | ].
      * apply Hn. reflexivity.
      * intros msg [= <-]. reflexivity.
Qed.

Lemma validar_ferias_aceita_witness :
  validar_ferias default_config (date 2024 6 1) ana
    (date 2024 1 1) (date 2024 1 5) [licenca_janeiro]
  = Ok (true, "Férias validadas com sucesso.").
Proof.
  apply (proj1 (validar_ferias_aceita default_config (date 2024 6 1) ana
                  (date 2024 1 1) (date 2024 1 5) [licenca_janeiro] 30
                  eq_refl)).
  split.
  - vm_compute. discriminate.
  - intros a [<- | []]. reflexivity.
Defined.

Lemma conflito_perm (data_inicio data_fim : datetime)
    (l1 l2 : list Afastamento) :
  Permutation l1 l2 ->
  fst (verificar_conflitos data_inicio data_fim l1)
  = fst (verificar_conflitos data_inicio data_fim l2).
Proof.
  intros H.
  pose proof (verificar_conflitos_true data_inicio data_fim l1) as H1.
  pose proof (verificar_conflitos_true data_inicio data_fim l2) as H2.
  destruct (fst (verificar_conflitos data_inicio data_fim l1)),
    (fst (verificar_conflitos data_inicio data_fim l2)); try reflexivity.
  - symmetry. apply H2. intros a Ha. apply (proj1 H1 eq_refl).
    apply Permutation_sym in H. eapply Permutation_in; eassumption.
  - apply H1. intros a Ha. apply (proj1 H2 eq_refl).
    eapply Permutation_in; eassumption.
Qed.

(** X7. Whether a request is accepted does not depend on the order in
    which the existing records are given (the message of a refusal may
    name a different record). *)
Theorem validar_ferias_ordem
    (cfg : Config) (agora : datetime) (f : Funcionario)
    (data_inicio data_fim : datetime) (l1 l2 : list Afastamento) :
  Permutation l1 l2 ->
  fmap fst (validar_ferias cfg agora f data_inicio data_fim l1)
  = fmap fst (validar_ferias cfg agora f data_inicio data_fim l2).
Proof.
  intros H. unfold validar_ferias, calcular_dias_ferias_restantes, fmap.
  rewrite (usados_perm f f l1 l2 H).
  destruct (calcular_dias_ferias_disponiveis cfg agora f) as [d | e];
    cbn [bind]; [ | reflexivity ].
  destruct (_ >? _); cbn [bind fst]; [ reflexivity | ].
  f_equal. apply conflito_perm. exact H.
Qed.

Lemma validar_ferias_ordem_witness :
  fmap fst (validar_ferias default_config (date 2024 6 1) ana
              (date 2024 3 10) (date 2024 3 20)
              [licenca_janeiro; atestado_marco])
  = fmap fst (validar_ferias default_config (date 2024 6 1) ana
                (date 2024 3 10) (date 2024 3 20)
                [atestado_marco; licenca_janeiro]).
Proof.
  apply (validar_ferias_ordem default_config (date 2024 6 1) ana
           (date 2024 3 10) (date 2024 3 20)).
  apply perm_swap.
Defined.

(** X8. The overlap test is symmetric in the two intervals; and for
    valid dates with each start not after its end, two intervals overlap
    exactly when some instant lies in both. *)
Theorem overlap_partilha_instante (s1 e1 s2 e2 : datetime) :
  overlap s1 e1 s2 e2 = overlap s2 e2 s1 e1
  /\ (valid s1 -> valid e1 -> valid s2 -> valid e2 ->
      lt e1 s1 = false -> lt e2 s2 = false ->
      (overlap s1 e1 s2 e2 = true <->
       exists t,
         timestamp_us s1 <= t <= timestamp_us e1
         /\ timestamp_us s2 <= t <= timestamp_us e2)).
Proof.
  split.
  - unfold overlap. rewrite !gt_lt. f_equal. apply orb_comm.
  - intros V1 W1 V2 W2 H1 H2. unfold overlap. rewrite gt_lt.
    rewrite !lt_timestamp by assumption.
    apply le_timestamp in H1; try assumption.
    apply le_timestamp in H2; try assumption.
    rewrite negb_true_iff, orb_false_iff, !Z.ltb_ge. split.
    + intros [A B]. exists (Z.max (timestamp_us s1) (timestamp_us s2)). lia.
    + intros (t & A & B). lia.
Qed.

Lemma overlap_partilha_instante_witness :
  overlap (date 2024 3 10) (date 2024 3 20) (date 2024 3 15) (date 2024 3 18)
  = true.
Proof.
  destruct (overlap_partilha_instante
              (date 2024 3 10) (date 2024 3 20)
              (date 2024 3 15) (date 2024 3 18)) as [_ H].
  apply H; try (apply validb_valid; reflexivity); try reflexivity.
  exists (timestamp_us (date 2024 3 16)). vm_compute.
  repeat split; discriminate.
Defined.

(** X9. For an employee without a hire date, or whose months of service
    are below a positive threshold, and records whose consumed days are
    not negative: every request with valid dates whose end is not before
    its start is refused for insufficient balance, whatever the existing
    records; the message quotes 0 days available. *)
Theorem validar_ferias_sem_direito
    (cfg : Config) (agora : datetime) (f : Funcionario)
    (data_inicio data_fim : datetime) (afastamentos : list Afastamento) :
  0 < MESES_PARA_FERIAS cfg ->
  (Funcionario.data_admissao f = None
   \/ exists adm,
        Funcionario.data_admissao f = Some adm
        /\ (year agora - year adm) * 12 + (month agora - month adm)
           < MESES_PARA_FERIAS cfg) ->
  0 <= calcular_dias_ferias_usados f afastamentos ->
  valid data_inicio -> valid data_fim -> lt data_fim data_inicio = false ->
  validar_ferias cfg agora f data_inicio data_fim afastamentos
  = Ok (false,
        "Funcionário tem apenas 0 dias de férias disponíveis, mas solicitou "
        ++ str (days (sub data_fim data_inicio) + 1) ++ " dias.").
Proof.
  intros Hm Hsem Hu Vi Vf Hle.
  assert (Hd : calcular_dias_ferias_disponiveis cfg agora f = Ok 0).
  { unfold calcular_dias_ferias_disponiveis.
    destruct Hsem as [-> | (adm & -> & Ht)]; [ reflexivity | ].
    cbv zeta. destruct (Z.ltb_spec
      ((year agora - year adm) * 12 + (month agora - month adm))
      (MESES_PARA_FERIAS cfg)); [ reflexivity | lia ]. }
  unfold validar_ferias, calcular_dias_ferias_restantes.
  rewrite Hd. cbn [bind].
  replace (Z.max 0 (0 - calcular_dias_ferias_usados f afastamentos))
    with 0 by lia.
  apply le_timestamp in Hle; try assumption.
  assert (0 <= days (sub data_fim data_inicio))
    by (rewrite sub_days_floor; apply Z.div_pos; lia).
  destruct (Z.gtb_spec (days (sub data_fim data_inicio) + 1) 0);
    [ reflexivity | lia ].
Qed.

Lemma validar_ferias_sem_direito_witness :
  validar_ferias default_config (date 2024 6 1) sem_admissao
    (date 2024 7 1) (date 2024 7 1) [atestado_marco]
  = Ok (false,
        "Funcionário tem apenas 0 dias de férias disponíveis, mas solicitou 1 dias.").
Proof.
  apply (validar_ferias_sem_direito default_config (date 2024 6 1)
           sem_admissao (date 2024 7 1) (date 2024 7 1) [atestado_marco]).
  - cbn. lia.
  - left. reflexivity.
  - vm_compute. discriminate.
  - apply validb_valid. reflexivity.
  - apply validb_valid. reflexivity.
  - reflexivity.
Defined.

End ValidatorMore.

(** ** The vacation report *)

Section Report.

Import FeriasManager RelatorioFerias.

Lemma disponiveis_mesmo_mes
    (cfg : Config) (agora agora' : datetime) (f : Funcionario) :
  year agora = year agora' -> month agora = month agora' ->
  calcular_dias_ferias_disponiveis cfg agora f
  = calcular_dias_ferias_disponiveis cfg agora' f.
Proof.
  intros Hy Hm. unfold calcular_dias_ferias_disponiveis.
  rewrite Hy, Hm. reflexivity.
Qed.

(** X10. With a positive threshold, non-negative days per period and a
    clock that does not run backwards between the first two readings,
    whenever the next-date helper returns: the report is produced, its
    used days are the consumed days, its remaining days are at least
    [max(0, available - used)], and equal to it when the two readings
    fall in the same month; without a hire date the report shows 0 days
    available and "N/A" for both dates. *)
Theorem gerar_relatorio_ferias_coerente
    (strftime : datetime -> string -> string) (cfg : Config) (agora1 agora2 agora3 : datetime)
    (f : Funcionario) (afastamentos : list Afastamento)
    (proxima : option datetime) :
  0 < MESES_PARA_FERIAS cfg -> 0 <= DIAS_FERIAS_ANUAL cfg ->
  valid agora1 -> valid agora2 -> lt agora2 agora1 = false ->
  obter_proxima_data_ferias cfg agora3 f = Ok proxima ->
  exists rel,
    gerar_relatorio_ferias strftime cfg agora1 agora2 agora3 f afastamentos
    = Ok rel
    /\ dias_usados rel = calcular_dias_ferias_usados f afastamentos
    /\ 0 <= dias_disponiveis rel
    /\ Z.max 0 (dias_disponiveis rel - dias_usados rel) <= dias_restantes rel
    /\ (year agora1 = year agora2 -> month agora1 = month agora2 ->
        dias_restantes rel
        = Z.max 0 (dias_disponiveis rel - dias_usados rel))
    /\ (Funcionario.data_admissao f = None ->
        dias_disponiveis rel = 0 /\ proxima_data_ferias rel = "N/A"
        /\ data_admissao rel = "N/A").
Proof.
  intros Hm Hd V1 V2 Hle Hp.
  destruct (disponiveis_mono cfg agora1 agora2 f Hm Hd V1 V2 Hle)
    as (d1 & d2 & E1 & E2 & Hmono).
  unfold gerar_relatorio_ferias, calcular_dias_ferias_restantes.
  rewrite E1, E2, Hp. cbn [bind]. eexists. split; [ reflexivity | ].
  cbn [dias_usados dias_disponiveis dias_restantes proxima_data_ferias
       data_admissao].
  split; [ reflexivity | split; [ lia | split; [ lia | split ] ] ].
  - intros Hy Hmo.
    assert (E : d1 = d2)
      by (rewrite (disponiveis_mesmo_mes cfg agora1 agora2 f Hy Hmo) in E1;
          congruence).
    subst. reflexivity.
  - intros Hn. unfold calcular_dias_ferias_disponiveis in E1.
    unfold obter_proxima_data_ferias in Hp. rewrite Hn in *.
    injection E1 as <-. injection Hp as <-. repeat split.
Qed.

Lemma gerar_relatorio_ferias_coerente_witness :
  exists rel,
    gerar_relatorio_ferias (fun _ _ => "01/06/2024") default_config
      (date 2024 5 31) (date 2024 6 1) (date 2024 6 1) ana [janeiro_2024]
    = Ok rel
    /\ dias_disponiveis rel = 30 /\ dias_usados rel = 10
    /\ dias_restantes rel = 20.
Proof.
  destruct (gerar_relatorio_ferias_coerente (fun _ _ => "01/06/2024")
              default_config (date 2024 5 31) (date 2024 6 1) (date 2024 6 1)
              ana [janeiro_2024] (Some (date 2024 6 1)))
    as (rel & E & _);
    try (apply validb_valid; reflexivity); try reflexivity;
    try (cbn; lia).
  exists rel. split; [ exact E | ].
  cbv in E. injection E as <-. repeat split.
Defined.

End Report.

(** ** Formatting and validation *)

Section IdentifiersMore.

Import Validators.

Section FormattingFacts.

Variable decimal : Z -> option Z.

Lemma remove_non_digits_is_digit (s : Str.t) :
  forallb (is_digit decimal) (remove_non_digits decimal s) = true.
Proof.
  induction s as [| c s IH]; [ reflexivity | ].
  cbn [remove_non_digits]. destruct (is_digit decimal c) eqn:E;
    [ | exact IH ].
  cbn [forallb]. rewrite E, IH. reflexivity.
Qed.

Lemma remove_non_digits_idem (s : Str.t) :
  remove_non_digits decimal (remove_non_digits decimal s)
  = remove_non_digits decimal s.
Proof. apply remove_non_digits_digits, remove_non_digits_is_digit. Qed.

Lemma length_10_inv (s : Str.t) :
  List.length s = 10%nat ->
  exists c0 c1 c2 c3 c4 c5 c6 c7 c8 c9,
    s = [c0; c1; c2; c3; c4; c5; c6; c7; c8; c9].
Proof.
  intros H.
  do 10 (destruct s as [| ? s]; [ discriminate H | ]).
  destruct s; [ | discriminate H ].
  repeat eexists.
Qed.

Lemma is_digit_punctuation :
  Unicode.extends_ascii decimal ->
  is_digit decimal 46 = false /\ is_digit decimal 45 = false
  /\ is_digit decimal 40 = false /\ is_digit decimal 41 = false
  /\ is_digit decimal 32 = false.
Proof.
  intros H. unfold is_digit.
  rewrite (H 46), (H 45), (H 40), (H 41), (H 32) by lia.
  repeat split.
Qed.

Lemma decimal_char_of_digit (d : Z) :
  Unicode.extends_ascii decimal -> 0 <= d <= 9 ->
  int_of_char decimal (char_of_digit d) = d
  /\ is_digit decimal (char_of_digit d) = true.
Proof.
  intros H Hd. unfold int_of_char, is_digit, char_of_digit.
  rewrite (H (48 + d)) by lia.
  destruct (Z.leb_spec 48 (48 + d)); [ | lia ].
  destruct (Z.leb_spec (48 + d) 57); [ | lia ].
  cbn [andb]. split; [ lia | reflexivity ].
Qed.

Lemma formatar_cpf_digits (s : Str.t) :
  Unicode.extends_ascii decimal ->
  remove_non_digits decimal (formatar_cpf decimal s)
  = remove_non_digits decimal s.
Proof.
  intros Hx. destruct (is_digit_punctuation Hx) as (P1 & P2 & P3 & P4 & P5).
  unfold formatar_cpf.
  pose proof (remove_non_digits_is_digit s) as Hd.
  pose proof (remove_non_digits_idem s) as Hi.
  set (d := remove_non_digits decimal s) in *. clearbody d. unfold Str.len.
  destruct (Z.eqb_spec (Z.of_nat (List.length d)) 11) as [E | E];
    [ | exact Hi ].
  destruct (length_11_inv d ltac:(lia))
    as (c0 & c1 & c2 & c3 & c4 & c5 & c6 & c7 & c8 & c9 & c10 & ->).
  digit_facts Hd.
  change (Str.of_ascii ".") with [46]. change (Str.of_ascii "-") with [45].
  cbn [Str.slice Str.slice_from Nat.sub firstn skipn app remove_non_digits].
  rewrite P1, P2.
  repeat match goal with
  | Hc : is_digit decimal ?c = true |- _ => rewrite Hc; clear Hc
  end.
  reflexivity.
Qed.

Lemma formatar_telefone_digits (s : Str.t) :
  Unicode.extends_ascii decimal ->
  remove_non_digits decimal (formatar_telefone decimal s)
  = remove_non_digits decimal s.
Proof.
  intros Hx. destruct (is_digit_punctuation Hx) as (P1 & P2 & P3 & P4 & P5).
  unfold formatar_telefone.
  pose proof (remove_non_digits_is_digit s) as Hd.
  pose proof (remove_non_digits_idem s) as Hi.
  set (d := remove_non_digits decimal s) in *. clearbody d. unfold Str.len.
  change (Str.of_ascii "(") with [40]. change (Str.of_ascii ") ") with [41; 32].
  change (Str.of_ascii "-") with [45].
  destruct (Z.eqb_spec (Z.of_nat (List.length d)) 11) as [E | E].
  - destruct (length_11_inv d ltac:(lia))
      as (c0 & c1 & c2 & c3 & c4 & c5 & c6 & c7 & c8 & c9 & c10 & ->).
    digit_facts Hd.
    cbn [Str.slice Str.slice_from Nat.sub firstn skipn app remove_non_digits].
    rewrite P2, P3, P4, P5.
    repeat match goal with
    | Hc : is_digit decimal ?c = true |- _ => rewrite Hc; clear Hc
    end.
    reflexivity.
  - destruct (Z.eqb_spec (Z.of_nat (List.length d)) 10) as [E' | E'];
      [ | exact Hi ].
    destruct (length_10_inv d ltac:(lia))
      as (c0 & c1 & c2 & c3 & c4 & c5 & c6 & c7 & c8 & c9 & ->).
    digit_facts Hd.
    cbn [Str.slice Str.slice_from Nat.sub firstn skipn app remove_non_digits].
    rewrite P2, P3, P4, P5.
    repeat match goal with
    | Hc : is_digit decimal ?c = true |- _ => rewrite Hc; clear Hc
    end.
    reflexivity.
Qed.

Lemma same_digits_same_result (a b : Str.t) :
  remove_non_digits decimal a = remove_non_digits decimal b ->
  validar_cpf decimal a = validar_cpf decimal b
  /\ validar_telefone decimal a = validar_telefone decimal b
  /\ formatar_cpf decimal a = formatar_cpf decimal b
  /\ formatar_telefone decimal a = formatar_telefone decimal b.
Proof.
  intros H.
  unfold validar_cpf, validar_telefone, formatar_cpf, formatar_telefone.
  rewrite H. repeat split.
Qed.

Lemma digito_verificador_range (soma : Z) :
  0 <= digito_verificador soma <= 9.
Proof.
  unfold digito_verificador.
  pose proof (Z.mod_pos_bound soma 11 ltac:(lia)).
  destruct (Z.gtb_spec (11 - soma mod 11) 9); lia.
Qed.

End FormattingFacts.

Lemma find_zero_none (c : Z) (l : list Z) :
  c < 128 -> forallb (fun z => 128 <=? z) l = true ->
  find (fun z => (z <=? c) && (c <? z + 10)) l = None.
Proof.
  intros Hc. induction l as [| z l IH]; cbn [forallb find];
    [ reflexivity | ].
  intros H. apply andb_true_iff in H. destruct H as [Hz Hl].
  apply Z.leb_le in Hz.
  destruct (Z.leb_spec z c); [ lia | ]. cbn [andb]. exact (IH Hl).
Qed.

Lemma decimal_extends_ascii : Unicode.extends_ascii Unicode.decimal.
Proof.
  intros c Hc. unfold Unicode.decimal.
  change Unicode.zeros with (48 :: tl Unicode.zeros).
  cbn [find]. change (48 + 10) with 58.
  destruct (Z.leb_spec 48 c) as [H48 | H48]; cbn [andb].
  - destruct (Z.ltb_spec c 58) as [H58 | H58].
    + destruct (Z.leb_spec c 57); [ reflexivity | lia ].
    + destruct (Z.leb_spec c 57); [ lia | ].
      rewrite find_zero_none by (lia || reflexivity). reflexivity.
  - rewrite find_zero_none by (lia || reflexivity). reflexivity.
Qed.

(** X11. In a database where the ASCII digits are ['0'..'9'], formatting
    keeps the digits of its input, and formatting a formatted string
    changes nothing more, for the national ID and for the phone alike. *)
Theorem formatar_idempotente (decimal : Z -> option Z) (s : Str.t) :
  Unicode.extends_ascii decimal ->
  remove_non_digits decimal (formatar_cpf decimal s)
  = remove_non_digits decimal s
  /\ remove_non_digits decimal (formatar_telefone decimal s)
     = remove_non_digits decimal s
  /\ formatar_cpf decimal (formatar_cpf decimal s) = formatar_cpf decimal s
  /\ formatar_telefone decimal (formatar_telefone decimal s)
     = formatar_telefone decimal s.
Proof.
  intros Hx.
  split; [ apply formatar_cpf_digits, Hx | ].
  split; [ apply formatar_telefone_digits, Hx | ].
  split.
  - apply (same_digits_same_result decimal (formatar_cpf decimal s) s).
    apply formatar_cpf_digits, Hx.
  - apply (same_digits_same_result decimal (formatar_telefone decimal s) s).
    apply formatar_telefone_digits, Hx.
Qed.

Lemma formatar_idempotente_witness :
  let s := map (Z.add 1632) [5; 2; 9; 9; 8; 2; 2; 4; 7; 2; 5] in
  remove_non_digits Unicode.decimal
    (formatar_cpf Unicode.decimal (Str.of_ascii "cpf: " ++ s)%list) = s
  /\ formatar_cpf Unicode.decimal
       (formatar_cpf Unicode.decimal (Str.of_ascii "529 982 247 25"))
     = Str.of_ascii "529.982.247-25".
Proof.
  split.
  - apply (proj1 (formatar_idempotente Unicode.decimal
             (Str.of_ascii "cpf: "
              ++ map (Z.add 1632) [5; 2; 9; 9; 8; 2; 2; 4; 7; 2; 5])%list
             decimal_extends_ascii)).
  - apply (proj1 (proj2 (proj2 (formatar_idempotente Unicode.decimal
             (Str.of_ascii "529 982 247 25") decimal_extends_ascii)))).
Defined.

(** X12. The validators of the national ID and of the phone only see the
    decimal digits: two inputs with the same digits get the same verdict,
    and, the ASCII digits being ['0'..'9'], the formatted form of an input
    gets the verdict of the input. *)
Theorem validar_ignora_pontuacao (decimal : Z -> option Z) (a b : Str.t) :
  (remove_non_digits decimal a = remove_non_digits decimal b ->
   validar_cpf decimal a = validar_cpf decimal b
   /\ validar_telefone decimal a = validar_telefone decimal b)
  /\ (Unicode.extends_ascii decimal ->
      validar_cpf decimal (formatar_cpf decimal a) = validar_cpf decimal a
      /\ validar_telefone decimal (formatar_telefone decimal a)
         = validar_telefone decimal a).
Proof.
  split.
  - intros H. split; apply (same_digits_same_result decimal a b H).
  - intros Hx. split.
    + apply (same_digits_same_result decimal (formatar_cpf decimal a) a).
      apply formatar_cpf_digits, Hx.
    + apply (same_digits_same_result decimal (formatar_telefone decimal a) a).
      apply formatar_telefone_digits, Hx.
Qed.

Lemma validar_ignora_pontuacao_witness :
  (validar_cpf Unicode.decimal (Str.of_ascii "529 982 247/25")
   = validar_cpf Unicode.decimal (Str.of_ascii "52998224725")
   /\ validar_telefone Unicode.decimal (Str.of_ascii "(11) 98765-4321")
      = validar_telefone Unicode.decimal (Str.of_ascii "11987654321"))
  /\ validar_cpf Unicode.decimal
       (formatar_cpf Unicode.decimal (Str.of_ascii "529 982 247/25"))
     = validar_cpf Unicode.decimal (Str.of_ascii "529 982 247/25").
Proof.
  split.
  - split.
    + apply (proj1 (validar_ignora_pontuacao Unicode.decimal
               (Str.of_ascii "529 982 247/25") (Str.of_ascii "52998224725"))).
      reflexivity.
    + apply (proj1 (validar_ignora_pontuacao Unicode.decimal
               (Str.of_ascii "(11) 98765-4321")
               (Str.of_ascii "11987654321"))).
      reflexivity.
  - apply (proj2 (validar_ignora_pontuacao Unicode.decimal
             (Str.of_ascii "529 982 247/25") [])).
    exact decimal_extends_ascii.
Defined.

End IdentifiersMore.

(** ** Check digits *)

Section CheckDigits.

Import Validators.

(** X13. The first nine digits determine the other two: two accepted
    national IDs whose first nine digits have the same values have the
    same eleven digit values.  (The characters themselves may differ: a
    value can be written in the digits of several scripts.) *)
Theorem validar_cpf_digitos_determinados
    (decimal : Z -> option Z) (a b : Str.t) :
  validar_cpf decimal a = true -> validar_cpf decimal b = true ->
  firstn 9 (digits decimal (remove_non_digits decimal a))
  = firstn 9 (digits decimal (remove_non_digits decimal b)) ->
  digits decimal (remove_non_digits decimal a)
  = digits decimal (remove_non_digits decimal b).
Proof.
  intros Ha Hb H9.
  destruct (length_11_inv _ (validar_cpf_length decimal a Ha))
    as (a0 & a1 & a2 & a3 & a4 & a5 & a6 & a7 & a8 & a9 & a10 & Ea).
  destruct (length_11_inv _ (validar_cpf_length decimal b Hb))
    as (b0 & b1 & b2 & b3 & b4 & b5 & b6 & b7 & b8 & b9 & b10 & Eb).
  rewrite (validar_cpf_eleven decimal a _ _ _ _ _ _ _ _ _ _ _ Ea) in Ha.
  rewrite (validar_cpf_eleven decimal b _ _ _ _ _ _ _ _ _ _ _ Eb) in Hb.
  rewrite Ea, Eb in *.
  unfold digits in *. cbn [map firstn] in *.
  injection H9 as E0 E1 E2 E3 E4 E5 E6 E7 E8.
  apply andb_true_iff in Ha, Hb.
  destruct Ha as [Ha Ha10], Hb as [Hb Hb10].
  apply andb_true_iff in Ha, Hb.
  destruct Ha as [_ Ha9], Hb as [_ Hb9].
  apply Z.eqb_eq in Ha9, Hb9, Ha10, Hb10.
  rewrite E0, E1, E2, E3, E4, E5, E6, E7, E8 in *.
  assert (E9 : int_of_char decimal a9 = int_of_char decimal b9)
    by congruence.
  rewrite E9 in *.
  assert (E10 : int_of_char decimal a10 = int_of_char decimal b10)
    by congruence.
  rewrite E10. reflexivity.
Qed.

Lemma validar_cpf_digitos_determinados_witness :
  digits Unicode.decimal
    (remove_non_digits Unicode.decimal (Str.of_ascii "529.982.247-25"))
  = digits Unicode.decimal
      (remove_non_digits Unicode.decimal
         (Str.of_ascii "529 982 247 2" ++ [arabic_indic_five])%list).
Proof.
  apply validar_cpf_digitos_determinados; reflexivity.
Defined.

(** X14. Any nine decimal digits, of whatever script, can be completed:
    the two computed check digits are between 0 and 9, and the string they
    complete, written as ASCII digits, is accepted unless it is one
    character repeated eleven times. *)
Theorem validar_cpf_completa
    (decimal : Z -> option Z) (c0 c1 c2 c3 c4 c5 c6 c7 c8 : Z) :
  Unicode.extends_ascii decimal ->
  forallb (is_digit decimal) [c0; c1; c2; c3; c4; c5; c6; c7; c8] = true ->
  let d := int_of_char decimal in
  let d9 :=
    digito_verificador
      (soma1 (d c0) (d c1) (d c2) (d c3) (d c4) (d c5) (d c6) (d c7)
         (d c8)) in
  let d10 :=
    digito_verificador
      (soma2 (d c0) (d c1) (d c2) (d c3) (d c4) (d c5) (d c6) (d c7)
         (d c8) d9) in
  let cpf :=
    [c0; c1; c2; c3; c4; c5; c6; c7; c8; char_of_digit d9;
     char_of_digit d10] in
  0 <= d9 <= 9 /\ 0 <= d10 <= 9
  /\ validar_cpf decimal cpf = negb (Str.eqb cpf (repeat_char c0 11)).
Proof.
  intros Hx Hd d d9 d10 cpf.
  pose proof (digito_verificador_range
    (soma1 (d c0) (d c1) (d c2) (d c3) (d c4) (d c5) (d c6) (d c7)
       (d c8))) as R9.
  fold d9 in R9.
  pose proof (digito_verificador_range
    (soma2 (d c0) (d c1) (d c2) (d c3) (d c4) (d c5) (d c6) (d c7)
       (d c8) d9)) as R10.
  fold d10 in R10.
  destruct (decimal_char_of_digit decimal d9 Hx R9) as [I9 D9].
  destruct (decimal_char_of_digit decimal d10 Hx R10) as [I10 D10].
  split; [ exact R9 | split; [ exact R10 | ] ].
  assert (E : remove_non_digits decimal cpf = cpf).
  { apply remove_non_digits_digits. subst cpf.
    cbn [forallb] in *.
    rewrite D9, D10. repeat (apply andb_true_iff in Hd; destruct Hd as [? Hd]).
    repeat (apply andb_true_iff; split; try assumption); reflexivity. }
  rewrite (validar_cpf_eleven decimal cpf _ _ _ _ _ _ _ _ _ _ _ E).
  cbv zeta. fold d. change (int_of_char decimal) with d in I9, I10.
  rewrite I9, I10. fold d9. fold d10. rewrite !Z.eqb_refl.
  rewrite !andb_true_r. reflexivity.
Qed.

Lemma validar_cpf_completa_witness :
  validar_cpf Unicode.decimal (Str.of_ascii "52998224725") = true
  /\ validar_cpf Unicode.decimal (Str.of_ascii "11111111111") = false
  /\ validar_cpf Unicode.decimal
       (repeat arabic_indic_five 9 ++ Str.of_ascii "55")%list = true.
Proof.
  split; [ | split ].
  - apply (validar_cpf_completa Unicode.decimal 53 50 57 57 56 50 50 52 55
             decimal_extends_ascii eq_refl).
  - apply (validar_cpf_completa Unicode.decimal 49 49 49 49 49 49 49 49 49
             decimal_extends_ascii eq_refl).
  - apply (validar_cpf_completa Unicode.decimal
             1637 1637 1637 1637 1637 1637 1637 1637 1637
             decimal_extends_ascii eq_refl).
Defined.

End CheckDigits.

(** ** The derivative matcher decides the language *)

Section RegexFacts.
Import Re.

Lemma Matches_Cat (r s : regex) (w : list ascii) :
  Matches (Cat r s) w <->
  exists u v, w = (u ++ v)%list /\ Matches r u /\ Matches s v.
Proof.
  split.
  - intros H. inversion H; subst. eauto.
  - intros (u & v & -> & Hu & Hv). constructor; assumption.
Qed.

Lemma Matches_Alt (r s : regex) (w : list ascii) :
  Matches (Alt r s) w <-> Matches r w \/ Matches s w.
Proof.
  split.
  - intros H. inversion H; subst; auto.
  - intros [H | H]; [ apply MAltL | apply MAltR ]; assumption.
Qed.

Lemma Matches_Class (p : ascii -> bool) (w : list ascii) :
  Matches (Class p) w <-> exists c, w = [c] /\ p c = true.
Proof.
  split.
  - intros H. inversion H; subst. eauto.
  - intros (c & -> & Hc). constructor. assumption.
Qed.

Lemma Matches_Eps (w : list ascii) : Matches Eps w <-> w = [].
Proof.
  split.
  - intros H. inversion H. reflexivity.
  - intros ->. constructor.
Qed.

Lemma Matches_Empty (w : list ascii) : ~ Matches Empty w.
Proof. intros H. inversion H. Qed.

Lemma nullable_Matches (r : regex) : nullable r = true <-> Matches r [].
Proof.
  induction r as [| | p | r1 IH1 r2 IH2 | r1 IH1 r2 IH2 | r IH];
    cbn [nullable].
  - split; [ discriminate | intros H; destruct (Matches_Empty _ H) ].
  - split; [ constructor | reflexivity ].
  - split; [ discriminate | ].
    intros H. apply Matches_Class in H. destruct H as (c & E & _).
    discriminate E.
  - rewrite andb_true_iff, IH1, IH2, Matches_Cat. split.
    + intros [H1 H2]. exists [], []. auto.
    + intros (u & v & E & Hu & Hv). symmetry in E.
      apply app_eq_nil in E. destruct E; subst. auto.
  - rewrite orb_true_iff, IH1, IH2, Matches_Alt. reflexivity.
  - split; [ constructor | reflexivity ].
Qed.

Lemma Matches_Star_cons (r : regex) (c : ascii) (w : list ascii) :
  Matches (Star r) (c :: w) ->
  exists u v, w = (u ++ v)%list /\ Matches r (c :: u) /\ Matches (Star r) v.
Proof.
  intros H. remember (Star r) as sr eqn:Esr. remember (c :: w) as cw eqn:Ecw.
  revert c w Ecw.
  induction H as [| | | | | | r0 u v Hu _ Hv IHv]; try discriminate.
  injection Esr as ->. intros c w Ecw.
  destruct u as [| c' u].
  - apply (IHv eq_refl c w Ecw).
  - cbn in Ecw. injection Ecw as -> <-. exists u, v. auto.
Qed.

Lemma deriv_Matches (r : regex) (c : ascii) (w : list ascii) :
  Matches (deriv c r) w <-> Matches r (c :: w).
Proof.
  revert w.
  induction r as [| | p | r1 IH1 r2 IH2 | r1 IH1 r2 IH2 | r IH];
    intros w; cbn [deriv].
  - split; intros H; destruct (Matches_Empty _ H).
  - split; intros H; [ destruct (Matches_Empty _ H) | ].
    apply Matches_Eps in H. discriminate H.
  - rewrite Matches_Class. destruct (p c) eqn:E.
    + rewrite Matches_Eps. split.
      * intros ->. eauto.
      * intros (c' & Ew & _). injection Ew as _ ->. reflexivity.
    + split; [ intros H; destruct (Matches_Empty _ H) | ].
      intros (c' & Ew & Hc). injection Ew as -> _. congruence.
  - assert (Hcat : Matches (Cat (deriv c r1) r2) w <->
                   exists u v, w = (u ++ v)%list /\ Matches r1 (c :: u)
                               /\ Matches r2 v).
    { rewrite Matches_Cat. split; intros (u & v & E & Hu & Hv);
        exists u, v; (split; [ exact E | split; [ | exact Hv ] ]);
        apply IH1; exact Hu. }
    assert (Hinv : Matches (Cat r1 r2) (c :: w) <->
                   (exists u v, w = (u ++ v)%list /\ Matches r1 (c :: u)
                                /\ Matches r2 v)
                   \/ (Matches r1 [] /\ Matches r2 (c :: w))).
    { rewrite Matches_Cat. split.
      - intros (u & v & E & Hu & Hv). destruct u as [| c' u].
        + right. cbn in E. subst v. auto.
        + left. cbn in E. injection E as <- ->. exists u, v. auto.
      - intros [(u & v & -> & Hu & Hv) | [H1 H2]].
        + exists (c :: u), v. auto.
        + exists [], (c :: w). auto. }
    rewrite Hinv. destruct (nullable r1) eqn:N.
    + rewrite Matches_Alt, Hcat, IH2.
      assert (Matches r1 []) by (apply nullable_Matches; exact N). tauto.
    + rewrite Hcat.
      assert (~ Matches r1 [])
        by (intros H; apply nullable_Matches in H; congruence).
      tauto.
  - rewrite !Matches_Alt, IH1, IH2. reflexivity.
  - rewrite Matches_Cat. split.
    + intros (u & v & -> & Hu & Hv). apply IH in Hu.
      change (c :: u ++ v)%list with ((c :: u) ++ v)%list.
      constructor; assumption.
    + intros H. apply Matches_Star_cons in H.
      destruct H as (u & v & -> & Hu & Hv).
      exists u, v. split; [ reflexivity | split; [ apply IH | ]; assumption ].
Qed.

Lemma fullmatch_Matches (r : regex) (w : list ascii) :
  fullmatch r w = true <-> Matches r w.
Proof.
  revert r. induction w as [| c w IH]; intros r; cbn [fullmatch].
  - apply nullable_Matches.
  - rewrite IH. apply deriv_Matches.
Qed.

Lemma Matches_Star_Class (p : ascii -> bool) (w : list ascii) :
  Matches (Star (Class p)) w <-> forallb p w = true.
Proof.
  split.
  - intros H. remember (Star (Class p)) as sr eqn:E.
    induction H as [| | | | | | r0 u v Hu _ Hv IHv]; try discriminate;
      [ reflexivity | ].
    injection E as ->. apply Matches_Class in Hu.
    destruct Hu as (c & -> & Hc). cbn [app forallb].
    rewrite Hc. apply IHv. reflexivity.
  - induction w as [| c w IH]; intros H; [ constructor | ].
    cbn [forallb] in H. apply andb_true_iff in H. destruct H as [Hc Hw].
    change (c :: w) with ([c] ++ w)%list.
    constructor; [ constructor; assumption | apply IH; assumption ].
Qed.

Lemma Matches_Plus_Class (p : ascii -> bool) (w : list ascii) :
  Matches (Plus (Class p)) w <-> (w <> [] /\ forallb p w = true).
Proof.
  unfold Plus. rewrite Matches_Cat. split.
  - intros (u & v & -> & Hu & Hv). apply Matches_Class in Hu.
    destruct Hu as (c & -> & Hc). apply Matches_Star_Class in Hv.
    split; [ discriminate | ]. cbn [app forallb]. rewrite Hc, Hv. reflexivity.
  - intros [Hne H]. destruct w as [| c w]; [ contradiction | ].
    cbn [forallb] in H. apply andb_true_iff in H. destruct H as [Hc Hw].
    exists [c], w. split; [ reflexivity | split ].
    + constructor. assumption.
    + apply Matches_Star_Class. assumption.
Qed.

Lemma Matches_Chr (c : ascii) (w : list ascii) :
  Matches (Chr c) w <-> w = [c].
Proof.
  unfold Chr. rewrite Matches_Class. split.
  - intros (c' & -> & H). apply Ascii.eqb_eq in H. congruence.
  - intros ->. exists c. split; [ reflexivity | apply Ascii.eqb_refl ].
Qed.

End RegexFacts.

(** ** The e-mail pattern *)

Section Email.
Import Re ValidatorsEmail.

Lemma Matches_AtLeast2_Class (p : ascii -> bool) (w : list ascii) :
  Matches (AtLeast2 (Class p)) w <->
  ((2 <= List.length w)%nat /\ forallb p w = true).
Proof.
  unfold AtLeast2. rewrite Matches_Cat. split.
  - intros (u & v & -> & Hu & Hv). apply Matches_Class in Hu.
    destruct Hu as (c & -> & Hc).
    apply (Matches_Plus_Class p v) in Hv. destruct Hv as [Hne Hv].
    destruct v as [| c' v]; [ contradiction | ].
    cbn [app forallb List.length] in *. rewrite Hc, Hv. split; [ lia | auto ].
  - intros [Hlen H]. destruct w as [| c [| c' w]]; cbn in Hlen; try lia.
    cbn [forallb] in H. apply andb_true_iff in H. destruct H as [Hc H].
    exists [c], (c' :: w). split; [ reflexivity | split ].
    + constructor. assumption.
    + apply (Matches_Plus_Class p (c' :: w)). split; [ discriminate | exact H ].
Qed.

Lemma Matches_Dollar (w : list ascii) :
  Matches Dollar w <-> (w = [] \/ w = ["010"%char]).
Proof.
  unfold Dollar. rewrite Matches_Alt, Matches_Eps, Matches_Chr. reflexivity.
Qed.

Lemma validar_email_partes (email : string) :
  validar_email email = true <->
  exists local dominio tld fim,
    list_ascii_of_string email
    = (local ++ "@"%char :: dominio ++ "."%char :: tld ++ fim)%list
    /\ local <> [] /\ forallb classe_local local = true
    /\ dominio <> [] /\ forallb classe_dominio dominio = true
    /\ (2 <= List.length tld)%nat /\ forallb letra tld = true
    /\ (fim = [] \/ fim = ["010"%char]).
Proof.
  unfold validar_email, padrao. rewrite fullmatch_Matches. split.
  - intros H.
    apply Matches_Cat in H. destruct H as (local & w1 & E1 & Hl & H).
    apply Matches_Cat in H. destruct H as (a & w2 & E2 & Ha & H).
    apply Matches_Cat in H. destruct H as (dominio & w3 & E3 & Hd & H).
    apply Matches_Cat in H. destruct H as (p & w4 & E4 & Hp & H).
    apply Matches_Cat in H. destruct H as (tld & fim & E5 & Ht & Hf).
    apply Matches_Plus_Class in Hl, Hd. apply Matches_Chr in Ha, Hp.
    apply Matches_AtLeast2_Class in Ht. apply Matches_Dollar in Hf.
    subst. exists local, dominio, tld, fim. cbn [app]. tauto.
  - intros (local & dominio & tld & fim & E & Hl1 & Hl2 & Hd1 & Hd2
            & Ht1 & Ht2 & Hf).
    rewrite E.
    apply Matches_Cat. exists local, ("@"%char :: dominio ++ "."%char :: tld ++ fim)%list.
    split; [ reflexivity | split; [ apply Matches_Plus_Class; auto | ] ].
    apply Matches_Cat. exists ["@"%char], (dominio ++ "."%char :: tld ++ fim)%list.
    split; [ reflexivity | split; [ apply Matches_Chr; reflexivity | ] ].
    apply Matches_Cat. exists dominio, ("."%char :: tld ++ fim)%list.
    split; [ reflexivity | split; [ apply Matches_Plus_Class; auto | ] ].
    apply Matches_Cat. exists ["."%char], (tld ++ fim)%list.
    split; [ reflexivity | split; [ apply Matches_Chr; reflexivity | ] ].
    apply Matches_Cat. exists tld, fim.
    split; [ reflexivity | split ].
    + apply Matches_AtLeast2_Class. auto.
    + apply Matches_Dollar. exact Hf.
Qed.

Lemma list_ascii_app (a b : string) :
  list_ascii_of_string (a ++ b)
  = (list_ascii_of_string a ++ list_ascii_of_string b)%list.
Proof. induction a as [| c a IH]; cbn; [ | rewrite IH ]; reflexivity. Qed.

Lemma list_ascii_length (a : string) :
  List.length (list_ascii_of_string a) = String.length a.
Proof. induction a as [| c a IH]; cbn; [ | rewrite IH ]; reflexivity. Qed.

(** X15. An address is accepted exactly when it reads
    local "@" domain "." tld, optionally followed by one line feed, with
    a non-empty local part over letters, digits and [._%+-], a non-empty
    domain over letters, digits and [.-], and a tld of at least two
    letters. *)
Theorem validar_email_forma (email : string) :
  validar_email email = true <->
  exists local dominio tld fim : string,
    email = local ++ "@" ++ dominio ++ "." ++ tld ++ fim
    /\ local <> "" /\ forallb classe_local (list_ascii_of_string local) = true
    /\ dominio <> ""
    /\ forallb classe_dominio (list_ascii_of_string dominio) = true
    /\ (2 <= String.length tld)%nat
    /\ forallb letra (list_ascii_of_string tld) = true
    /\ (fim = "" \/ fim = String "010" "").
Proof.
  rewrite validar_email_partes. split.
  - intros (l & d & t & f & E & Hl1 & Hl2 & Hd1 & Hd2 & Ht1 & Ht2 & Hf).
    exists (string_of_list_ascii l), (string_of_list_ascii d),
      (string_of_list_ascii t), (string_of_list_ascii f).
    rewrite !list_ascii_of_string_of_list_ascii.
    split.
    { rewrite <- (string_of_list_ascii_of_string email), E.
      rewrite <- (string_of_list_ascii_of_string
                    (string_of_list_ascii l ++ "@" ++ string_of_list_ascii d
                     ++ "." ++ string_of_list_ascii t
                     ++ string_of_list_ascii f)).
      f_equal. rewrite !list_ascii_app.
      rewrite !list_ascii_of_string_of_list_ascii. reflexivity. }
    split; [ intros H; apply Hl1; destruct l; [ reflexivity | discriminate H ] | ].
    split; [ exact Hl2 | ].
    split; [ intros H; apply Hd1; destruct d; [ reflexivity | discriminate H ] | ].
    split; [ exact Hd2 | ].
    split; [ rewrite <- list_ascii_length,
               list_ascii_of_string_of_list_ascii; exact Ht1 | ].
    split; [ exact Ht2 | ].
    destruct Hf as [-> | ->]; [ left | right ]; reflexivity.
  - intros (l & d & t & f & -> & Hl1 & Hl2 & Hd1 & Hd2 & Ht1 & Ht2 & Hf).
    exists (list_ascii_of_string l), (list_ascii_of_string d),
      (list_ascii_of_string t), (list_ascii_of_string f).
    split; [ rewrite !list_ascii_app; reflexivity | ].
    split; [ intros H; apply Hl1; destruct l; [ reflexivity | discriminate H ] | ].
    split; [ exact Hl2 | ].
    split; [ intros H; apply Hd1; destruct d; [ reflexivity | discriminate H ] | ].
    split; [ exact Hd2 | ].
    split; [ rewrite list_ascii_length; exact Ht1 | ].
    split; [ exact Ht2 | ].
    destruct Hf as [-> | ->]; [ left | right ]; reflexivity.
Qed.

Lemma validar_email_forma_witness :
  validar_email "a.b@c.org" = true.
Proof.
  apply (proj2 (validar_email_forma "a.b@c.org")).
  exists "a.b", "c", "org", "".
  repeat split; try discriminate; try (left; reflexivity).
  cbn. lia.
Defined.

Lemma count_occ_forallb (p : ascii -> bool) (x : ascii) (l : list ascii) :
  p x = false -> forallb p l = true -> count_occ ascii_dec l x = 0%nat.
Proof.
  intros Hx. induction l as [| c l IH]; [ reflexivity | ].
  cbn [forallb]. intros H. apply andb_true_iff in H. destruct H as [Hc Hl].
  cbn [count_occ]. destruct (ascii_dec c x) as [-> | _]; [ congruence | ].
  apply IH. exact Hl.
Qed.

(** X16. An accepted address contains exactly one "@".  And the
    validator does not see a final line feed: an address without line
    feeds gets the same verdict with a line feed appended. *)
Theorem validar_email_arroba_e_quebra (email : string) :
  (validar_email email = true ->
   count_occ ascii_dec (list_ascii_of_string email) "@"%char = 1%nat)
  /\ (count_occ ascii_dec (list_ascii_of_string email) "010"%char = 0%nat ->
      validar_email (email ++ String "010" EmptyString)
      = validar_email email).
Proof.
  split.
  - intros H. apply validar_email_partes in H.
    destruct H as (local & dominio & tld & fim & E & _ & Hl & _ & Hd
                   & _ & Ht & Hf).
    rewrite E. rewrite count_occ_app. cbn [count_occ].
    destruct (ascii_dec "@" "@") as [_ | N]; [ | contradiction ].
    rewrite count_occ_app. cbn [count_occ].
    destruct (ascii_dec "." "@") as [N | _]; [ discriminate N | ].
    rewrite count_occ_app.
    rewrite (count_occ_forallb classe_local), (count_occ_forallb classe_dominio),
      (count_occ_forallb letra) by (assumption || reflexivity).
    destruct Hf as [-> | ->]; reflexivity.
  - intros Hn.
    destruct (validar_email email) eqn:Hv.
    + apply validar_email_partes in Hv. apply validar_email_partes.
      destruct Hv as (local & dominio & tld & fim & E & H1 & H2 & H3 & H4
                      & H5 & H6 & Hf).
      destruct Hf as [-> | ->].
      * exists local, dominio, tld, ["010"%char].
        rewrite list_ascii_app, E. cbn [list_ascii_of_string].
        rewrite app_nil_r, <- !app_assoc. cbn [app].
        rewrite <- !app_assoc. cbn [app]. tauto.
      * exfalso. rewrite E in Hn.
        replace (local ++ "@"%char :: dominio ++ "."%char :: tld ++ ["010"%char])%list
          with ((local ++ "@"%char :: dominio ++ "."%char :: tld) ++ ["010"%char])%list
          in Hn by (rewrite <- !app_assoc; cbn [app]; rewrite <- !app_assoc;
                    reflexivity).
        rewrite count_occ_app in Hn.
        change (count_occ ascii_dec ["010"%char] "010"%char) with 1%nat in Hn.
        lia.
    + apply not_true_is_false. intros Hv'.
      apply validar_email_partes in Hv'.
      destruct Hv' as (local & dominio & tld & fim & E & H1 & H2 & H3 & H4
                       & H5 & H6 & Hf).
      rewrite list_ascii_app in E. cbn [list_ascii_of_string] in E.
      destruct Hf as [-> | ->].
      * (* the newline would be the last letter of the TLD *)
        rewrite app_nil_r in E.
        destruct (exists_last (l := tld)) as (tld' & c & ->).
        { intros ->. cbn in H5. lia. }
        replace (local ++ "@"%char :: dominio ++ "."%char :: tld' ++ [c])%list
          with ((local ++ "@"%char :: dominio ++ "."%char :: tld') ++ [c])%list
          in E by (rewrite <- !app_assoc; cbn [app]; rewrite <- !app_assoc;
                   reflexivity).
        apply app_inj_tail in E. destruct E as [_ <-].
        rewrite forallb_app in H6. cbn in H6.
        apply andb_true_iff in H6. destruct H6 as [_ H6]. discriminate H6.
      * replace (local ++ "@"%char :: dominio ++ "."%char :: tld ++ ["010"%char])%list
          with ((local ++ "@"%char :: dominio ++ "."%char :: tld) ++ ["010"%char])%list
          in E by (rewrite <- !app_assoc; cbn [app]; rewrite <- !app_assoc;
                   reflexivity).
        apply app_inj_tail in E. destruct E as [E _].
        assert (Hc : validar_email email = true).
        { apply validar_email_partes.
          exists local, dominio, tld, []. rewrite app_nil_r. tauto. }
        congruence.
Qed.

Lemma validar_email_arroba_e_quebra_witness :
  count_occ ascii_dec (list_ascii_of_string "ana@rh.org") "@"%char = 1%nat
  /\ validar_email ("ana@rh.org" ++ String "010" EmptyString)
     = validar_email "ana@rh.org".
Proof.
  destruct (validar_email_arroba_e_quebra "ana@rh.org") as [H1 H2].
  split; [ apply H1 | apply H2 ]; reflexivity.
Defined.

End Email.

(** ** Permissions *)

Section Permissions.

Import Usuario.

Lemma contains_incl (l1 l2 : list string) (x : string) :
  forallb (contains l2) l1 = true ->
  contains l1 x = true -> contains l2 x = true.
Proof.
  intros Hincl. unfold contains at 1. rewrite existsb_exists.
  intros (y & Hy & E). apply String.eqb_eq in E. subst y.
  rewrite forallb_forall in Hincl. apply Hincl. exact Hy.
Qed.

Lemma tem_permissao_perfil (u : Usuario) (p : PerfilUsuario) (acao : string) :
  perfil u = perfil_value p ->
  tem_permissao u acao = contains (Dict.get permissoes (perfil_value p) []) acao.
Proof. intros H. unfold tem_permissao. rewrite H. reflexivity. Qed.

(** X17. Whatever a manager may do, human resources may do; whatever
    human resources may do, an administrator may do. *)
Theorem tem_permissao_hierarquia (gerente rh admin : Usuario) (acao : string) :
  perfil gerente = "Gerente" -> perfil rh = "Recursos Humanos" ->
  perfil admin = "Administrador" ->
  (tem_permissao gerente acao = true -> tem_permissao rh acao = true)
  /\ (tem_permissao rh acao = true -> tem_permissao admin acao = true).
Proof.
  intros Hg Hr Ha.
  rewrite (tem_permissao_perfil gerente GERENTE acao Hg).
  rewrite (tem_permissao_perfil rh RH acao Hr).
  rewrite (tem_permissao_perfil admin ADMIN acao Ha).
  split; apply contains_incl; reflexivity.
Qed.

Lemma tem_permissao_hierarquia_witness :
  tem_permissao (usuario_com_perfil "Recursos Humanos" true)
    "editar_afastamento" = true
  /\ tem_permissao (usuario_com_perfil "Administrador" true)
       "deletar_funcionario" = true.
Proof.
  destruct (tem_permissao_hierarquia
              (usuario_com_perfil "Gerente" true)
              (usuario_com_perfil "Recursos Humanos" true)
              (usuario_com_perfil "Administrador" true)
              "editar_afastamento" eq_refl eq_refl eq_refl) as [H1 _].
  destruct (tem_permissao_hierarquia
              (usuario_com_perfil "Gerente" true)
              (usuario_com_perfil "Recursos Humanos" true)
              (usuario_com_perfil "Administrador" true)
              "deletar_funcionario" eq_refl eq_refl eq_refl) as [_ H2].
  split; [ apply H1 | apply H2 ]; reflexivity.
Defined.

Lemma perfil_desconhecido (u : Usuario) (acao : string) :
  (forall p, perfil u <> perfil_value p) -> tem_permissao u acao = false.
Proof.
  intros H. unfold tem_permissao, Dict.get, permissoes.
  cbn [Dict.lookup].
  pose proof (H ADMIN) as H1. pose proof (H GERENTE) as H2.
  pose proof (H RH) as H3. pose proof (H FUNCIONARIO) as H4.
  destruct (String.eqb_spec (perfil_value ADMIN) (perfil u));
    [ congruence | ].
  destruct (String.eqb_spec (perfil_value GERENTE) (perfil u));
    [ congruence | ].
  destruct (String.eqb_spec (perfil_value RH) (perfil u));
    [ congruence | ].
  destruct (String.eqb_spec (perfil_value FUNCIONARIO) (perfil u));
    [ congruence | ].
  reflexivity.
Qed.

(** X18. No user, an inactive user, and a user whose profile is none of
    the four known ones are refused every action; a granted action always
    belongs to the table row of the profile of an active user. *)
Theorem verificar_permissao_nega (usuario : option Usuario) (acao : string) :
  (usuario = None -> AuthManager.verificar_permissao usuario acao = false)
  /\ (forall u, usuario = Some u -> ativo u = false ->
                AuthManager.verificar_permissao usuario acao = false)
  /\ (forall u, usuario = Some u ->
                (forall p, perfil u <> perfil_value p) ->
                AuthManager.verificar_permissao usuario acao = false)
  /\ (AuthManager.verificar_permissao usuario acao = true ->
      exists u p, usuario = Some u /\ ativo u = true
                  /\ perfil u = perfil_value p
                  /\ In acao (Dict.get permissoes (perfil_value p) [])).
Proof.
  split; [ intros ->; reflexivity | split; [ | split ] ].
  - intros u -> H. cbn. rewrite H. reflexivity.
  - intros u -> H. cbn. rewrite (perfil_desconhecido u acao H).
    destruct (ativo u); reflexivity.
  - destruct usuario as [u |]; [ | discriminate ].
    cbn. destruct (ativo u) eqn:Ea; [ | discriminate ]. cbn [negb].
    intros H.
    assert (Hp : exists p, perfil u = perfil_value p).
    { destruct (String.eqb_spec (perfil u) (perfil_value ADMIN));
        [ eauto | ].
      destruct (String.eqb_spec (perfil u) (perfil_value GERENTE));
        [ eauto | ].
      destruct (String.eqb_spec (perfil u) (perfil_value RH));
        [ eauto | ].
      destruct (String.eqb_spec (perfil u) (perfil_value FUNCIONARIO));
        [ eauto | ].
      rewrite perfil_desconhecido in H; [ discriminate | ].
      intros []; assumption. }
    destruct Hp as [p Hp]. exists u, p.
    rewrite (tem_permissao_perfil u p acao Hp) in H.
    unfold contains in H. apply existsb_exists in H.
    destruct H as (y & Hy & E). apply String.eqb_eq in E. subst y.
    repeat split; assumption.
Qed.

Lemma verificar_permissao_nega_witness :
  AuthManager.verificar_permissao
    (Some (usuario_com_perfil "Administrador" false)) "backup" = false
  /\ AuthManager.verificar_permissao
       (Some (usuario_com_perfil "administrador" true)) "backup" = false.
Proof.
  split.
  - apply (proj1 (proj2 (verificar_permissao_nega
                           (Some (usuario_com_perfil "Administrador" false))
                           "backup"))
             (usuario_com_perfil "Administrador" false));
      reflexivity.
  - apply (proj1 (proj2 (proj2 (verificar_permissao_nega
                           (Some (usuario_com_perfil "administrador" true))
                           "backup")))
             (usuario_com_perfil "administrador" true)).
    + reflexivity.
    + intros []; discriminate.
Defined.

(** X19. Managing users, backups and settings is granted to the
    administrator profile and to no other; viewing one's own data and
    requesting a leave is granted to the employee profile and to no
    other, not even the administrator. *)
Theorem tem_permissao_separacao (u : Usuario) (acao : string) :
  (In acao ["criar_usuario"; "editar_usuario"; "deletar_usuario";
            "backup"; "configuracoes"] ->
   (tem_permissao u acao = true <-> perfil u = "Administrador"))
  /\ (In acao ["visualizar_dados_pessoais"; "solicitar_afastamento"] ->
      (tem_permissao u acao = true <-> perfil u = "Funcionário")).
Proof.
  assert (Hcase : (exists p, perfil u = perfil_value p)
                  \/ (forall p, perfil u <> perfil_value p)).
  { destruct (String.eqb_spec (perfil u) (perfil_value ADMIN));
      [ eauto | ].
    destruct (String.eqb_spec (perfil u) (perfil_value GERENTE));
      [ eauto | ].
    destruct (String.eqb_spec (perfil u) (perfil_value RH));
      [ eauto | ].
    destruct (String.eqb_spec (perfil u) (perfil_value FUNCIONARIO));
      [ eauto | ].
    right. intros []; assumption. }
  split; intros Hin; cbn [In] in Hin;
    (destruct Hcase as [[p Hp] | Hno];
     [ rewrite (tem_permissao_perfil u p acao Hp), Hp;
       destruct p;
       repeat (destruct Hin as [<- | Hin]; [ cbn; split; congruence | ]);
       destruct Hin
     | rewrite (perfil_desconhecido u acao Hno);
       split; [ discriminate | ];
       intros E;
       first [ destruct (Hno ADMIN E) | destruct (Hno FUNCIONARIO E) ] ]).
Qed.

Lemma tem_permissao_separacao_witness :
  tem_permissao (usuario_com_perfil "Administrador" true) "backup" = true
  /\ ~ tem_permissao (usuario_com_perfil "Administrador" true)
         "solicitar_afastamento" = true.
Proof.
  split.
  - apply (proj1 (tem_permissao_separacao
                    (usuario_com_perfil "Administrador" true) "backup")).
    + cbn. tauto.
    + reflexivity.
  - intros H.
    apply (proj2 (tem_permissao_separacao
                    (usuario_com_perfil "Administrador" true)
                    "solicitar_afastamento")) in H.
    + discriminate H.
    + cbn. tauto.
Defined.

End Permissions.

(** ** Dictionaries *)

Section DictFacts.

Context {V : Type}.

Lemma lookup_set_same (d : Dict.t V) (k : string) (v : V) :
  Dict.lookup (Dict.set d k v) k = Some v.
Proof.
  induction d as [| [k' v'] d IH]; cbn [Dict.set Dict.lookup].
  - rewrite String.eqb_refl. reflexivity.
  - destruct (String.eqb_spec k' k) as [-> | N]; cbn [Dict.lookup].
    + rewrite String.eqb_refl. reflexivity.
    + destruct (String.eqb_spec k' k); [ contradiction | exact IH ].
Qed.

Lemma lookup_set_other (d : Dict.t V) (k k' : string) (v : V) :
  k <> k' -> Dict.lookup (Dict.set d k v) k' = Dict.lookup d k'.
Proof.
  intros N. induction d as [| [k0 v0] d IH]; cbn [Dict.set Dict.lookup].
  - destruct (String.eqb_spec k k'); [ contradiction | reflexivity ].
  - destruct (String.eqb_spec k0 k) as [-> | N0]; cbn [Dict.lookup].
    + destruct (String.eqb_spec k k'); [ contradiction | reflexivity ].
    + rewrite IH. reflexivity.
Qed.

Lemma get_set_same (d : Dict.t V) (k : string) (v dflt : V) :
  Dict.get (Dict.set d k v) k dflt = v.
Proof. unfold Dict.get. rewrite lookup_set_same. reflexivity. Qed.

Lemma get_set_other (d : Dict.t V) (k k' : string) (v dflt : V) :
  k <> k' -> Dict.get (Dict.set d k v) k' dflt = Dict.get d k' dflt.
Proof.
  intros N. unfold Dict.get. rewrite lookup_set_other by exact N.
  reflexivity.
Qed.

End DictFacts.

(** ** The JSON record store *)

Section Database.

Import DatabaseManager.





Lemma find_app_none {A : Type} (p : A -> bool) (l1 l2 : list A) :
  (forall a, In a l1 -> p a = false) -> find p (l1 ++ l2) = find p l2.
Proof.
  induction l1 as [| x l1 IH]; intros H; [ reflexivity | ].
  cbn [app find]. rewrite (H x (or_introl eq_refl)).
  apply IH. intros a Ha. apply H. right. exact Ha.
Qed.




Lemma remover_lista_some (l : list registro) (employee_id : Z) (x : registro) :
  find (id_is employee_id) l = Some x ->
  exists l1 l2,
    l = (l1 ++ x :: l2)%list
    /\ (forall a, In a l1 -> id_is employee_id a = false)
    /\ id_is employee_id x = true
    /\ remover_lista l employee_id = Some (l1 ++ l2)%list.
Proof.
  induction l as [| e l IH]; [ discriminate | ].
  cbn [find remover_lista].
  destruct (eq_int (Dict.get e "id" JNull) employee_id) eqn:E.
  - intros [= <-]. exists [], l. cbn [app].
    repeat split; try assumption. intros a [].
  - intros H. destruct (IH H) as (l1 & l2 & -> & Hl1 & Hx & Hr).
    exists (e :: l1), l2. rewrite Hr. cbn [app].
    repeat split; try assumption.
    intros a [<- | Ha]; [ exact E | apply Hl1; exact Ha ].
Qed.

Lemma remover_lista_none (l : list registro) (employee_id : Z) :
  find (id_is employee_id) l = None -> remover_lista l employee_id = None.
Proof.
  induction l as [| e l IH]; [ reflexivity | ].
  cbn [find remover_lista].
  destruct (eq_int (Dict.get e "id" JNull) employee_id);
    [ discriminate | ].
  intros H. rewrite (IH H). reflexivity.
Qed.

(** X21. Removing an id that no record has answers [False] and leaves the
    file as it is; otherwise it answers [True] and takes out the first
    record with that id and nothing else, so that a later record with the
    same id becomes the one found. *)
Theorem remover_funcionario_efeito (file : arquivo) (employee_id : Z) :
  (buscar_funcionario file employee_id = None ->
   remover_funcionario file employee_id = (false, file))
  /\ (forall x,
        buscar_funcionario file employee_id = Some x ->
        exists l1 l2,
          _load_json file = (l1 ++ x :: l2)%list
          /\ (forall a, In a l1 -> id_is employee_id a = false)
          /\ remover_funcionario file employee_id
             = (true, Some (l1 ++ l2)%list)
          /\ buscar_funcionario (Some (l1 ++ l2)%list) employee_id
             = find (id_is employee_id) l2).
Proof.
  unfold buscar_funcionario, remover_funcionario. split.
  - intros H. rewrite (remover_lista_none _ _ H). reflexivity.
  - intros x H.
    destruct (remover_lista_some _ _ _ H) as (l1 & l2 & E & Hl1 & Hx & Hr).
    exists l1, l2. rewrite Hr. cbn [_load_json].
    split; [ exact E | split; [ exact Hl1 | split; [ reflexivity | ] ] ].
    apply find_app_none. exact Hl1.
Qed.

Lemma remover_funcionario_efeito_witness :
  remover_funcionario employees_exemplo 7 = (false, employees_exemplo)
  /\ exists l1 l2,
       _load_json employees_exemplo
       = (l1 ++ [("id", JInt 1); ("name", JStr "Ana");
                 ("created_at", JStr "t0")] :: l2)%list
       /\ remover_funcionario employees_exemplo 1
          = (true, Some (l1 ++ l2)%list).
Proof.
  split.
  - apply (proj1 (remover_funcionario_efeito employees_exemplo 7)).
    reflexivity.
  - destruct (proj2 (remover_funcionario_efeito employees_exemplo 1)
                _ eq_refl) as (l1 & l2 & E & _ & H & _).
    exists l1, l2. split; assumption.
Defined.








(** X24. A user returned by the credential check is a stored record whose
    username and password are the ones given.  Only the first record
    with the username counts: if its password differs, the check fails
    whatever follows in the file. *)
Theorem validar_usuario_credenciais
    (file : arquivo) (username password : string) :
  (forall user,
     validar_usuario file username password = Some user ->
     In user (_load_json file)
     /\ Dict.get user "username" JNull = JStr username
     /\ Dict.get user "password" JNull = JStr password)
  /\ (forall l1 user l2,
        _load_json file = (l1 ++ user :: l2)%list ->
        (forall a, In a l1 ->
           Dict.get a "username" JNull <> JStr username) ->
        Dict.get user "username" JNull = JStr username ->
        Dict.get user "password" JNull <> JStr password ->
        validar_usuario file username password = None).
Proof.
  assert (Heq : forall v s, eq_str v s = true <-> v = JStr s).
  { intros v s. destruct v; cbn; try (split; [ discriminate | congruence ]).
    rewrite String.eqb_eq. split; congruence. }
  unfold validar_usuario, buscar_usuario_por_username. split.
  - intros user.
    destruct (find (fun user0 => eq_str (Dict.get user0 "username" JNull)
                                   username)
                (_load_json file)) as [u |] eqn:F; [ | discriminate ].
    apply find_some in F. destruct F as [Hin Hu].
    destruct u as [| kv u]; [ discriminate | ].
    destruct (eq_str (Dict.get (kv :: u) "password" JNull) password) eqn:P;
      [ | discriminate ].
    intros [= <-]. apply Heq in Hu, P. auto.
  - intros l1 user l2 E Hl1 Hu Hp. rewrite E.
    rewrite find_app_none.
    + cbn [find]. rewrite (proj2 (Heq _ _) Hu).
      destruct user as [| kv u]; [ reflexivity | ].
      destruct (eq_str (Dict.get (kv :: u) "password" JNull) password) eqn:P;
        [ | reflexivity ].
      apply Heq in P. contradiction.
    + intros a Ha. apply not_true_is_false. intros T. apply Heq in T.
      exact (Hl1 a Ha T).
Qed.

Lemma validar_usuario_credenciais_witness :
  validar_usuario users_exemplo "ana" "zz" = None.
Proof.
  apply (proj2 (validar_usuario_credenciais users_exemplo "ana" "zz")
           []
           [("id", JInt 1); ("username", JStr "ana"); ("password", JStr "a1")]
           [[("id", JInt 2); ("username", JStr "ana");
             ("password", JStr "zz")]]).
  - reflexivity.
  - intros a [].
  - reflexivity.
  - discriminate.
Defined.

End Database.

(** ** Totals by kind *)

Section Aggregation.

Variable A : Type.
Variable key : A -> string.
Variable w : A -> Z.

Lemma agg_get (l : list A) (d : Dict.t Z) (t : string) :
  Dict.get (fold_left (acumula key w) l d) t 0
  = Dict.get d t 0
    + total (map w (filter (fun a => (key a =? t)%string) l)).
Proof.
  revert d. induction l as [| a l IH]; intros d; cbn [fold_left filter].
  - cbn. lia.
  - rewrite IH. unfold acumula.
    destruct (String.eqb_spec (key a) t) as [<- | N].
    + rewrite get_set_same. cbn [map total fold_right].
      fold (total (map w (filter (fun a0 => (key a0 =? key a)%string) l))).
      lia.
    + rewrite get_set_other by exact N. reflexivity.
Qed.

Lemma keys_set (d : Dict.t Z) (k : string) (v : Z) :
  map fst (Dict.set d k v)
  = if existsb (fun k' => (k' =? k)%string) (map fst d) then map fst d
    else (map fst d ++ [k])%list.
Proof.
  induction d as [| [k' v'] d IH]; cbn [Dict.set map fst existsb app].
  - reflexivity.
  - destruct (String.eqb_spec k' k) as [-> | N]; cbn [map fst orb].
    + reflexivity.
    + rewrite IH. destruct (existsb _ (map fst d)); reflexivity.
Qed.

Lemma keys_set_nodup (d : Dict.t Z) (k : string) (v : Z) :
  NoDup (map fst d) -> NoDup (map fst (Dict.set d k v)).
Proof.
  intros H. rewrite keys_set.
  destruct (existsb _ (map fst d)) eqn:E; [ exact H | ].
  apply NoDup_app; [ exact H | constructor; [ intros [] | constructor ] | ].
  intros x Hx [E' | []]. subst x.
  assert (existsb (fun k' => (k' =? k)%string) (map fst d) = true)
    by (apply existsb_exists; exists k; split;
        [ exact Hx | apply String.eqb_refl ]).
  congruence.
Qed.

Lemma keys_set_in (d : Dict.t Z) (k : string) (v : Z) (x : string) :
  In x (map fst (Dict.set d k v)) <-> In x (map fst d) \/ x = k.
Proof.
  rewrite keys_set.
  destruct (existsb _ (map fst d)) eqn:E.
  - apply existsb_exists in E. destruct E as (k' & Hk' & Ek).
    apply String.eqb_eq in Ek. subst k'. split; [ auto | ].
    intros [H | ->]; assumption.
  - rewrite in_app_iff. cbn [In]. split; intros [H | H]; auto.
    + destruct H as [<- | []]. auto.
Qed.

Lemma agg_keys (l : list A) (d : Dict.t Z) :
  (NoDup (map fst d) -> NoDup (map fst (fold_left (acumula key w) l d)))
  /\ (forall x, In x (map fst (fold_left (acumula key w) l d)) <->
                In x (map fst d) \/ In x (map key l)).
Proof.
  revert d. induction l as [| a l IH]; intros d; cbn [fold_left map In].
  - split; [ auto | ]. intros x. tauto.
  - destruct (IH (acumula key w d a)) as [IH1 IH2]. split.
    + intros H. apply IH1. apply keys_set_nodup. exact H.
    + intros x. rewrite IH2. unfold acumula. rewrite keys_set_in.
      split; intros H; intuition auto.
Qed.

Lemma lookup_get (d : Dict.t Z) (k : string) :
  In k (map fst d) -> Dict.lookup d k = Some (Dict.get d k 0).
Proof.
  unfold Dict.get. induction d as [| [k' v] d IH]; cbn [map fst In Dict.lookup].
  - intros [].
  - destruct (String.eqb_spec k' k) as [-> | N]; [ reflexivity | ].
    intros [E | H]; [ contradiction | ]. apply IH. exact H.
Qed.

End Aggregation.

Section Summary.

Import ChartManager.

Lemma total_ones {A : Type} (l : list A) :
  total (map (fun _ => 1) l) = Z.of_nat (List.length l).
Proof.
  induction l as [| a l IH]; [ reflexivity | ].
  cbn [map total fold_right List.length].
  fold (total (map (fun _ : A => 1) l)). lia.
Qed.

Lemma tipos_dias_get (afastamentos : list Afastamento) (t : string) :
  Dict.get (tipos_dias afastamentos) t 0
  = total (map Afastamento.dias_afastamento
               (filter (do_tipo t) afastamentos)).
Proof.
  unfold tipos_dias.
  change (Dict.get
            (fold_left (acumula Afastamento.tipo Afastamento.dias_afastamento)
                       afastamentos []) t 0 = 
          total (map Afastamento.dias_afastamento
               (filter (do_tipo t) afastamentos))).
  rewrite agg_get. reflexivity.
Qed.

Lemma tipos_count_get (afastamentos : list Afastamento) (t : string) :
  Dict.get (tipos_count afastamentos) t 0
  = Z.of_nat (List.length (filter (do_tipo t) afastamentos)).
Proof.
  unfold tipos_count.
  change (Dict.get
            (fold_left (acumula Afastamento.tipo (fun _ => 1))
                       afastamentos []) t 0 = 
          Z.of_nat (List.length (filter (do_tipo t) afastamentos))).
  rewrite agg_get, total_ones. reflexivity.
Qed.

Lemma tipos_dias_keys (afastamentos : list Afastamento) :
  NoDup (map fst (tipos_dias afastamentos))
  /\ forall t, In t (map fst (tipos_dias afastamentos)) <->
               In t (map Afastamento.tipo afastamentos).
Proof.
  destruct (agg_keys _ Afastamento.tipo Afastamento.dias_afastamento
              afastamentos []) as [H1 H2].
  split; [ apply H1; constructor | ].
  intros t. rewrite (H2 t). cbn [map In]. tauto.
Qed.

Lemma tipos_count_keys (afastamentos : list Afastamento) :
  NoDup (map fst (tipos_count afastamentos))
  /\ forall t, In t (map fst (tipos_count afastamentos)) <->
               In t (map Afastamento.tipo afastamentos).
Proof.
  destruct (agg_keys _ Afastamento.tipo (fun _ => 1)
              afastamentos []) as [H1 H2].
  split; [ apply H1; constructor | ].
  intros t. rewrite (H2 t). cbn [map In]. tauto.
Qed.

(** X25. In the tables behind the charts, the entry of a kind holds the
    summed day counts, respectively the number, of the records of that
    kind; the days entered under "Férias" are the consumed days of the
    entitlement calculator; each kind present has exactly one entry. *)
Theorem tipos_dias_por_tipo
    (f : Funcionario) (afastamentos : list Afastamento) (t : string) :
  Dict.get (tipos_dias afastamentos) t 0
  = total (map Afastamento.dias_afastamento
               (filter (do_tipo t) afastamentos))
  /\ Dict.get (tipos_count afastamentos) t 0
     = Z.of_nat (List.length (filter (do_tipo t) afastamentos))
  /\ Dict.get (tipos_dias afastamentos) "Férias" 0
     = FeriasManager.calcular_dias_ferias_usados f afastamentos
  /\ NoDup (map fst (tipos_dias afastamentos))
  /\ (In t (map fst (tipos_dias afastamentos)) <->
      exists a, In a afastamentos /\ Afastamento.tipo a = t).
Proof.
  split; [ apply tipos_dias_get | ].
  split; [ apply tipos_count_get | ].
  split; [ rewrite tipos_dias_get, usados_total; reflexivity | ].
  destruct (tipos_dias_keys afastamentos) as [Hn Hk].
  split; [ exact Hn | ].
  rewrite Hk, in_map_iff. split; intros (a & H1 & H2); eauto.
Qed.

Lemma tipos_dias_por_tipo_witness :
  In "Falta" (map fst (tipos_dias [janeiro_2024; um_dia; ferias_1_5])).
Proof.
  apply (proj2 (proj2 (proj2 (proj2 (tipos_dias_por_tipo
           ana [janeiro_2024; um_dia; ferias_1_5] "Falta"))))).
  exists um_dia. split; [ right; left | ]; reflexivity.
Defined.

Lemma lookup_in (d : Dict.t Z) (k : string) (v : Z) :
  NoDup (map fst d) -> In (k, v) d -> Dict.lookup d k = Some v.
Proof.
  induction d as [| [k' v'] d IH]; cbn [map fst In Dict.lookup];
    [ intros _ [] | ].
  intros Hn [E | H].
  - injection E as -> ->. rewrite String.eqb_refl. reflexivity.
  - inversion Hn as [| x l Hx Hl]. subst.
    destruct (String.eqb_spec k' k) as [-> | N].
    + exfalso. apply Hx. apply (in_map fst) in H. exact H.
    + apply IH; assumption.
Qed.

Lemma resumo_linhas (td : Dict.t Z) (l : Dict.t Z) :
  (forall t, In t (map fst l) -> In t (map fst td)) ->
  fold_right
    (fun '(t, quantidade) linhas =>
       match Dict.lookup td t, linhas with
       | Some dias, Some linhas => Some ((t, quantidade, dias) :: linhas)
       | _, _ => None
       end)
    (Some []) l
  = Some (map (fun '(t, quantidade) => (t, quantidade, Dict.get td t 0)) l).
Proof.
  induction l as [| [t q] l IH]; intros H; [ reflexivity | ].
  cbn [fold_right map].
  rewrite IH by (intros t' Ht'; apply H; right; exact Ht').
  rewrite (lookup_get td t) by (apply H; left; reflexivity).
  reflexivity.
Qed.

(** X26. The summary by kind of the dashboard is always produced (the
    look-up of the days never fails): one row per kind present, each
    with the number of records of the kind, at least 1, and their summed
    day counts. *)
Theorem resumo_por_tipo_linhas (todos_afastamentos : list Afastamento) :
  exists linhas,
    Dashboard.resumo_por_tipo todos_afastamentos = Some linhas
    /\ NoDup (map (fun linha => fst (fst linha)) linhas)
    /\ (forall t, In t (map Afastamento.tipo todos_afastamentos) <->
                  In t (map (fun linha => fst (fst linha)) linhas))
    /\ (forall t quantidade dias,
          In (t, quantidade, dias) linhas ->
          quantidade
          = Z.of_nat (List.length (filter (do_tipo t) todos_afastamentos))
          /\ 1 <= quantidade
          /\ dias
             = total (map Afastamento.dias_afastamento
                          (filter (do_tipo t) todos_afastamentos))).
Proof.
  destruct (tipos_count_keys todos_afastamentos) as [Hcn Hck].
  destruct (tipos_dias_keys todos_afastamentos) as [Hdn Hdk].
  unfold Dashboard.resumo_por_tipo. cbv zeta.
  rewrite resumo_linhas by (intros t Ht; apply Hdk, Hck; exact Ht).
  eexists. split; [ reflexivity | ].
  assert (Hkeys : map (fun linha : string * Z * Z => fst (fst linha))
                    (map (fun '(t, quantidade) =>
                            (t, quantidade,
                             Dict.get (tipos_dias todos_afastamentos) t 0))
                         (tipos_count todos_afastamentos))
                  = map fst (tipos_count todos_afastamentos)).
  { rewrite map_map. apply map_ext. intros [t q]. reflexivity. }
  rewrite Hkeys.
  split; [ exact Hcn | split ].
  - intros t. symmetry. apply Hck.
  - intros t q d Hin. apply in_map_iff in Hin.
    destruct Hin as ([t' q'] & [= -> -> <-] & Hin).
    pose proof (lookup_in _ _ _ Hcn Hin) as Hl.
    pose proof (tipos_count_get todos_afastamentos t) as Hq.
    unfold Dict.get in Hq. rewrite Hl in Hq.
    split; [ exact Hq | split; [ | apply tipos_dias_get ] ].
    assert (Ht : In t (map Afastamento.tipo todos_afastamentos)).
    { apply Hck. apply (in_map fst) in Hin. exact Hin. }
    apply in_map_iff in Ht. destruct Ht as (a & Ea & Ha).
    assert (Hf : In a (filter (do_tipo t) todos_afastamentos)).
    { apply filter_In. split; [ exact Ha | ].
      unfold do_tipo. rewrite Ea. apply String.eqb_refl. }
    rewrite Hq. destruct (filter (do_tipo t) todos_afastamentos);
      [ destruct Hf | cbn [List.length]; lia ].
Qed.

Lemma resumo_por_tipo_linhas_witness :
  exists linhas,
    Dashboard.resumo_por_tipo [janeiro_2024; um_dia; ferias_1_5]
    = Some linhas
    /\ linhas = [("Férias", 2, 15); ("Falta", 1, 1)].
Proof.
  destruct (resumo_por_tipo_linhas [janeiro_2024; um_dia; ferias_1_5])
    as (linhas & E & _).
  exists linhas. split; [ exact E | ].
  cbv in E. injection E as <-. reflexivity.
Defined.

End Summary.
